(** * prediction-agent: decision engine, security ledger, execution pipeline,
      circuit breaker and signal cache

    A shallow embedding of the TypeScript sources:
    - the decision agent ([marketDecisionTool] and its scoring helpers),
    - [src/agents/execution.agent.ts] ([WalletSecurityManager],
      [TransactionMonitor], [tradeExecutionTool]),
    - [src/tools/reddit-intelligence.tool.ts] ([RedditApiCircuitBreaker],
      the cache helpers, the ranking and scoring of posts and
      [redditIntelligenceTool]),
    - the sentiment utilities ([calculateAggregateSentiment]),
    - [src/workflows/autonomous-trading.workflow.ts] ([applyMarketFilters],
      [makeFallbackDecision] and the safety bounds of
      [makeAutonomousDecision]).

    JavaScript numbers are kept behind the interface [Number] below, so that
    every function is written once, the way the source writes it.  The
    instance used for the general theorems is exact rational arithmetic
    ([Q]); the binary64 instance re-evaluates the concrete scenarios with
    IEEE rounding. *)

From Stdlib Require Import ZArith QArith Qround Qabs Qminmax Lqa Lia.
From Stdlib Require Import Bool List String Ascii DecimalString SpecFloat.
From Stdlib Require Import Sorted Permutation.
Import ListNotations.

Set Implicit Arguments.

(* ===================================================================== *)
(** ** JavaScript numbers *)
(* ===================================================================== *)

(** The arithmetic the sources use.  [ofQ] reads a decimal literal of the
    source text ([0.40], [2000], ...; see [lit]); [nlt a b] is [a < b] and [nle a b] is
    [a <= b], so that the source's [a > b] is [nlt b a] and [a >= b] is
    [nle b a]. *)
Class Number (num : Type) : Type := {
  ofQ : Q -> num;
  nadd : num -> num -> num;
  nsub : num -> num -> num;
  nmul : num -> num -> num;
  ndiv : num -> num -> num;
  nlt : num -> num -> bool;
  nle : num -> num -> bool;
  Math_abs : num -> num;
  Math_min : num -> num -> num;
  Math_max : num -> num -> num;
  (** [Math.round]: the integer nearest to the argument, halves upwards. *)
  Math_round : num -> Z;
  Math_floor : num -> Z;
  (** [parseFloat]; [None] is JavaScript's [NaN]. *)
  parseFloat : string -> option num;
  (** [x.toFixed(1)] and [String(x)]. *)
  toFixed1 : num -> string;
  toString : num -> string
}.

Declare Scope js_scope.
Delimit Scope js_scope with js.
Infix "+" := nadd : js_scope.
Infix "-" := nsub : js_scope.
Infix "*" := nmul : js_scope.
Infix "/" := ndiv : js_scope.
Notation "a <? b" := (nlt a b) : js_scope.
Notation "a <=? b" := (nle a b) : js_scope.
Notation "a >? b" := (nlt b a) : js_scope.
Notation "a >=? b" := (nle b a) : js_scope.
(** String concatenation (the source's template strings and [+]). *)
Infix "^" := String.append : js_scope.

(** A literal of the source text, written as in the source: [lit 0.40]. *)
Definition lit {num} `{Number num} (q : Q) : num := ofQ q.
Arguments lit {num _} q%_Q.

Definition ofZ {num} `{Number num} (z : Z) : num := ofQ (inject_Z z).

(** *** Printing *)

Definition Z_toString (z : Z) : string := NilZero.string_of_int (Z.to_int z).

(** The digits of [n] written with one digit after the point, [n] being the
    value times ten. *)
Definition tenthsToString (n : Z) : string :=
  (Z_toString (n / 10) ++ "." ++ Z_toString (n mod 10))%string.

(** [toFixed(1)]: the tenth nearest to the value, the larger one on a tie,
    computed on the absolute value and signed afterwards. *)
Definition Q_toFixed1 (x : Q) : string :=
  if Qle_bool 0 x
  then tenthsToString (Qfloor (x * 10 + (1 # 2)))
  else ("-" ++ tenthsToString (Qfloor (- x * 10 + (1 # 2))))%string.

(** Digits after the point of the fraction [r / d], [0 <= r < d], at most
    [fuel] of them. *)
Fixpoint fractionDigits (fuel : nat) (r d : Z) : string :=
  match fuel with
  | O => EmptyString
  | S fuel' =>
      if (r =? 0)%Z then EmptyString
      else (Z_toString (10 * r / d) ++ fractionDigits fuel' (10 * r mod d) d)%string
  end.

(** [String(x)] for a rational: an integer prints as its digits, any other
    value as its decimal expansion (cut after twenty digits when it does not
    terminate). *)
Definition Q_toString (x : Q) : string :=
  let n := Qnum x in
  let d := Zpos (Qden x) in
  let a := Z.abs n in
  let body :=
    if (a mod d =? 0)%Z then Z_toString (a / d)
    else (Z_toString (a / d) ++ "." ++ fractionDigits 20 (a mod d) d)%string in
  if (n <? 0)%Z then ("-" ++ body)%string else body.

(** *** Reading decimal text *)

Definition digitValue (c : ascii) : option Z :=
  let n := Z.of_N (N_of_ascii c) in
  if (48 <=? n)%Z && (n <=? 57)%Z then Some (n - 48)%Z else None.

(** The longest run of digits at the head of [s], and what follows it. *)
Fixpoint takeDigits (s : string) : list Z * string :=
  match s with
  | EmptyString => ([], s)
  | String c rest =>
      match digitValue c with
      | Some d => let (ds, rest') := takeDigits rest in (d :: ds, rest')
      | None => ([], s)
      end
  end.

Definition digitsValue (ds : list Z) : Z :=
  fold_left (fun acc d => 10 * acc + d)%Z ds 0%Z.

(** [parseFloat] on unsigned decimal text (digits, an optional point, digits):
    the value of the longest such prefix, read exactly, [None] when there is
    none.  This is the text the amount pattern of the schemas admits.  A
    sign, leading blanks, an exponent and [Infinity], which JavaScript reads
    as well, are not read; what is to hold of any text is stated of the
    number [parseFloat] returns, whatever it is. *)
Definition Q_parseFloat (s : string) : option Q :=
  let (ip, rest) := takeDigits s in
  let fp :=
    match rest with
    | String "."%char rest' => fst (takeDigits rest')
    | _ => []
    end in
  match ip, fp with
  | [], [] => None
  | _, _ =>
      Some (inject_Z (digitsValue ip)
            + inject_Z (digitsValue fp) / inject_Z (10 ^ Z.of_nat (List.length fp)))
  end.

(** The amount pattern of the schemas, [/^\d+(\.\d+)?$/]. *)
Definition amountSchema (s : string) : bool :=
  let (ip, rest) := takeDigits s in
  match ip, rest with
  | [], _ => false
  | _ :: _, EmptyString => true
  | _ :: _, String "."%char rest' =>
      match takeDigits rest' with
      | (_ :: _, EmptyString) => true
      | _ => false
      end
  | _ :: _, _ => false
  end.

(** *** Exact rational arithmetic *)

(** Every operation exact.  The source computes in binary64, which rounds
    every operation: a statement made in exact arithmetic says so, and where
    it does not carry over to binary64 at a rounding boundary the boundary
    is shown ([rounded_sum_accepted], [rounded_mean_passes_bound],
    [rounded_confidence_buys]). *)

Definition Qlt_bool (a b : Q) : bool := negb (Qle_bool b a).

#[export] Instance QNumber : Number Q | 0 := {|
  ofQ := fun q => q;
  nadd := Qplus;
  nsub := Qminus;
  nmul := Qmult;
  ndiv := Qdiv;
  nlt := Qlt_bool;
  nle := Qle_bool;
  Math_abs := Qabs;
  Math_min := Qmin;
  Math_max := Qmax;
  Math_round := fun x => Qfloor (x + (1 # 2));
  Math_floor := Qfloor;
  parseFloat := Q_parseFloat;
  toFixed1 := Q_toFixed1;
  toString := Q_toString
|}.

(** *** IEEE binary64 arithmetic *)

(** Doubles as the standard library specifies them ([spec_float] at
    precision 53), every operation rounding to nearest-even.  Printing goes
    through the exact value: [toFixed1] is then what JavaScript prints, while
    [toString] agrees with JavaScript on integers (other values print their
    exact expansion rather than the shortest one).  [Math_round] and
    [Math_floor] of an infinity or a NaN are not integers and are given
    as 0. *)
Module Binary64.

Definition prec : Z := 53.
Definition emax : Z := 1024.

Definition ofInteger (z : Z) : spec_float := binary_normalize prec emax z 0 false.

(** A decimal literal: the double nearest to the quotient (numerator and
    denominator below [2^53] are doubles themselves, and the division rounds
    correctly). *)
Definition ofDecimal (q : Q) : spec_float :=
  SFdiv prec emax (ofInteger (Qnum q)) (ofInteger (Zpos (Qden q))).

(** The exact value of a finite double. *)
Definition toQ (x : spec_float) : option Q :=
  match x with
  | S754_zero _ => Some 0%Q
  | S754_finite s m e =>
      let n := if s then Zneg m else Zpos m in
      Some (if (0 <=? e)%Z then inject_Z (n * 2 ^ e)
            else Qmake n (Z.to_pos (2 ^ (- e))))
  | _ => None
  end.

Definition isNaN (x : spec_float) : bool :=
  match x with S754_nan => true | _ => false end.

Definition isNegative (x : spec_float) : bool :=
  match x with
  | S754_zero s | S754_infinity s | S754_finite s _ _ => s
  | S754_nan => false
  end.

(** [Math.min] and [Math.max]: NaN if an argument is, and [-0 < +0]. *)
Definition min (a b : spec_float) : spec_float :=
  if isNaN a || isNaN b then S754_nan
  else if SFltb a b then a
  else if SFltb b a then b
  else if isNegative a then a else b.

Definition max (a b : spec_float) : spec_float :=
  if isNaN a || isNaN b then S754_nan
  else if SFltb a b then b
  else if SFltb b a then a
  else if isNegative a then b else a.

Definition onValue {A : Type} (f : Q -> A) (dflt : A) (x : spec_float) : A :=
  match toQ x with
  | Some q => f q
  | None => dflt
  end.

End Binary64.

#[export] Instance Binary64Number : Number spec_float | 10 := {|
  ofQ := Binary64.ofDecimal;
  nadd := SFadd Binary64.prec Binary64.emax;
  nsub := SFsub Binary64.prec Binary64.emax;
  nmul := SFmul Binary64.prec Binary64.emax;
  ndiv := SFdiv Binary64.prec Binary64.emax;
  nlt := SFltb;
  nle := SFleb;
  Math_abs := SFabs;
  Math_min := Binary64.min;
  Math_max := Binary64.max;
  Math_round := Binary64.onValue (fun q => Qfloor (q + (1 # 2))) 0%Z;
  Math_floor := Binary64.onValue Qfloor 0%Z;
  parseFloat := fun s => option_map Binary64.ofDecimal (Q_parseFloat s);
  toFixed1 := Binary64.onValue Q_toFixed1 "NaN"%string;
  toString := Binary64.onValue Q_toString "NaN"%string
|}.

(* ===================================================================== *)
(** ** Strings *)
(* ===================================================================== *)

(** [xs.join(sep)] *)
Fixpoint join (sep : string) (xs : list string) : string :=
  match xs with
  | [] => EmptyString
  | [x] => x
  | x :: rest => (x ++ sep ++ join sep rest)%string
  end.

(** [needle] occurs in [hay]. *)
Definition Substring (needle hay : string) : Prop :=
  exists pre post, hay = (pre ++ needle ++ post)%string.

Fixpoint prefixb (p s : string) : bool :=
  match p, s with
  | EmptyString, _ => true
  | String a p', String b s' => Ascii.eqb a b && prefixb p' s'
  | String _ _, EmptyString => false
  end.

(** [hay.includes(needle)] *)
Fixpoint includes (hay needle : string) : bool :=
  prefixb needle hay ||
  match hay with
  | EmptyString => false
  | String _ hay' => includes hay' needle
  end.

(** [c] does not occur in [s]. *)
Fixpoint lacks (c : ascii) (s : string) : Prop :=
  match s with
  | EmptyString => True
  | String x rest => x <> c /\ lacks c rest
  end.

(** The lower-case letters. *)
Definition letter (c : ascii) : Prop :=
  (97 <= nat_of_ascii c <= 122)%nat.

(* ===================================================================== *)
(** ** The decision agent: multi-factor scoring and the decision tool *)
(* ===================================================================== *)

Module Decision.

Inductive Direction := bullish | bearish | neutral.

Inductive Action := BUY | SELL | HOLD | NONE.

Inductive Strategy := sentiment_arbitrage | breaking_news_hunter | none.

Inductive Urgency := IMMEDIATE | NORMAL | PATIENT.

Section Engine.

Context {num : Type} `{Number num}.
Local Open Scope string_scope.
Local Open Scope list_scope.
Local Open Scope js_scope.

Record MarketContext := {
  marketId : string;
  title : string;
  currentPrice : num;
  impliedProbability : num;
  liquidity : num;
  volume24h : num;
  timeToClose : num; (* milliseconds *)
  spread : num;
  orderBookEnabled : bool
}.

Record NewsIntelligence := {
  sentiment_score : num;
  confidence : num;
  breaking_news : bool;
  news_count : num;
  source_credibility : num
}.

Record InfluencerSignal := {
  username : string;
  sentiment : num;
  influence_weight : num
}.

Record SocialIntelligence := {
  twitter_sentiment : num;
  reddit_sentiment : num;
  engagement_momentum : num;
  trending_topics : list string;
  influencer_signals : list InfluencerSignal
}.

Record TechnicalSignals := {
  price_momentum : num;
  volume_trend : num;
  market_efficiency : num
}.

Record CrossMarketSignals := {
  correlation_score : num;
  consensus_direction : Direction
}.

Record MarketIntelligence := {
  technical_signals : TechnicalSignals;
  cross_market_signals : CrossMarketSignals
}.

Record IntelligenceData := {
  newsIntelligence : NewsIntelligence;
  socialIntelligence : SocialIntelligence;
  marketIntelligence : MarketIntelligence
}.

Record ScoringFactors := {
  sentiment_edge : num;     (* 40% weight *)
  technical_momentum : num; (* 25% weight *)
  liquidity_quality : num;  (* 20% weight *)
  timing_urgency : num;     (* 10% weight *)
  news_catalyst : num       (* 5% weight *)
}.

Record RiskAssessment := {
  max_position_size : num;
  recommended_size : num;
  stop_loss_price : option num;
  take_profit_price : option num;
  risk_factors : list string;
  confidence_adjusted_size : num
}.

Record TradeDecision := {
  action : Action;
  outcome : option string;
  td_confidence : Z; (* 0-100 *)
  position_size : num; (* USD amount *)
  reasoning : string;
  strategy : Strategy;
  risk_assessment : RiskAssessment;
  scoring_breakdown : ScoringFactors;
  execution_urgency : Urgency
}.

(** Strategy configuration constants ([STRATEGY_CONFIG]). *)
Definition sa_min_sentiment_gap : num := lit 0.20.
Definition sa_min_confidence : num := lit 70.
Definition sa_min_liquidity : num := lit 2000.
Definition sa_min_time_buffer : num := lit 12 * lit 60 * lit 60 * lit 1000.
Definition sa_max_position : num := lit 100.
Definition bnh_stop_loss_threshold : num := lit 0.15.
Definition rm_max_single_trade : num := lit 100.
Definition rm_kelly_fraction : num := lit 0.25.

(** Multi-factor scoring weights ([SCORING_WEIGHTS]). *)
Definition w_sentiment_edge : num := lit 0.40.
Definition w_technical_momentum : num := lit 0.25.
Definition w_liquidity_quality : num := lit 0.20.
Definition w_timing_urgency : num := lit 0.10.
Definition w_news_catalyst : num := lit 0.05.

(** The weighted sentiment across the three sources; the tool recomputes the
    same expression to pick the direction. *)
Definition aggregatedSentiment (intelligence : IntelligenceData) : num :=
  let newsWeight := lit 0.3 in
  let twitterWeight := lit 0.4 in
  let redditWeight := lit 0.3 in
  (sentiment_score (newsIntelligence intelligence) * newsWeight) +
  (twitter_sentiment (socialIntelligence intelligence) * twitterWeight) +
  (reddit_sentiment (socialIntelligence intelligence) * redditWeight).

Definition calculateSentimentEdge
    (intelligence : IntelligenceData) (market : MarketContext) : num :=
  let aggregated := aggregatedSentiment intelligence in
  (* Convert market price to sentiment (-1 to 1 scale) *)
  let marketSentiment := (currentPrice market - lit 0.5) * lit 2 in
  (* Calculate edge as absolute difference *)
  let sentimentGap := Math_abs (aggregated - marketSentiment) in
  (* Confidence weighting *)
  let avgConfidence :=
    (confidence (newsIntelligence intelligence) + lit 0.8 + lit 0.7) / lit 3 in
  sentimentGap * avgConfidence.

Definition calculateTechnicalMomentum (intelligence : IntelligenceData) : num :=
  let technicals := technical_signals (marketIntelligence intelligence) in
  let momentum :=
    price_momentum technicals * lit 0.4 +
    volume_trend technicals * lit 0.3 +
    market_efficiency technicals * lit 0.3 in
  Math_max (lit 0) (Math_min (lit 1) momentum).

Definition calculateLiquidityQuality (market : MarketContext) : num :=
  let liquidityScore := Math_min (lit 1) (liquidity market / lit 10000) in
  let spreadScore := Math_max (lit 0) (lit 1 - (spread market / lit 0.05)) in
  let volumeScore := Math_min (lit 1) (volume24h market / lit 2000) in
  liquidityScore * lit 0.4 + spreadScore * lit 0.4 + volumeScore * lit 0.2.

Definition calculateTimingUrgency (market : MarketContext) : num :=
  let hoursToClose := timeToClose market / (lit 1000 * lit 60 * lit 60) in
  if hoursToClose <? lit 6 then lit 0.3
  else if hoursToClose >? lit 48 then lit 0.6
  else if (hoursToClose >=? lit 12) && (hoursToClose <=? lit 24) then lit 1.0
  else lit 0.7.

Definition calculateNewsCatalyst (intelligence : IntelligenceData) : num :=
  let news := newsIntelligence intelligence in
  let catalystScore := lit 0 in
  let catalystScore :=
    if breaking_news news then catalystScore + lit 0.4 else catalystScore in
  let volumeScore := Math_min (lit 0.3) (news_count news / lit 10) in
  let credibilityScore := source_credibility news * lit 0.3 in
  Math_min (lit 1) (catalystScore + volumeScore + credibilityScore).

Record Scoring := {
  totalScore : num;
  breakdown : ScoringFactors
}.

(** The weighted total of the five factors, as [calculateMultiFactorScore]
    writes it. *)
Definition weightedTotal (factors : ScoringFactors) : num :=
  (sentiment_edge factors * w_sentiment_edge) +
  (technical_momentum factors * w_technical_momentum) +
  (liquidity_quality factors * w_liquidity_quality) +
  (timing_urgency factors * w_timing_urgency) +
  (news_catalyst factors * w_news_catalyst).

Definition calculateMultiFactorScore
    (intelligence : IntelligenceData) (market : MarketContext) : Scoring :=
  let factors := {|
    sentiment_edge := calculateSentimentEdge intelligence market;
    technical_momentum := calculateTechnicalMomentum intelligence;
    liquidity_quality := calculateLiquidityQuality market;
    timing_urgency := calculateTimingUrgency market;
    news_catalyst := calculateNewsCatalyst intelligence
  |} in
  {| totalScore := weightedTotal factors; breakdown := factors |}.

Definition determineStrategy
    (intelligence : IntelligenceData) (market : MarketContext)
    (scoring : Scoring) : Strategy :=
  let b := breakdown scoring in
  if breaking_news (newsIntelligence intelligence) &&
     (news_catalyst b >? lit 0.6) &&
     (sentiment_edge b >? lit 0.3)
  then breaking_news_hunter
  else if (sentiment_edge b >? sa_min_sentiment_gap) &&
          (liquidity market >=? sa_min_liquidity) &&
          (timeToClose market >=? sa_min_time_buffer)
  then sentiment_arbitrage
  else none.

Definition calculatePositionSizing
    (confidence : num) (strategy : Strategy) (market : MarketContext)
    : RiskAssessment :=
  let maxPosition := rm_max_single_trade in
  let baseSize := lit 50 in
  (* Strategy-specific adjustments *)
  let '(maxPosition, baseSize) :=
    match strategy with
    | breaking_news_hunter => (lit 75, lit 40)
    | sentiment_arbitrage => (sa_max_position, baseSize)
    | none => (maxPosition, baseSize)
    end in
  (* Confidence scaling: linear from 50% to 100% confidence *)
  let confidenceMultiplier := Math_max (lit 0) ((confidence - lit 50) / lit 50) in
  let confidenceAdjustedSize := baseSize * (lit 0.5 + confidenceMultiplier) in
  (* Kelly criterion adjustment *)
  let kellyFraction := rm_kelly_fraction in
  let kellySize := confidenceAdjustedSize * kellyFraction in
  let recommendedSize := Math_min kellySize maxPosition in
  (* Risk factors assessment *)
  let riskFactors :=
    (if liquidity market <? lit 5000 then ["Low liquidity"] else []) ++
    (if spread market >? lit 0.03 then ["High spread"] else []) ++
    (if timeToClose market <? lit 24 * lit 60 * lit 60 * lit 1000
     then ["Short time to close"] else []) ++
    (if confidence <? lit 70 then ["Moderate confidence"] else []) in
  {| max_position_size := maxPosition;
     recommended_size := recommendedSize;
     confidence_adjusted_size := confidenceAdjustedSize;
     risk_factors := riskFactors;
     stop_loss_price :=
       match strategy with
       | breaking_news_hunter =>
           Some (currentPrice market * (lit 1 - bnh_stop_loss_threshold))
       | _ => None
       end;
     take_profit_price := None |}.

(** [generateTradeReasoning]; [decision] is the decision under construction,
    whose [reasoning] field is not read. *)
Definition generateTradeReasoning
    (decision : TradeDecision) (intelligence : IntelligenceData)
    (market : MarketContext) : string :=
  let sb := scoring_breakdown decision in
  let signals := influencer_signals (socialIntelligence intelligence) in
  let reasons :=
    (* Strategy-specific reasoning *)
    match strategy decision with
    | sentiment_arbitrage =>
        ["Sentiment Arbitrage: " ^ toFixed1 (sentiment_edge sb * lit 100)
           ^ "% sentiment edge detected"]
    | breaking_news_hunter =>
        ["Breaking News: High urgency catalyst with "
           ^ toFixed1 (news_catalyst sb * lit 100) ^ "% catalyst score"]
    | none => []
    end ++
    (* Key supporting factors *)
    (if technical_momentum sb >? lit 0.7
     then ["Strong technical momentum ("
             ^ toFixed1 (technical_momentum sb * lit 100) ^ "%)"]
     else []) ++
    (if liquidity_quality sb >? lit 0.8
     then ["Excellent liquidity conditions"] else []) ++
    (if breaking_news (newsIntelligence intelligence)
     then ["Breaking news catalyst detected"] else []) ++
    (match signals with
     | [] => []
     | _ :: _ =>
         let avgInfluencerSentiment :=
           fold_left (fun sum signal => sum + sentiment signal) signals (lit 0)
           / ofZ (Z.of_nat (List.length signals)) in
         ["Influencer signals: "
            ^ (if avgInfluencerSentiment >? lit 0 then "bullish" else "bearish")
            ^ " (" ^ Z_toString (Z.of_nat (List.length signals)) ^ " signals)"]
     end) ++
    (* Risk warnings *)
    (match risk_factors (risk_assessment decision) with
     | [] => []
     | _ :: _ =>
         ["Risk factors: " ^ join ", " (risk_factors (risk_assessment decision))]
     end) in
  join ". " reasons.

(** The tool's input schema (the zod bounds; strings and lists are free). *)
Definition between (lo hi x : num) : bool := (lo <=? x) && (x <=? hi).

Definition marketSchema (market : MarketContext) : bool :=
  between (lit 0) (lit 1) (currentPrice market) &&
  between (lit 0) (lit 100) (impliedProbability market) &&
  (lit 0 <=? liquidity market) &&
  (lit 0 <=? volume24h market) &&
  (lit 0 <=? timeToClose market) &&
  (lit 0 <=? spread market).

Definition influencerSchema (s : InfluencerSignal) : bool :=
  between (lit (-1)) (lit 1) (sentiment s) &&
  between (lit 0) (lit 1) (influence_weight s).

Definition intelligenceSchema (intelligence : IntelligenceData) : bool :=
  let news := newsIntelligence intelligence in
  let social := socialIntelligence intelligence in
  let technicals := technical_signals (marketIntelligence intelligence) in
  let cross := cross_market_signals (marketIntelligence intelligence) in
  between (lit (-1)) (lit 1) (sentiment_score news) &&
  between (lit 0) (lit 1) (confidence news) &&
  (lit 0 <=? news_count news) &&
  between (lit 0) (lit 1) (source_credibility news) &&
  between (lit (-1)) (lit 1) (twitter_sentiment social) &&
  between (lit (-1)) (lit 1) (reddit_sentiment social) &&
  between (lit 0) (lit 1) (engagement_momentum social) &&
  forallb influencerSchema (influencer_signals social) &&
  between (lit (-1)) (lit 1) (price_momentum technicals) &&
  between (lit (-1)) (lit 1) (volume_trend technicals) &&
  between (lit 0) (lit 1) (market_efficiency technicals) &&
  between (lit (-1)) (lit 1) (correlation_score cross).

Definition inputSchema (market : MarketContext) (intelligence : IntelligenceData)
    : bool :=
  marketSchema market && intelligenceSchema intelligence.

(** What the tool returns. *)
Record DecisionOut := {
  d_action : Action;
  d_outcome : option string;
  d_confidence : Z;
  d_position_size : num;
  d_reasoning : string;
  d_strategy : Strategy;
  d_execution_urgency : Urgency
}.

Record BreakdownOut := {
  b_factors : ScoringFactors;
  total_score : num
}.

Record ToolOutput := {
  decision : DecisionOut;
  out_risk_assessment : RiskAssessment;
  out_scoring_breakdown : BreakdownOut;
  market_filters_passed : bool;
  recommended_for_execution : bool
}.

(** The primary market filters: the reasons pushed, in the order of the five
    tests.  Every test is made; [filtersPassed] is false exactly when a reason
    was pushed. *)
Definition filtersPassedReasons (market : MarketContext) : list string :=
  (if liquidity market <? lit 1000 then ["Insufficient liquidity"] else []) ++
  (if timeToClose market >? lit 72 * lit 60 * lit 60 * lit 1000
   then ["Too much time until close"] else []) ++
  (if negb (orderBookEnabled market) then ["Order book not enabled"] else []) ++
  (if volume24h market <? lit 500 then ["Insufficient daily volume"] else []) ++
  (if spread market >? lit 0.05 then ["Spread too wide"] else []).

Definition filtersPassed (market : MarketContext) : bool :=
  negb ((liquidity market <? lit 1000) ||
        (timeToClose market >? lit 72 * lit 60 * lit 60 * lit 1000) ||
        negb (orderBookEnabled market) ||
        (volume24h market <? lit 500) ||
        (spread market >? lit 0.05)).

Definition sameAction (a b : Action) : bool :=
  match a, b with
  | BUY, BUY | SELL, SELL | HOLD, HOLD | NONE, NONE => true
  | _, _ => false
  end.

(** [marketDecisionTool.execute] *)
Definition marketDecisionTool
    (market : MarketContext) (intelligence : IntelligenceData) : ToolOutput :=
  let reasons := filtersPassedReasons market in
  (* If market filters fail, return NONE decision *)
  if negb (filtersPassed market) then
    {| decision := {|
         d_action := NONE;
         d_outcome := None;
         d_confidence := 0;
         d_position_size := lit 0;
         d_reasoning := "Market filters failed: " ^ join ", " reasons;
         d_strategy := none;
         d_execution_urgency := PATIENT |};
       out_risk_assessment := {|
         max_position_size := lit 0;
         recommended_size := lit 0;
         confidence_adjusted_size := lit 0;
         risk_factors := reasons;
         stop_loss_price := None;
         take_profit_price := None |};
       out_scoring_breakdown := {|
         b_factors := {|
           sentiment_edge := lit 0;
           technical_momentum := lit 0;
           liquidity_quality := lit 0;
           timing_urgency := lit 0;
           news_catalyst := lit 0 |};
         total_score := lit 0 |};
       market_filters_passed := false;
       recommended_for_execution := false |}
  else
    (* Calculate multi-factor scoring *)
    let scoring := calculateMultiFactorScore intelligence market in
    (* Determine strategy *)
    let strategy := determineStrategy intelligence market scoring in
    (* Calculate confidence (0-100 scale) *)
    let confidence := Math_round (totalScore scoring * lit 100) in
    (* Determine action and outcome *)
    let '(action, outcome) :=
      match strategy with
      | none => (NONE, None)
      | _ =>
          if ofZ confidence >=? lit 70 then
            let aggregated := aggregatedSentiment intelligence in
            if aggregated >? lit 0.1 then (BUY, Some "Yes")
            else if aggregated <? lit (-0.1) then (BUY, Some "No")
            else (HOLD, None)
          else (NONE, None)
      end in
    (* Calculate position sizing and risk assessment *)
    let riskAssessment := calculatePositionSizing (ofZ confidence) strategy market in
    (* Determine execution urgency *)
    let executionUrgency :=
      match strategy with
      | breaking_news_hunter => IMMEDIATE
      | _ =>
          if (ofZ confidence >? lit 85) &&
             (timing_urgency (breakdown scoring) <? lit 0.5) then IMMEDIATE
          else if ofZ confidence <? lit 75 then PATIENT
          else NORMAL
      end in
    let tradeDecision := {|
      action := action;
      outcome := outcome;
      td_confidence := confidence;
      position_size :=
        if negb (sameAction action NONE) then recommended_size riskAssessment
        else lit 0;
      reasoning := EmptyString; (* Will be filled below *)
      strategy := strategy;
      risk_assessment := riskAssessment;
      scoring_breakdown := breakdown scoring;
      execution_urgency := executionUrgency |} in
    (* Generate reasoning *)
    let reasoningText := generateTradeReasoning tradeDecision intelligence market in
    {| decision := {|
         d_action := action;
         d_outcome := outcome;
         d_confidence := confidence;
         d_position_size := position_size tradeDecision;
         d_reasoning := reasoningText;
         d_strategy := strategy;
         d_execution_urgency := executionUrgency |};
       out_risk_assessment := riskAssessment;
       out_scoring_breakdown := {|
         b_factors := breakdown scoring;
         total_score := totalScore scoring |};
       market_filters_passed := filtersPassed market;
       recommended_for_execution :=
         negb (sameAction action NONE) && (ofZ confidence >=? lit 70) |}.

End Engine.

End Decision.

(* ===================================================================== *)
(** ** Effects: state and exceptions *)
(* ===================================================================== *)

Module Effects.

(** Exceptions: an [Error] with its message. *)
Inductive Result (A : Type) : Type :=
| Ok (a : A)
| Throw (message : string).
Arguments Ok {A} a.
Arguments Throw {A} message.

(** Computations over a state [S] that may throw. *)
Definition M (S A : Type) : Type := S -> Result A * S.

Definition ret {S A} (a : A) : M S A := fun s => (Ok a, s).

Definition bind {S A B} (m : M S A) (k : A -> M S B) : M S B :=
  fun s =>
    match m s with
    | (Ok a, s') => k a s'
    | (Throw e, s') => (Throw e, s')
    end.

Definition throw {S A} (message : string) : M S A := fun s => (Throw message, s).

(** [try { m } catch (error) { h error.message }] *)
Definition tryCatch {S A} (m : M S A) (h : string -> M S A) : M S A :=
  fun s =>
    match m s with
    | (Ok a, s') => (Ok a, s')
    | (Throw e, s') => h e s'
    end.

Definition gets {S A} (f : S -> A) : M S A := fun s => (Ok (f s), s).

Definition modify {S} (f : S -> S) : M S unit := fun s => (Ok tt, f s).

Declare Scope monad_scope.
Delimit Scope monad_scope with monad.
Notation "x <- c ;; k" := (bind c (fun x => k))
  (at level 61, c at next level, right associativity) : monad_scope.
Notation "c ;; k" := (bind c (fun _ => k))
  (at level 61, right associativity) : monad_scope.

End Effects.

(* ===================================================================== *)
(** ** The execution agent: security manager and trade execution tool *)
(* ===================================================================== *)

Module Execution.

Import Effects.

Inductive TradeAction := BUY | SELL.

Inductive TradeStatus := PENDING | EXECUTED | FAILED | CANCELLED.

Inductive Urgency := IMMEDIATE | NORMAL | PATIENT.

Inductive TradeStrategy := sentiment_arbitrage | breaking_news_hunter.

(** What [evmClient.callTool] answers; [result] is untyped in the source, the
    fields below are the ones the agent reads. *)
Record Payload := {
  balance : option string;
  transactionHash : option string;
  executionPrice : option string;
  gasUsed : option string;
  actualSlippage : option string;
  confirmations : option Z
}.

Record CallResult := {
  success : bool;
  result : option Payload;
  error : option string
}.

(** [s.toLowerCase()] on ASCII letters. *)
Definition lowerAscii (c : ascii) : ascii :=
  let n := nat_of_ascii c in
  if (65 <=? n)%nat && (n <=? 90)%nat then ascii_of_nat (n + 32) else c.

Fixpoint toLowerCase (s : string) : string :=
  match s with
  | EmptyString => EmptyString
  | String c rest => String (lowerAscii c) (toLowerCase rest)
  end.

(** [xs.findIndex(x => x === target)], [-1] when there is none. *)
Fixpoint findIndex (target : string) (xs : list string) (i : Z) : Z :=
  match xs with
  | [] => (-1)%Z
  | x :: rest => if String.eqb x target then i else findIndex target rest (i + 1)%Z
  end.

(** A string option as JavaScript tests it: [undefined] and the empty string
    are falsy. *)
Definition truthy (o : option string) : bool :=
  match o with
  | Some (String _ _) => true
  | _ => false
  end.

(** [o || dflt] *)
Definition orElse (o : option string) (dflt : string) : string :=
  match o with
  | Some (String c r) => String c r
  | _ => dflt
  end.

(** A string option inside a template string. *)
Definition showOpt (o : option string) : string :=
  match o with
  | Some s => s
  | None => "undefined"
  end.

Section Agent.

Context {num : Type} `{Number num}.
Local Open Scope string_scope.
Local Open Scope list_scope.
Local Open Scope js_scope.

(** *** Numbers that may be [NaN] *)

Definition nan_add (a b : option num) : option num :=
  match a, b with
  | Some x, Some y => Some (x + y)
  | _, _ => None
  end.

(** [a > b] and [a < b]; a comparison with [NaN] is false. *)
Definition nan_gt (a b : option num) : bool :=
  match a, b with
  | Some x, Some y => x >? y
  | _, _ => false
  end.

Definition nan_lt (a b : option num) : bool :=
  match a, b with
  | Some x, Some y => x <? y
  | _, _ => false
  end.

Definition nan_toString (a : option num) : string :=
  match a with
  | Some x => toString x
  | None => "NaN"
  end.

(** *** Security and risk management constants *)

Record PositionLimits := {
  maxDailySpend : num;
  maxSingleTrade : num;
  maxTotalExposure : num;
  maxConcurrentTrades : Z;
  dailyLossLimit : num
}.

Definition SECURITY_LIMITS : PositionLimits := {|
  maxDailySpend := lit 300;
  maxSingleTrade := lit 100;
  maxTotalExposure := lit 300;
  maxConcurrentTrades := 3;
  dailyLossLimit := lit 100
|}.

Definition maxRetries : Z := 3.
Definition retryDelayMs : Z := 5000.

Definition usdc : string := "0x2791Bca1f2de4661ED88A30C99A7a9449Aa84174".

(** *** [WalletSecurityManager] *)

Record WalletSecurityContext := {
  dailySpentAmount : option num;
  concurrentTradesCount : Z;
  lastResetDate : string;
  emergencyStopActive : bool
}.

Record Validation := {
  valid : bool;
  reason : option string
}.

(** [validateTradeAmount]; [today] is [new Date().toDateString()]. *)
Definition validateTradeAmount
    (amount : string) (today : string) (ctx : WalletSecurityContext)
    : Validation * WalletSecurityContext :=
  if emergencyStopActive ctx then
    ({| valid := false; reason := Some "Emergency stop is active" |}, ctx)
  else
    let tradeAmount := parseFloat amount in
    (* Reset daily counter if new day *)
    let ctx :=
      if negb (String.eqb today (lastResetDate ctx)) then
        {| dailySpentAmount := Some (lit 0);
           concurrentTradesCount := concurrentTradesCount ctx;
           lastResetDate := today;
           emergencyStopActive := emergencyStopActive ctx |}
      else ctx in
    (* Check single trade limit *)
    if nan_gt tradeAmount (Some (maxSingleTrade SECURITY_LIMITS)) then
      ({| valid := false;
          reason := Some ("Trade amount $" ^ amount
                          ^ " exceeds max single trade limit $"
                          ^ toString (maxSingleTrade SECURITY_LIMITS)) |}, ctx)
    (* Check daily spending limit *)
    else if nan_gt (nan_add (dailySpentAmount ctx) tradeAmount)
                   (Some (maxDailySpend SECURITY_LIMITS)) then
      ({| valid := false;
          reason := Some ("Trade would exceed daily spending limit. Daily spent: $"
                          ^ nan_toString (dailySpentAmount ctx)
                          ^ ", Trade: $" ^ nan_toString tradeAmount
                          ^ ", Limit: $"
                          ^ toString (maxDailySpend SECURITY_LIMITS)) |}, ctx)
    (* Check concurrent trades limit *)
    else if (concurrentTradesCount ctx >=? maxConcurrentTrades SECURITY_LIMITS)%Z then
      ({| valid := false;
          reason := Some ("Maximum concurrent trades limit reached: "
                          ^ Z_toString (maxConcurrentTrades SECURITY_LIMITS)) |}, ctx)
    else ({| valid := true; reason := None |}, ctx).

Definition recordTradeStart (amount : string) (ctx : WalletSecurityContext)
    : WalletSecurityContext :=
  {| dailySpentAmount := nan_add (dailySpentAmount ctx) (parseFloat amount);
     concurrentTradesCount := (concurrentTradesCount ctx + 1)%Z;
     lastResetDate := lastResetDate ctx;
     emergencyStopActive := emergencyStopActive ctx |}.

Definition recordTradeEnd (ctx : WalletSecurityContext) : WalletSecurityContext :=
  {| dailySpentAmount := dailySpentAmount ctx;
     concurrentTradesCount := Z.max 0 (concurrentTradesCount ctx - 1);
     lastResetDate := lastResetDate ctx;
     emergencyStopActive := emergencyStopActive ctx |}.

Definition activateEmergencyStop (ctx : WalletSecurityContext)
    : WalletSecurityContext :=
  {| dailySpentAmount := dailySpentAmount ctx;
     concurrentTradesCount := concurrentTradesCount ctx;
     lastResetDate := lastResetDate ctx;
     emergencyStopActive := true |}.

(** The parts of a validation, named for the statements about it. *)
Definition reject (why : string) : Validation :=
  {| valid := false; reason := Some why |}.

Definition accept : Validation := {| valid := true; reason := None |}.

Definition dayRollover (today : string) (ctx : WalletSecurityContext)
    : WalletSecurityContext :=
  if negb (String.eqb today (lastResetDate ctx)) then
    {| dailySpentAmount := Some (lit 0);
       concurrentTradesCount := concurrentTradesCount ctx;
       lastResetDate := today;
       emergencyStopActive := emergencyStopActive ctx |}
  else ctx.

Definition exceedsSingleTrade (amount : string) : bool :=
  nan_gt (parseFloat amount) (Some (maxSingleTrade SECURITY_LIMITS)).

Definition exceedsDailySpend (amount : string) (ctx : WalletSecurityContext)
    : bool :=
  nan_gt (nan_add (dailySpentAmount ctx) (parseFloat amount))
         (Some (maxDailySpend SECURITY_LIMITS)).

Definition atConcurrentLimit (ctx : WalletSecurityContext) : bool :=
  (concurrentTradesCount ctx >=? maxConcurrentTrades SECURITY_LIMITS)%Z.

(** *** The collaborators of the execution tool *)

(** The calls made through [evmClient.callTool], with their parameters. *)
Inductive ToolCall :=
| get_balance (tokenAddress address : string)
| approve_token_spending (tokenAddress spenderAddress amount : string)
| write_contract (contractAddress functionName : string)
    (outcomeIndex : Z) (amount : string) (minShares : option Z)
| get_transaction (txHash : string).

(** The EVM server and the chain behind it are external: any state, any
    answers.  [callTool] never throws (the client catches and answers
    [success: false]). *)
Variable Backend : Type.
Variable callTool : ToolCall -> Backend -> CallResult * Backend.

(** A row of [trade_decisions]. *)
Record TradeDecision := {
  id : string;
  td_marketId : string;
  td_action : TradeAction;
  td_outcome : string;
  plannedAmount : string;
  actualAmount : option string;
  td_confidence : num;
  td_reasoning : string;
  status : TradeStatus;
  td_transactionHash : option string;
  td_executionPrice : option string
}.

Record TradeExecutionInput := {
  marketId : string;
  marketAddress : string;
  action : TradeAction;
  outcome : string;
  availableOutcomes : option (list string);
  amount : string; (* USDC amount *)
  confidence : num;
  maxSlippage : num;
  executionUrgency : Urgency;
  strategy : TradeStrategy;
  reasoning : string
}.

Record ExecutionResult := {
  er_success : bool;
  er_transactionHash : option string;
  executedAmount : option string;
  er_executionPrice : option string;
  er_gasUsed : option string;
  slippage : option (option num);
  er_error : option string;
  er_retryCount : option Z
}.

(** What the tool returns (the measured [execution_time] is left out). *)
Record ExecutionOut := {
  out_success : bool;
  transaction_hash : option string;
  executed_amount : option string;
  execution_price : option string;
  gas_used : option string;
  out_slippage : option (option num);
  out_error : option string;
  retry_count : Z
}.

Record SecurityChecks := {
  limits_passed : bool;
  daily_spent : option num;
  concurrent_trades : Z;
  security_warnings : list string
}.

Record ToolOutput := {
  execution_result : ExecutionOut;
  security_checks : SecurityChecks;
  database_recorded : bool;
  monitoring_active : bool
}.

(** What a run does to its collaborators, in order. *)
Inductive Event :=
| ev_validate (amount : string)
| ev_recordTradeStart (amount : string)
| ev_recordTradeEnd
| ev_activateEmergencyStop (reason : string)
| ev_callTool (call : ToolCall)
| ev_delay (ms : Z)
| ev_create (rowId : string)
| ev_updateStatus (rowId : string) (newStatus : TradeStatus)
| ev_waitForConfirmation (txHash : string) (rowId : string).

(** The state a run works on: the process-wide security context, the
    backend, the table with the failures the database will answer to the
    coming operations ([Some e]: the operation throws [e]), the environment,
    the events so far and the local variable [retryCount]. *)
Record Run := {
  securityContext : WalletSecurityContext;
  backend : Backend;
  rows : list TradeDecision;
  dbFaults : list (option string);
  POLYMARKET_WALLET_ADDRESS : option string;
  today : string;
  trace : list Event;
  retryCount : Z
}.

Definition setSecurity (c : WalletSecurityContext) (r : Run) : Run :=
  {| securityContext := c; backend := backend r; rows := rows r;
     dbFaults := dbFaults r;
     POLYMARKET_WALLET_ADDRESS := POLYMARKET_WALLET_ADDRESS r;
     today := today r; trace := trace r; retryCount := retryCount r |}.

Definition setBackend (b : Backend) (r : Run) : Run :=
  {| securityContext := securityContext r; backend := b; rows := rows r;
     dbFaults := dbFaults r;
     POLYMARKET_WALLET_ADDRESS := POLYMARKET_WALLET_ADDRESS r;
     today := today r; trace := trace r; retryCount := retryCount r |}.

Definition setDb (t : list TradeDecision) (f : list (option string)) (r : Run)
    : Run :=
  {| securityContext := securityContext r; backend := backend r; rows := t;
     dbFaults := f;
     POLYMARKET_WALLET_ADDRESS := POLYMARKET_WALLET_ADDRESS r;
     today := today r; trace := trace r; retryCount := retryCount r |}.

Definition setRetryCount (n : Z) (r : Run) : Run :=
  {| securityContext := securityContext r; backend := backend r; rows := rows r;
     dbFaults := dbFaults r;
     POLYMARKET_WALLET_ADDRESS := POLYMARKET_WALLET_ADDRESS r;
     today := today r; trace := trace r; retryCount := n |}.

Definition emit (e : Event) (r : Run) : Run :=
  {| securityContext := securityContext r; backend := backend r; rows := rows r;
     dbFaults := dbFaults r;
     POLYMARKET_WALLET_ADDRESS := POLYMARKET_WALLET_ADDRESS r;
     today := today r; trace := trace r ++ [e]; retryCount := retryCount r |}.

Local Open Scope monad_scope.

(** The security manager's methods, on the singleton. *)
Definition validateM (amount : string) : M Run Validation :=
  fun r =>
    let (v, c) := validateTradeAmount amount (today r) (securityContext r) in
    (Ok v, setSecurity c (emit (ev_validate amount) r)).

Definition recordTradeStartM (amount : string) : M Run unit :=
  modify (fun r => setSecurity (recordTradeStart amount (securityContext r))
                     (emit (ev_recordTradeStart amount) r)).

Definition recordTradeEndM : M Run unit :=
  modify (fun r => setSecurity (recordTradeEnd (securityContext r))
                     (emit ev_recordTradeEnd r)).

Definition activateEmergencyStopM (reason : string) : M Run unit :=
  modify (fun r => setSecurity (activateEmergencyStop (securityContext r))
                     (emit (ev_activateEmergencyStop reason) r)).

Definition callToolM (call : ToolCall) : M Run CallResult :=
  fun r =>
    let (res, b) := callTool call (backend r) in
    (Ok res, setBackend b (emit (ev_callTool call) r)).

(** [await new Promise(resolve => setTimeout(resolve, ms))] *)
Definition delay (ms : Z) : M Run unit := modify (emit (ev_delay ms)).

(** [TradeDecisionsRepository.create]: the row gets a fresh id and the
    status it is given. *)
Definition freshId (t : list TradeDecision) : string :=
  "trade-" ^ Z_toString (Z.of_nat (List.length t)).

Definition repoCreate (input : TradeExecutionInput) (st : TradeStatus)
    : M Run TradeDecision :=
  fun r =>
    match dbFaults r with
    | Some e :: rest => (Throw e, setDb (rows r) rest r)
    | _ =>
        let row := {|
          id := freshId (rows r);
          td_marketId := marketId input;
          td_action := action input;
          td_outcome := outcome input;
          plannedAmount := amount input;
          actualAmount := None;
          td_confidence := confidence input;
          td_reasoning := reasoning input;
          status := st;
          td_transactionHash := None;
          td_executionPrice := None |} in
        (Ok row, setDb (rows r ++ [row]) (tl (dbFaults r)) (emit (ev_create (id row)) r))
    end.

Definition withStatus (st : TradeStatus) (row : TradeDecision) : TradeDecision :=
  {| id := id row; td_marketId := td_marketId row; td_action := td_action row;
     td_outcome := td_outcome row; plannedAmount := plannedAmount row;
     actualAmount := actualAmount row; td_confidence := td_confidence row;
     td_reasoning := td_reasoning row; status := st;
     td_transactionHash := td_transactionHash row;
     td_executionPrice := td_executionPrice row |}.

(** [TradeDecisionsRepository.updateStatus(id, status)] *)
Definition repoUpdateStatus (rowId : string) (st : TradeStatus) : M Run unit :=
  fun r =>
    match dbFaults r with
    | Some e :: rest => (Throw e, setDb (rows r) rest r)
    | _ =>
        (Ok tt,
         setDb (map (fun row => if String.eqb (id row) rowId
                                then withStatus st row else row) (rows r))
               (tl (dbFaults r))
               (emit (ev_updateStatus rowId st) r))
    end.

(** *** [tradeExecutionTool] *)

(** Determine outcome index for dynamic outcomes. *)
Definition outcomeIndexOf (tradeInput : TradeExecutionInput) : Z :=
  match availableOutcomes tradeInput with
  | Some (o :: os) =>
      let outcomeIndex := findIndex (outcome tradeInput) (o :: os) 0 in
      if (outcomeIndex =? -1)%Z then
        (* Fallback: try case-insensitive match or binary logic *)
        let normalizedOutcome := toLowerCase (outcome tradeInput) in
        if String.eqb normalizedOutcome "yes" || String.eqb normalizedOutcome "true"
        then 1%Z
        else 0%Z
      else outcomeIndex
  | _ =>
      (* Fallback for binary markets *)
      if String.eqb (toLowerCase (outcome tradeInput)) "yes" then 1%Z else 0%Z
  end.

Definition payloadField (f : Payload -> option string) (res : CallResult)
    : option string :=
  match result res with
  | Some p => f p
  | None => None
  end.

(** One pass through the [try] block of the retry loop: the new
    [executionResult] on success, an exception otherwise. *)
Definition attempt (tradeInput : TradeExecutionInput) : M Run ExecutionResult :=
  (* 5a. Approve USDC spending if needed *)
  approvalResult <- callToolM (approve_token_spending usdc
                                 (marketAddress tradeInput) (amount tradeInput)) ;;
  if negb (success approvalResult) then
    throw ("Token approval failed: " ^ showOpt (error approvalResult))
  else
    (* 5b. Execute the actual trade *)
    let outcomeIndex := outcomeIndexOf tradeInput in
    let minShares :=
      option_map (fun a => Math_floor (a * (lit 1 - maxSlippage tradeInput / lit 100)
                                       * lit 1000000))
                 (parseFloat (amount tradeInput)) in
    tradeResult <- callToolM (write_contract (marketAddress tradeInput) "buy"
                                outcomeIndex (amount tradeInput) minShares) ;;
    if success tradeResult then
      retryCount <- gets retryCount ;;
      ret {| er_success := true;
             er_transactionHash := payloadField transactionHash tradeResult;
             executedAmount := Some (amount tradeInput);
             er_executionPrice := payloadField executionPrice tradeResult;
             er_gasUsed := payloadField gasUsed tradeResult;
             slippage := Some (parseFloat
                                 (orElse (payloadField actualSlippage tradeResult) "0"));
             er_error := None;
             er_retryCount := Some retryCount |}
    else
      throw (orElse (error tradeResult) "Trade execution failed").

(** The [executionResult] set once the retries are used up. *)
Definition failedResult (errorMessage : string) (retryCount : Z) : ExecutionResult :=
  {| er_success := false;
     er_transactionHash := None;
     executedAmount := None;
     er_executionPrice := None;
     er_gasUsed := None;
     slippage := None;
     er_error := Some errorMessage;
     er_retryCount := Some retryCount |}.

(** The [catch] block of the retry loop: what [executionResult] is
    afterwards. *)
Definition attemptFailed (executionResult : ExecutionResult) (errorMessage : string)
    : M Run ExecutionResult :=
  modify (fun r => setRetryCount (retryCount r + 1)%Z r) ;;
  retryCount <- gets retryCount ;;
  if (retryCount <=? maxRetries)%Z then
    delay retryDelayMs ;;
    ret executionResult
  else
    ret (failedResult errorMessage retryCount).

(** [while (retryCount <= maxRetries && !executionResult.success) { ... }];
    a successful pass leaves the loop ([break]).  [fuel] bounds the number
    of passes. *)
Fixpoint retryLoop (fuel : nat) (tradeInput : TradeExecutionInput)
    (executionResult : ExecutionResult) : M Run ExecutionResult :=
  match fuel with
  | O => ret executionResult
  | S fuel' =>
      retryCount <- gets retryCount ;;
      if (retryCount <=? maxRetries)%Z && negb (er_success executionResult) then
        fun r =>
          match attempt tradeInput r with
          | (Ok executionResult', r') => (Ok executionResult', r') (* break *)
          | (Throw errorMessage, r') =>
              (executionResult' <- attemptFailed executionResult errorMessage ;;
               retryLoop fuel' tradeInput executionResult') r'
          end
      else ret executionResult
  end.

(** Passes that can be needed: [retryCount] runs from [0] to [maxRetries]. *)
Definition loopFuel : nat := Z.to_nat (maxRetries + 1).

Definition initialResult : ExecutionResult :=
  {| er_success := false; er_transactionHash := None; executedAmount := None;
     er_executionPrice := None; er_gasUsed := None; slippage := None;
     er_error := None; er_retryCount := None |}.

(** The [try] block of [execute]. *)
Definition tryBlock (tradeInput : TradeExecutionInput) : M Run ToolOutput :=
  (* 1. Security validation *)
  securityValidation <- validateM (amount tradeInput) ;;
  if negb (valid securityValidation) then
    ctx <- gets securityContext ;;
    ret {| execution_result := {|
             out_success := false;
             transaction_hash := None;
             executed_amount := None;
             execution_price := None;
             gas_used := None;
             out_slippage := None;
             out_error := reason securityValidation;
             retry_count := 0 |};
           security_checks := {|
             limits_passed := false;
             daily_spent := dailySpentAmount ctx;
             concurrent_trades := concurrentTradesCount ctx;
             security_warnings :=
               [orElse (reason securityValidation) "Security validation failed"] |};
           database_recorded := false;
           monitoring_active := false |}
  else
    (* 2. Pre-execution wallet checks *)
    walletAddress <- gets POLYMARKET_WALLET_ADDRESS ;;
    if negb (truthy walletAddress) then
      throw "POLYMARKET_WALLET_ADDRESS environment variable is required - no mock addresses allowed"
    else
      balanceResult <- callToolM (get_balance usdc (showOpt walletAddress)) ;;
      if negb (success balanceResult) then
        throw ("Wallet balance check failed: " ^ showOpt (error balanceResult))
      else
        let availableBalance :=
          parseFloat (orElse (payloadField balance balanceResult) "0") in
        let requiredAmount := parseFloat (amount tradeInput) in
        if nan_lt availableBalance requiredAmount then
          throw ("Insufficient USDC balance: " ^ nan_toString availableBalance
                 ^ " < " ^ nan_toString requiredAmount)
        else
          (* 3. Record trade start in security manager *)
          recordTradeStartM (amount tradeInput) ;;
          (* 4. Create database record with PENDING status *)
          savedTrade <- repoCreate tradeInput PENDING ;;
          (* 5. Execute trade with retry logic *)
          executionResult <- retryLoop loopFuel tradeInput initialResult ;;
          (* 6. Monitor transaction confirmation if successful *)
          monitoringActive <-
            (if er_success executionResult
                && truthy (er_transactionHash executionResult)
             then
               (* Start confirmation monitoring (don't wait for it) *)
               modify (emit (ev_waitForConfirmation
                               (showOpt (er_transactionHash executionResult))
                               (id savedTrade))) ;;
               ret true
             else
               (* Update database with failure *)
               repoUpdateStatus (id savedTrade) FAILED ;;
               ret false) ;;
          (* 7. Update security manager *)
          recordTradeEndM ;;
          (* 8. Return comprehensive result *)
          ctx <- gets securityContext ;;
          retryCount <- gets retryCount ;;
          ret {| execution_result := {|
                   out_success := er_success executionResult;
                   transaction_hash := er_transactionHash executionResult;
                   executed_amount := executedAmount executionResult;
                   execution_price := er_executionPrice executionResult;
                   gas_used := er_gasUsed executionResult;
                   out_slippage := slippage executionResult;
                   out_error := er_error executionResult;
                   retry_count := retryCount |};
                 security_checks := {|
                   limits_passed := true;
                   daily_spent := dailySpentAmount ctx;
                   concurrent_trades := concurrentTradesCount ctx;
                   security_warnings := [] |};
                 database_recorded := true;
                 monitoring_active := monitoringActive |}.

(** The [catch] block of [execute]. *)
Definition catchBlock (errorMessage : string) (r : Run) : ToolOutput * Run :=
  (* Ensure security manager is updated even on failure *)
  let r := setSecurity (recordTradeEnd (securityContext r))
             (emit ev_recordTradeEnd r) in
  (* Activate emergency stop on critical failures *)
  let r :=
    if includes errorMessage "insufficient" || includes errorMessage "unauthorized"
    then
      let stopReason := "Critical execution failure: " ^ errorMessage in
      setSecurity (activateEmergencyStop (securityContext r))
        (emit (ev_activateEmergencyStop stopReason) r)
    else r in
  ({| execution_result := {|
        out_success := false;
        transaction_hash := None;
        executed_amount := None;
        execution_price := None;
        gas_used := None;
        out_slippage := None;
        out_error := Some errorMessage;
        retry_count := retryCount r |};
      security_checks := {|
        limits_passed := false;
        daily_spent := dailySpentAmount (securityContext r);
        concurrent_trades := concurrentTradesCount (securityContext r);
        security_warnings := [errorMessage] |};
      database_recorded := false;
      monitoring_active := false |}, r).

(** [tradeExecutionTool.execute]: [retryCount] starts at [0]. *)
Definition execute (tradeInput : TradeExecutionInput) (r : Run) : ToolOutput * Run :=
  match tryBlock tradeInput (setRetryCount 0 r) with
  | (Ok out, r') => (out, r')
  | (Throw errorMessage, r') => catchBlock errorMessage r'
  end.

(** How often an event of a kind occurs in a trace. *)
Definition isRecordEnd (e : Event) : bool :=
  match e with ev_recordTradeEnd => true | _ => false end.

Definition isRecordStart (e : Event) : bool :=
  match e with ev_recordTradeStart _ => true | _ => false end.

(** Every pass of the retry loop starts with the approval call, and nothing
    else makes that call. *)
Definition isAttempt (e : Event) : bool :=
  match e with ev_callTool (approve_token_spending _ _ _) => true | _ => false end.

Definition isCallTool (e : Event) : bool :=
  match e with ev_callTool _ => true | _ => false end.

(** [r'] is [r] after the events [evs], which touched nothing but the
    backend, with [retryCount] now at [n]. *)
Definition reaches (r r' : Run) (n : Z) (evs : list Event) : Prop :=
  securityContext r' = securityContext r /\
  rows r' = rows r /\
  dbFaults r' = dbFaults r /\
  POLYMARKET_WALLET_ADDRESS r' = POLYMARKET_WALLET_ADDRESS r /\
  today r' = today r /\
  retryCount r' = n /\
  trace r' = trace r ++ evs.

Definition advances (r r' : Run) (evs : list Event) : Prop :=
  reaches r r' (retryCount r) evs.

(** What is not an approval call among the calls of a pass. *)
Definition followUp (e : Event) : Prop :=
  isCallTool e = true /\ isAttempt e = false.

(** The events that are neither [recordTradeStart] nor [recordTradeEnd]. *)
Definition offLedger (e : Event) : Prop :=
  isRecordStart e = false /\ isRecordEnd e = false.

(** The events a run added to the trace. *)
Definition newEvents (r r' : Run) : list Event :=
  skipn (List.length (trace r)) (trace r').


(** The wallet holds enough for the trade: the balance call succeeds and the
    balance is not below the amount. *)
Definition walletCovers (tradeInput : TradeExecutionInput) (r : Run) : Prop :=
  truthy (POLYMARKET_WALLET_ADDRESS r) = true /\
  let balanceResult :=
    fst (callTool (get_balance usdc (showOpt (POLYMARKET_WALLET_ADDRESS r)))
           (backend r)) in
  success balanceResult = true /\
  nan_lt (parseFloat (orElse (payloadField balance balanceResult) "0"))
         (parseFloat (amount tradeInput)) = false.

(** The security manager lets the amount through. *)
Definition securityAccepts (tradeInput : TradeExecutionInput) (r : Run) : Prop :=
  valid (fst (validateTradeAmount (amount tradeInput) (today r)
                (securityContext r))) = true.

(** The state a run is in when the retry loop starts. *)
Definition atLoop (tradeInput : TradeExecutionInput) (r : Run) : Run :=
  let c := snd (validateTradeAmount (amount tradeInput) (today r)
                  (securityContext r)) in
  let b1 := snd (callTool (get_balance usdc
                             (showOpt (POLYMARKET_WALLET_ADDRESS r)))
                   (backend r)) in
  {| securityContext := recordTradeStart (amount tradeInput) c;
     backend := b1;
     rows := rows r ++ [{|
       id := freshId (rows r);
       td_marketId := marketId tradeInput;
       td_action := action tradeInput;
       td_outcome := outcome tradeInput;
       plannedAmount := amount tradeInput;
       actualAmount := None;
       td_confidence := confidence tradeInput;
       td_reasoning := reasoning tradeInput;
       status := PENDING;
       td_transactionHash := None;
       td_executionPrice := None |}];
     dbFaults := [];
     POLYMARKET_WALLET_ADDRESS := POLYMARKET_WALLET_ADDRESS r;
     today := today r;
     trace := trace r ++ [ev_validate (amount tradeInput);
                          ev_callTool (get_balance usdc
                                         (showOpt (POLYMARKET_WALLET_ADDRESS r)));
                          ev_recordTradeStart (amount tradeInput);
                          ev_create (freshId (rows r))];
     retryCount := 0 |}.

Definition isDelay (e : Event) : bool :=
  match e with ev_delay _ => true | _ => false end.

Definition occurrences (p : Event -> bool) (t : list Event) : nat :=
  List.length (filter p t).

(** The least number of shares asked of the trade call (step 5b). *)
Definition minSharesOf (tradeInput : TradeExecutionInput) : option Z :=
  option_map (fun a => Math_floor (a * (lit 1 - maxSlippage tradeInput / lit 100)
                                   * lit 1000000))
             (parseFloat (amount tradeInput)).

(** The result and the state of a run whose retry loop ended with [er] in
    the state [rEnd] (steps 6 to 8), the database answering. *)
Definition closing (tradeInput : TradeExecutionInput) (r : Run)
    (er : ExecutionResult) (rEnd : Run) : ToolOutput * Run :=
  let watched := er_success er && truthy (er_transactionHash er) in
  let savedId := freshId (rows r) in
  ({| execution_result := {|
        out_success := er_success er;
        transaction_hash := er_transactionHash er;
        executed_amount := executedAmount er;
        execution_price := er_executionPrice er;
        gas_used := er_gasUsed er;
        out_slippage := slippage er;
        out_error := er_error er;
        retry_count := retryCount rEnd |};
      security_checks := {|
        limits_passed := true;
        daily_spent := dailySpentAmount (recordTradeEnd (securityContext rEnd));
        concurrent_trades :=
          concurrentTradesCount (recordTradeEnd (securityContext rEnd));
        security_warnings := [] |};
      database_recorded := true;
      monitoring_active := watched |},
   {| securityContext := recordTradeEnd (securityContext rEnd);
      backend := backend rEnd;
      rows := if watched then rows rEnd
              else map (fun row => if (id row =? savedId)%string
                                   then withStatus FAILED row else row)
                     (rows rEnd);
      dbFaults := [];
      POLYMARKET_WALLET_ADDRESS := POLYMARKET_WALLET_ADDRESS rEnd;
      today := today rEnd;
      trace := (trace rEnd
                ++ [if watched
                    then ev_waitForConfirmation
                           (showOpt (er_transactionHash er)) savedId
                    else ev_updateStatus savedId FAILED])
               ++ [ev_recordTradeEnd];
      retryCount := retryCount rEnd |}).

(** *** Across runs *)

(** The singleton within its caps: what was spent today is not above the
    daily cap, and the count of open trades lies between 0 and the
    concurrent cap. *)
Definition withinLimits (ctx : WalletSecurityContext) : Prop :=
  nan_gt (dailySpentAmount ctx) (Some (maxDailySpend SECURITY_LIMITS)) = false /\
  (0 <= concurrentTradesCount ctx <= maxConcurrentTrades SECURITY_LIMITS)%Z.

Definition setToday (day : string) (r : Run) : Run :=
  {| securityContext := securityContext r; backend := backend r; rows := rows r;
     dbFaults := dbFaults r;
     POLYMARKET_WALLET_ADDRESS := POLYMARKET_WALLET_ADDRESS r;
     today := day; trace := trace r; retryCount := retryCount r |}.

(** Runs of the tool one after the other in the same process, each with the
    date on which it is made. *)
Fixpoint executeAll (runs : list (string * TradeExecutionInput)) (r : Run)
    : list ToolOutput * Run :=
  match runs with
  | [] => ([], r)
  | (day, tradeInput) :: rest =>
      let (out, r1) := execute tradeInput (setToday day r) in
      let (outs, r2) := executeAll rest r1 in
      (out :: outs, r2)
  end.

(** *** [TransactionMonitor] *)

Definition confirmationBlocks : Z := 2.
Definition transactionTimeoutMs : Z := 300000.

(** What [waitForConfirmation] answers. *)
Record Confirmation := {
  confirmed : bool;
  cf_confirmations : option Z;
  cf_error : option string
}.

(** The clock of the world behind the backend ([Date.now()]), and the world
    once a timer of [ms] milliseconds has run out. *)
Variable clock : Backend -> Z.
Variable elapse : Z -> Backend -> Backend.

(** [await new Promise(resolve => setTimeout(resolve, ms))], with the time
    it takes. *)
Definition sleep (ms : Z) : M Run unit :=
  modify (fun r => setBackend (elapse ms (backend r)) (emit (ev_delay ms) r)).

(** [n || 0] *)
Definition orZero (o : option Z) : Z :=
  match o with
  | Some n => n
  | None => 0%Z
  end.

Definition timedOut : Confirmation :=
  {| confirmed := false; cf_confirmations := None;
     cf_error := Some "Transaction confirmation timeout" |}.

(** [while (Date.now() - startTime < timeoutMs) { ... }] of
    [waitForConfirmation]; [fuel] bounds the number of polls.  The client
    never throws, so the [catch] block of the loop is never entered. *)
Fixpoint waitLoop (fuel : nat) (txHash : string)
    (requiredConfirmations timeoutMs startTime : Z) : M Run Confirmation :=
  match fuel with
  | O => ret timedOut
  | S fuel' =>
      now <- gets (fun r => clock (backend r)) ;;
      if (now - startTime <? timeoutMs)%Z then
        result <- callToolM (get_transaction txHash) ;;
        match success result, Execution.result result with
        | true, Some payload =>
            let confirmations := orZero (confirmations payload) in
            if (confirmations >=? requiredConfirmations)%Z then
              ret {| confirmed := true; cf_confirmations := Some confirmations;
                     cf_error := None |}
            else
              (* Wait before next check *)
              sleep 10000 ;; (* 10 second intervals *)
              waitLoop fuel' txHash requiredConfirmations timeoutMs startTime
        | _, _ =>
            ret {| confirmed := false; cf_confirmations := None;
                   cf_error := Some (orElse (error result)
                                       "Transaction status check failed") |}
        end
      else ret timedOut
  end.

(** Polls that can be needed: one every ten seconds until the timeout. *)
Definition pollFuel (timeoutMs : Z) : nat := Z.to_nat (timeoutMs / 10000 + 2).

(** [waitForConfirmation(txHash)] with its default parameters. *)
Definition waitForConfirmation (txHash : string) : M Run Confirmation :=
  startTime <- gets (fun r => clock (backend r)) ;;
  waitLoop (pollFuel transactionTimeoutMs) txHash confirmationBlocks
    transactionTimeoutMs startTime.

(** [TradeDecisionsRepository.updateStatus(id, 'EXECUTED', updates)] with
    the three fields the watch writes. *)
Definition withExecution (er : ExecutionResult) (row : TradeDecision)
    : TradeDecision :=
  {| id := id row; td_marketId := td_marketId row; td_action := td_action row;
     td_outcome := td_outcome row; plannedAmount := plannedAmount row;
     actualAmount := executedAmount er; td_confidence := td_confidence row;
     td_reasoning := td_reasoning row; status := EXECUTED;
     td_transactionHash := er_transactionHash er;
     td_executionPrice := er_executionPrice er |}.

Definition repoUpdateExecuted (rowId : string) (er : ExecutionResult)
    : M Run unit :=
  fun r =>
    match dbFaults r with
    | Some e :: rest => (Throw e, setDb (rows r) rest r)
    | _ =>
        (Ok tt,
         setDb (map (fun row => if String.eqb (id row) rowId
                                then withExecution er row else row) (rows r))
               (tl (dbFaults r))
               (emit (ev_updateStatus rowId EXECUTED) r))
    end.

(** The watch the tool starts in step 6 and does not wait for:
    [waitForConfirmation(hash).then(...).catch(...)]. *)
Definition confirmationWatch (savedId : string) (executionResult : ExecutionResult)
    : M Run unit :=
  tryCatch
    (confirmationResult <-
       waitForConfirmation (showOpt (er_transactionHash executionResult)) ;;
     if confirmed confirmationResult then
       repoUpdateExecuted savedId executionResult
     else
       repoUpdateStatus savedId FAILED)
    (fun _ => repoUpdateStatus savedId FAILED).

Definition isPoll (e : Event) : bool :=
  match e with ev_callTool (get_transaction _) => true | _ => false end.

(** A poll of the transaction is answered with [n] confirmations, in some
    state of the backend. *)
Definition answered (txHash : string) (n : Z) : Prop :=
  exists b payload,
    success (fst (callTool (get_transaction txHash) b)) = true
    /\ result (fst (callTool (get_transaction txHash) b)) = Some payload
    /\ orZero (confirmations payload) = n.

End Agent.

End Execution.

(* ===================================================================== *)
(** ** The Reddit intelligence tool: circuit breaker and signal cache *)
(* ===================================================================== *)

Module Reddit.

Import Effects.

Inductive CommunitySentiment := bullish | bearish | neutral | divided.

(** *** [RedditApiCircuitBreaker] *)

Record RedditApiCircuitBreaker := {
  failures : Z;
  lastFailureTime : Z;
  failureThreshold : Z;
  recoveryTimeout : Z
}.

(** A new breaker; the two settings are read from the environment,
    [REDDIT_FAILURE_THRESHOLD] and [REDDIT_RECOVERY_TIMEOUT_MINUTES]. *)
Definition newBreaker (threshold minutes : Z) : RedditApiCircuitBreaker :=
  {| failures := 0; lastFailureTime := 0;
     failureThreshold := threshold; recoveryTimeout := minutes * 60000 |}.

(** Both settings default to ['5']. *)
Definition defaultBreaker : RedditApiCircuitBreaker := newBreaker 5 5.

(** [isOpen]; [now] is [Date.now()]. *)
Definition isOpen (cb : RedditApiCircuitBreaker) (now : Z) : bool :=
  (failures cb >=? failureThreshold cb)%Z &&
  (now - lastFailureTime cb <? recoveryTimeout cb)%Z.

Definition onSuccess (cb : RedditApiCircuitBreaker) : RedditApiCircuitBreaker :=
  {| failures := 0; lastFailureTime := lastFailureTime cb;
     failureThreshold := failureThreshold cb;
     recoveryTimeout := recoveryTimeout cb |}.

Definition onFailure (now : Z) (cb : RedditApiCircuitBreaker)
    : RedditApiCircuitBreaker :=
  {| failures := failures cb + 1; lastFailureTime := now;
     failureThreshold := failureThreshold cb;
     recoveryTimeout := recoveryTimeout cb |}.

Section Breaker.

(** The world outside the breaker, on which the wrapped operation works, with
    its clock ([Date.now()]). *)
Variable Ext : Type.
Variable clock : Ext -> Z.

(** [execute(operation, fallback)] *)
Definition execute {T : Type} (operation : M Ext T) (fallback : T)
    : M (RedditApiCircuitBreaker * Ext) T :=
  fun '(cb, w) =>
    if isOpen cb (clock w) then (Ok fallback, (cb, w))
    else
      match operation w with
      | (Ok result, w') => (Ok result, (onSuccess cb, w'))
      | (Throw e, w') => (Throw e, (onFailure (clock w') cb, w'))
      end.

(** Calls made one after the other, each through [execute] with the same
    fallback; the outcomes in order. *)
Fixpoint executeAll {T : Type} (operations : list (M Ext T)) (fallback : T)
    (s : RedditApiCircuitBreaker * Ext)
    : list (Result T) * (RedditApiCircuitBreaker * Ext) :=
  match operations with
  | [] => ([], s)
  | op :: rest =>
      let (r, s') := execute op fallback s in
      let (rs, s'') := executeAll rest fallback s' in
      (r :: rs, s'')
  end.

(** An operation that fails whenever it is invoked. *)
Definition alwaysFails {T : Type} (operation : M Ext T) : Prop :=
  forall w, exists e w', operation w = (Throw e, w').

Definition isThrow {T : Type} (r : Result T) : Prop :=
  match r with
  | Throw _ => True
  | Ok _ => False
  end.

End Breaker.

(** *** The cache *)

Section Cache.

Variable V : Type.

(** [LRUCache] of the lru-cache package, with the options [max] and [ttl]:
    the entries from the most to the least recently used, each with the time
    it was set. *)
Record Entry := {
  key : string;
  value : V;
  start : Z
}.

Record LRUCache := {
  max : nat;
  ttl : Z;
  entries : list Entry
}.

Definition hasKey (k : string) (e : Entry) : bool := String.eqb (key e) k.

Definition withEntries (es : list Entry) (c : LRUCache) : LRUCache :=
  {| max := max c; ttl := ttl c; entries := es |}.

(** [cache.delete(k)] *)
Definition lru_delete (k : string) (c : LRUCache) : LRUCache :=
  withEntries (filter (fun e => negb (hasKey k e)) (entries c)) c.

(** An entry is stale once it is older than the ttl (a ttl or a start time
    of 0 counts as none). *)
Definition isStale (c : LRUCache) (now : Z) (e : Entry) : bool :=
  negb (ttl c =? 0)%Z && negb (start e =? 0)%Z && (now - start e >? ttl c)%Z.

(** [cache.get(k)]: a stale entry is deleted and not returned; a hit becomes
    the most recently used entry. *)
Definition lru_get (k : string) (now : Z) (c : LRUCache) : option V * LRUCache :=
  match find (hasKey k) (entries c) with
  | None => (None, c)
  | Some e =>
      if isStale c now e then (None, lru_delete k c)
      else (Some (value e), withEntries (e :: entries (lru_delete k c)) c)
  end.

(** [cache.set(k, v)]: the entry becomes the most recently used one; beyond
    [max] entries the least recently used ones are dropped. *)
Definition lru_set (k : string) (v : V) (now : Z) (c : LRUCache) : LRUCache :=
  withEntries
    (firstn (max c)
       ({| key := k; value := v; start := now |} :: entries (lru_delete k c)))
    c.

(** A cache in order: no two entries under one key, and no more than [max]
    entries. *)
Definition wellKept (c : LRUCache) : Prop :=
  NoDup (map key (entries c)) /\ (List.length (entries c) <= max c)%nat.

End Cache.

Arguments key {V} _.
Arguments value {V} _.
Arguments start {V} _.
Arguments max {V} _.
Arguments ttl {V} _.
Arguments entries {V} _.

Section Tool.

Context {num : Type} `{Number num}.
Local Open Scope string_scope.
Local Open Scope list_scope.
Local Open Scope js_scope.

Record RedditPost := {
  title : string;
  content : string;
  score : num;
  subreddit : string;
  author : string;
  created_utc : num;
  num_comments : num;
  upvote_ratio : num;
  permalink : string
}.

Record RedditDiscussion := {
  rd_title : string;
  rd_content : string;
  rd_score : num;
  rd_subreddit : string;
  engagement : num;
  credibility : num;
  sentiment : num;
  timeRelevance : num
}.

Record ProcessedRedditData := {
  sentiment_score : num; (* -1 to 1 *)
  confidence : num; (* 0 to 1 *)
  trending_topics : list string;
  key_discussions : list RedditDiscussion;
  community_sentiment : CommunitySentiment;
  engagement_momentum : num;
  credibility_score : num;
  post_volume : num;
  average_sentiment : num;
  subreddit_distribution : list (string * num);
  time_relevance_score : num
}.

Record Cached := {
  data : ProcessedRedditData;
  timestamp : Z
}.

(** [new LRUCache({ max: 100, ttl: 5 * 60 * 1000 })] *)
Definition emptyCache : LRUCache Cached :=
  {| max := 100; ttl := 5 * 60 * 1000; entries := [] |}.

Definition cacheKeyOf (marketId queryHash : string) : string :=
  "reddit:" ^ marketId ^ ":" ^ queryHash.

(** [getCachedResult]; [now] is the clock, read by the cache and by
    [Date.now()]. *)
Definition getCachedResult (marketId queryHash : string) (now : Z)
    (cache : LRUCache Cached) : option ProcessedRedditData * LRUCache Cached :=
  let cacheKey := cacheKeyOf marketId queryHash in
  match lru_get cacheKey now cache with
  | (None, cache') => (None, cache')
  | (Some cached, cache') =>
      (* Check if cache is still fresh *)
      let ttl := (5 * 60 * 1000)%Z in (* 5 minutes *)
      if (now - timestamp cached >? ttl)%Z then (None, lru_delete cacheKey cache')
      else (Some (data cached), cache')
  end.

(** A cache as the module builds it. *)
Definition configured (cache : LRUCache Cached) : Prop :=
  max cache = 100%nat /\ ttl cache = (5 * 60 * 1000)%Z.

(** The cache holds nothing under the key. *)
Definition absent (cacheKey : string) (cache : LRUCache Cached) : Prop :=
  find (hasKey cacheKey) (entries cache) = None.

Definition setCachedResult (marketId queryHash : string)
    (d : ProcessedRedditData) (now : Z) (cache : LRUCache Cached)
    : LRUCache Cached :=
  let cacheKey := cacheKeyOf marketId queryHash in
  lru_set cacheKey {| data := d; timestamp := now |} now cache.

(** The result for no usable posts; the tool's [catch] block returns the same
    values. *)
Definition neutralData : ProcessedRedditData :=
  {| sentiment_score := lit 0;
     confidence := lit 0;
     trending_topics := [];
     key_discussions := [];
     community_sentiment := neutral;
     engagement_momentum := lit 0;
     credibility_score := lit 0;
     post_volume := lit 0;
     average_sentiment := lit 0;
     subreddit_distribution := [];
     time_relevance_score := lit 0 |}.

(** [xs.sort((a, b) => key(b) - key(a))]: stable, largest key first. *)
Fixpoint insertByKey (key : RedditPost -> num) (x : RedditPost)
    (sorted : list RedditPost) : list RedditPost :=
  match sorted with
  | [] => [x]
  | y :: ys =>
      if key x <? key y then y :: insertByKey key x ys else x :: y :: ys
  end.

Definition sortByKey (key : RedditPost -> num) (xs : list RedditPost)
    : list RedditPost :=
  fold_right (insertByKey key) [] xs.

(** Filter and rank posts by relevance and quality. *)
Definition qualityPosts (posts : list RedditPost) : list RedditPost :=
  firstn 15
    (sortByKey (fun p => score p * upvote_ratio p)
       (filter (fun post => (50 <? String.length (content post))%nat
                            || (20 <? String.length (title post))%nat)
          (filter (fun post => score post >? lit 5) posts))).

(** Deduplicate and rank posts: the first post of every title and
    subreddit is kept. *)
Definition dedupKey (post : RedditPost) : string :=
  title post ^ "-" ^ subreddit post.

Fixpoint uniquePosts (seen : list string) (posts : list RedditPost)
    : list RedditPost :=
  match posts with
  | [] => []
  | post :: rest =>
      let key := dedupKey post in
      if existsb (String.eqb key) seen then uniquePosts seen rest
      else post :: uniquePosts (key :: seen) rest
  end.

Definition relevanceScore (p : RedditPost) : num := score p * upvote_ratio p.

Definition deduplicateAndRankPosts (posts : list RedditPost) : list RedditPost :=
  let unique := uniquePosts [] posts in
  (* Sort by relevance score (combination of score and upvote ratio) *)
  firstn 50 (sortByKey relevanceScore unique). (* Limit to top 50 posts *)

(** Calculate post credibility. *)
Definition reputableSubs : list string :=
  ["PredictionMarkets"; "Economics"; "investing"].

Definition calculatePostCredibility (post : RedditPost) : num :=
  let s := lit 0.5 in (* Base credibility *)
  (* Subreddit reputation weighting *)
  let s := if existsb (String.eqb (subreddit post)) reputableSubs
           then s + lit 0.2 else s in
  (* Score and engagement weighting *)
  let s := if score post >? lit 20 then s + lit 0.1 else s in
  let s := if num_comments post >? lit 10 then s + lit 0.1 else s in
  let s := if upvote_ratio post >? lit 0.8 then s + lit 0.1 else s in
  (* Content quality indicators *)
  let s := if (200 <? String.length (content post))%nat
           then s + lit 0.1 else s in
  let s := if includes (title post) "analysis"
              || includes (title post) "prediction"
           then s + lit 0.1 else s in
  Math_min s (lit 1.0).

(** Calculate time relevance; [now] is [Date.now()]. *)
Definition calculateTimeRelevance (created_utc : num) (now : Z) : num :=
  let hoursSincePost := (ofZ now / lit 1000 - created_utc) / lit 3600 in
  (* More recent posts are more relevant *)
  if hoursSincePost <? lit 1 then lit 1.0
  else if hoursSincePost <? lit 6 then lit 0.9
  else if hoursSincePost <? lit 24 then lit 0.7
  else if hoursSincePost <? lit 72 then lit 0.5
  else lit 0.3.

Inductive TimeFilter := hour | day | week | month | year | all.

Inductive SortBy := relevance | new | hot | top.

Record ToolInput := {
  marketTitle : string;
  marketId : string;
  keywords : list string;
  subreddits : option (list string);
  timeFilter : TimeFilter;
  sortBy : SortBy
}.

Record ToolOutput := {
  out_data : ProcessedRedditData;
  sources : list string;
  cached : bool
}.

(** The outside world of the tool: Reddit, the language model, the clock. *)
Variable Ext : Type.
Variable clock : Ext -> Z.

(** [searchRedditDiscussions] with the tool's parameters (limit 25). *)
Variable searchRedditDiscussions : ToolInput -> M Ext (list RedditPost).

(** The rest of [processRedditData] for a non-empty selection of posts: the
    sentiment analysis by the language model and the aggregates. *)
Variable analyzeQualityPosts :
  list RedditPost -> string -> M Ext ProcessedRedditData.

(** [generateQueryHash]: the MD5 of the JSON text of the parameters. *)
Variable generateQueryHash : ToolInput -> string.

Definition processRedditData (posts : list RedditPost) (marketContext : string)
    : M Ext ProcessedRedditData :=
  match qualityPosts posts with
  | [] => ret neutralData
  | q :: qs => analyzeQualityPosts (q :: qs) marketContext
  end.

(** The module-level objects and the outside world. *)
Record State := {
  circuitBreaker : RedditApiCircuitBreaker;
  cache : LRUCache Cached;
  ext : Ext
}.

(** The [try] block of the tool. *)
Definition toolTry (input : ToolInput) : M State ToolOutput :=
  fun s =>
    let queryHash := generateQueryHash input in
    (* Try cache first *)
    match getCachedResult (marketId input) queryHash (clock (ext s)) (cache s) with
    | (Some cachedData, cache1) =>
        (Ok {| out_data := cachedData; sources := ["reddit-cache"]; cached := true |},
         {| circuitBreaker := circuitBreaker s; cache := cache1; ext := ext s |})
    | (None, cache1) =>
        (* Execute search with circuit breaker protection *)
        match execute clock (searchRedditDiscussions input) []
                (circuitBreaker s, ext s) with
        | (Throw e, (cb, w)) =>
            (Throw e, {| circuitBreaker := cb; cache := cache1; ext := w |})
        | (Ok posts, (cb, w)) =>
            match processRedditData posts (marketTitle input) w with
            | (Throw e, w') =>
                (Throw e, {| circuitBreaker := cb; cache := cache1; ext := w' |})
            | (Ok processedData, w') =>
                (* Cache successful results *)
                let cache2 :=
                  setCachedResult (marketId input) queryHash processedData
                    (clock w') cache1 in
                (Ok {| out_data := processedData; sources := ["reddit-api"];
                       cached := false |},
                 {| circuitBreaker := cb; cache := cache2; ext := w' |})
            end
        end
    end.

(** [redditIntelligenceTool.execute] *)
Definition redditIntelligenceTool (input : ToolInput) (s : State)
    : ToolOutput * State :=
  match toolTry input s with
  | (Ok out, s') => (out, s')
  | (Throw _, s') =>
      ({| out_data := neutralData; sources := ["fallback"]; cached := false |}, s')
  end.

End Tool.

End Reddit.

(* ===================================================================== *)
(** ** The sentiment utilities *)
(* ===================================================================== *)

Module Sentiment.

Section Utilities.

Context {num : Type} `{Number num}.
Local Open Scope string_scope.
Local Open Scope list_scope.
Local Open Scope js_scope.

Record SentimentResult := {
  score : num;      (* -1 to 1 scale *)
  confidence : num; (* 0 to 1 scale *)
  reasoning : string
}.

(** [calculateAggregateSentiment]: the mean of the scores weighted by their
    confidences. *)
Definition calculateAggregateSentiment (sentiments : list SentimentResult) : num :=
  match sentiments with
  | [] => lit 0
  | _ :: _ =>
      (* Weight by confidence - more confident results have higher impact *)
      let weightedSum :=
        fold_left (fun sum sentiment => sum + (score sentiment * confidence sentiment))
          sentiments (lit 0) in
      let totalWeight :=
        fold_left (fun sum sentiment => sum + confidence sentiment)
          sentiments (lit 0) in
      if totalWeight >? lit 0 then weightedSum / totalWeight else lit 0
  end.

(** The results [processRedditData] hands over: the sentiment of every
    discussion with the default confidence of the model's analysis. *)
Definition ofDiscussion (d : Reddit.RedditDiscussion) : SentimentResult :=
  {| score := Reddit.sentiment d;
     confidence := lit 0.8;
     reasoning := "LLM sentiment analysis" |}.

End Utilities.

End Sentiment.

(* ===================================================================== *)
(** ** The autonomous trading workflow: market filters and fallback decision *)
(* ===================================================================== *)

Module Workflow.

Inductive Action := BUY | SELL | HOLD | NONE.

Section Pipeline.

Context {num : Type} `{Number num}.
Local Open Scope string_scope.
Local Open Scope list_scope.
Local Open Scope js_scope.

Record AutonomousTradingInput := {
  marketId : string;
  marketTitle : string;
  currentPrice : num;
  liquidity : num;
  volume24h : num;
  timeToClose : num; (* milliseconds *)
  keywords : list string
}.

Record FilterResult := {
  passed : bool;
  filtersApplied : list string;
  opportunityScore : num
}.

(** Market filtering function. *)
Definition applyMarketFilters (input : AutonomousTradingInput) : FilterResult :=
  (* Minimum liquidity check *)
  let liquidityFails := liquidity input <? lit 1000 in
  (* Time to close check (at least 12 hours) *)
  let hoursToClose := timeToClose input / (lit 1000 * lit 60 * lit 60) in
  let timeFails := hoursToClose <? lit 12 in
  (* Calculate opportunity score based on liquidity and volume *)
  let opportunityScore := lit 0 in
  let opportunityScore :=
    if liquidity input >? lit 5000 then opportunityScore + lit 30
    else opportunityScore in
  let opportunityScore :=
    if volume24h input >? lit 1000 then opportunityScore + lit 25
    else opportunityScore in
  let opportunityScore :=
    if hoursToClose >? lit 24 then opportunityScore + lit 20
    else opportunityScore in
  let opportunityScore :=
    if (currentPrice input >? lit 0.2) && (currentPrice input <? lit 0.8)
    then opportunityScore + lit 25
    else opportunityScore in
  {| passed := negb liquidityFails && negb timeFails;
     filtersApplied :=
       [if liquidityFails then "min_liquidity_failed" else "min_liquidity_passed";
        if timeFails then "min_time_failed" else "min_time_passed"];
     opportunityScore := opportunityScore |}.

(** The sentiment scores of the three sources in the intelligence bundle
    ([news.sentiment_score], [twitter.data.sentiment_score],
    [reddit.sentiment_score]); the fallback decision reads nothing else. *)
Record IntelligenceBundle := {
  news_sentiment_score : num;
  twitter_sentiment_score : num;
  reddit_sentiment_score : num
}.

Record Decision := {
  action : Action;
  outcome : option string;
  confidence : num;
  amount : option num;
  reasoning : string;
  keyFactors : list string;
  riskAssessment : string
}.

(** Fallback decision making when AI is unavailable. *)
Definition makeFallbackDecision (intelligence : IntelligenceBundle) : Decision :=
  (* Simple rule-based fallback *)
  let avgSentiment :=
    (news_sentiment_score intelligence
     + twitter_sentiment_score intelligence
     + reddit_sentiment_score intelligence) / lit 3 in
  let confidence := Math_abs avgSentiment * lit 50 + lit 25 in (* Scale to 25-75 range *)
  if confidence <? lit 40 then
    {| action := HOLD;
       outcome := None;
       confidence := confidence;
       amount := None;
       reasoning := "Insufficient signal strength for position entry";
       keyFactors := ["Low confidence signals"; "Risk management"];
       riskAssessment := "High uncertainty - avoiding position" |}
  else
    (* For fallback, assume binary market and use simple logic *)
    let outcome := if avgSentiment >? lit 0 then "Yes" else "No" in
    {| action := BUY;
       outcome := Some outcome;
       confidence := confidence;
       amount := Some (Math_min (lit 50) confidence); (* Conservative position sizing *)
       reasoning := "Fallback decision based on "
                    ^ (if avgSentiment >? lit 0 then "positive" else "negative")
                    ^ " sentiment signals";
       keyFactors := ["Sentiment aggregation"; "Conservative sizing"];
       riskAssessment := "Fallback mode - reduced position size" |}.

(** The safety bounds put on the decision of the model
    ([makeAutonomousDecision]): the confidence is brought into [[0,100]], and
    so is the amount when there is one ([0] counts as none). *)
Definition safetyBounds (decision : Decision) : Decision :=
  {| action := action decision;
     outcome := outcome decision;
     confidence := Math_max (lit 0) (Math_min (lit 100) (confidence decision));
     amount :=
       match amount decision with
       | Some a =>
           if (a <? lit 0) || (a >? lit 0)
           then Some (Math_max (lit 0) (Math_min (lit 100) a))
           else Some a
       | None => None
       end;
     reasoning := reasoning decision;
     keyFactors := keyFactors decision;
     riskAssessment := riskAssessment decision |}.

(** [makeAutonomousDecision] from the answer of the model: [Some] is the
    decision parsed from an answer that passed the structure check, [None]
    any failure on the way (no answer, no JSON, a missing field), which
    falls back to the simple logic. *)
Definition makeAutonomousDecision (answer : option Decision)
    (intelligence : IntelligenceBundle) : Decision :=
  match answer with
  | Some decision => safetyBounds decision
  | None => makeFallbackDecision intelligence
  end.

(** The decision the pipeline works with (step 3), and whether it goes on to
    the trade step (step 4). *)
Definition positionSize (decision : Decision) : num :=
  match amount decision with
  | Some a => if (a <? lit 0) || (a >? lit 0) then a else lit 0
  | None => lit 0
  end.

Definition tradeAttempted (decision : Decision) : bool :=
  match action decision with
  | BUY | SELL => true
  | _ => false
  end.

End Pipeline.

End Workflow.

(* ===================================================================== *)
(** ** Concrete inputs used by the scenarios below *)
(* ===================================================================== *)

Module Scenarios.

Import Decision.
Local Open Scope string_scope.

Section Inputs.

Context {num : Type} `{Number num}.

Definition market (liq ttc vol spr price : Q) : MarketContext :=
  {| marketId := "market-1"; title := "Will it happen?";
     currentPrice := lit price; impliedProbability := lit 50;
     liquidity := lit liq; volume24h := lit vol; timeToClose := lit ttc;
     spread := lit spr; orderBookEnabled := true |}.

Definition intel (news conf : Q) (breaking : bool)
    (count cred twitter reddit pm vt me : Q) : IntelligenceData :=
  {| newsIntelligence := {|
       sentiment_score := lit news; confidence := lit conf;
       breaking_news := breaking; news_count := lit count;
       source_credibility := lit cred |};
     socialIntelligence := {|
       twitter_sentiment := lit twitter; reddit_sentiment := lit reddit;
       engagement_momentum := lit 0.5; trending_topics := [];
       influencer_signals := [] |};
     marketIntelligence := {|
       technical_signals := {|
         price_momentum := lit pm; volume_trend := lit vt;
         market_efficiency := lit me |};
       cross_market_signals := {|
         correlation_score := lit 0; consensus_direction := neutral |} |} |}.

(** Scenario A: liquidity 500 against the minimum of 1000; everything else
    passes the filters. *)
Definition thinMarket : MarketContext := market 500 64800000 2000 0.01 0.5.

Definition calmIntel : IntelligenceData :=
  intel 0.2 0.5 false 3 0.5 0.1 0.1 0.2 0.2 0.5.

(** Scenario B: the five factors given directly. *)
Definition scenarioB : ScoringFactors :=
  {| sentiment_edge := lit 0.8; technical_momentum := lit 0.6;
     liquidity_quality := lit 0.9; timing_urgency := lit 0.5;
     news_catalyst := lit 0.3 |}.

(** A market priced at 1 that closes in 18 hours, deep and tight, ... *)
Definition certainMarket : MarketContext := market 10000 64800000 2000 0 1.

(** ... against unanimous, fully confident negative breaking news. *)
Definition contraryIntel : IntelligenceData :=
  intel (-1) 1 true 10 1 (-1) (-1) 1 1 1.

(** The same disagreement without any other strength: no breaking news, no
    momentum, a thin but eligible market. *)
Definition plainMarket : MarketContext := market 1000 64800000 500 0.05 1.

Definition contraryQuietIntel : IntelligenceData :=
  intel (-1) 1 false 0 0 (-1) (-1) 0 0 0.

End Inputs.

End Scenarios.

Module ExecutionScenarios.

Import Execution.
Local Open Scope string_scope.
Local Open Scope list_scope.
Local Open Scope js_scope.

Section Inputs.

Context {num : Type} `{Number num}.

(** Scenario C: 250 already spent today, no emergency stop, [open] trades
    under way. *)
Definition spent250 (today : string) (open : Z) : WalletSecurityContext :=
  {| dailySpentAmount := Some (lit 250);
     concurrentTradesCount := open;
     lastResetDate := today;
     emergencyStopActive := false |}.

Definition noPayload : Payload :=
  {| balance := None; transactionHash := None; executionPrice := None;
     gasUsed := None; actualSlippage := None; confirmations := None |}.

(** A backend that counts its calls: the wallet holds 1000, approvals go
    through, and every trade is refused with the number of the call in the
    message. *)
Definition refusingBackend (call : ToolCall) (n : nat) : CallResult * nat :=
  match call with
  | get_balance _ _ =>
      ({| success := true;
          result := Some {| balance := Some "1000"; transactionHash := None;
                            executionPrice := None; gasUsed := None;
                            actualSlippage := None; confirmations := None |};
          error := None |}, S n)
  | approve_token_spending _ _ _ =>
      ({| success := true; result := Some noPayload; error := None |}, S n)
  | write_contract _ _ _ _ _ =>
      ({| success := false; result := None;
          error := Some ("execution reverted at call " ^ Z_toString (Z.of_nat n)) |},
       S n)
  | get_transaction _ =>
      ({| success := false; result := None; error := Some "not found" |}, S n)
  end.

(** A backend that refuses the trades until its call number [from] and
    accepts them from then on, answering with a transaction hash. *)
Definition settledPayload : Payload :=
  {| balance := None;
     transactionHash :=
       Some "0x5c504ed432cb51138bcf09aa5e8a410dd4a1e204ef84bfed1be16dfba1b22060";
     executionPrice := Some "0.52"; gasUsed := Some "148210";
     actualSlippage := Some "0.4"; confirmations := None |}.

Definition flakyBackend (from : nat) (call : ToolCall) (n : nat)
    : CallResult * nat :=
  match call with
  | write_contract _ _ _ _ _ =>
      if (from <=? n)%nat
      then ({| success := true; result := Some settledPayload; error := None |}, S n)
      else refusingBackend call n
  | _ => refusingBackend call n
  end.

(** A backend that reports the trade as done without a transaction hash. *)
Definition hashlessBackend (call : ToolCall) (n : nat) : CallResult * nat :=
  match call with
  | write_contract _ _ _ _ _ =>
      ({| success := true; result := Some noPayload; error := None |}, S n)
  | _ => refusingBackend call n
  end.

(** A backend whose wallet holds 20. *)
Definition shortBackend (call : ToolCall) (n : nat) : CallResult * nat :=
  match call with
  | get_balance _ _ =>
      ({| success := true;
          result := Some {| balance := Some "20"; transactionHash := None;
                            executionPrice := None; gasUsed := None;
                            actualSlippage := None; confirmations := None |};
          error := None |}, S n)
  | _ => refusingBackend call n
  end.

Definition trade50 : TradeExecutionInput :=
  {| marketId := "market-1";
     marketAddress := "0x4bFb41d5B3570DeFd03C39a9A4D8dE6Bd8B8982E";
     action := BUY;
     outcome := "Yes";
     availableOutcomes := Some ["No"; "Yes"];
     amount := "50";
     confidence := lit 80;
     maxSlippage := lit 2;
     executionUrgency := NORMAL;
     strategy := sentiment_arbitrage;
     reasoning := "Sentiment Arbitrage: 25.0% sentiment edge detected" |}.

Definition quietContext (open : Z) : WalletSecurityContext :=
  {| dailySpentAmount := Some (lit 0);
     concurrentTradesCount := open;
     lastResetDate := "Tue Nov 03 2026";
     emergencyStopActive := false |}.

(** A process with the wallet configured, an empty table and a database that
    answers. *)
Definition readyRun : Run nat :=
  {| securityContext := quietContext 0;
     backend := 0%nat;
     rows := [];
     dbFaults := [];
     POLYMARKET_WALLET_ADDRESS := Some "0x00000000000000000000000000000000000000A1";
     today := "Tue Nov 03 2026";
     trace := [];
     retryCount := 0 |}.

(** A process whose wallet address is not configured, while another trade
    holds one of the concurrent slots. *)
Definition unconfiguredRun : Run nat :=
  {| securityContext := quietContext 1;
     backend := 0%nat;
     rows := [];
     dbFaults := [];
     POLYMARKET_WALLET_ADDRESS := None;
     today := "Tue Nov 03 2026";
     trace := [];
     retryCount := 0 |}.

(** A chain seen through its clock alone (milliseconds): every call takes a
    second, and a transaction gains a confirmation every fifteen seconds. *)
Definition chainBackend (call : ToolCall) (t : Z) : CallResult * Z :=
  match call with
  | get_transaction _ =>
      ({| success := true;
          result := Some {| balance := None; transactionHash := None;
                            executionPrice := None; gasUsed := None;
                            actualSlippage := None;
                            confirmations := Some (t / 15000)%Z |};
          error := None |}, (t + 1000)%Z)
  | _ => ({| success := false; result := None; error := Some "unsupported" |},
          (t + 1000)%Z)
  end.

(** A process whose trade was just submitted: its record is PENDING. *)
Definition submittedRun : Run Z :=
  {| securityContext := quietContext 0;
     backend := 0%Z;
     rows := [{| id := "trade-0"; td_marketId := "market-1"; td_action := BUY;
                 td_outcome := "Yes"; plannedAmount := "50";
                 actualAmount := None; td_confidence := lit 80;
                 td_reasoning := "Sentiment Arbitrage"; status := PENDING;
                 td_transactionHash := None; td_executionPrice := None |}];
     dbFaults := [];
     POLYMARKET_WALLET_ADDRESS := Some "0x00000000000000000000000000000000000000A1";
     today := "Tue Nov 03 2026";
     trace := [];
     retryCount := 0 |}.

Definition settledResult : ExecutionResult :=
  {| er_success := true;
     er_transactionHash := transactionHash settledPayload;
     executedAmount := Some "50";
     er_executionPrice := Some "0.52";
     er_gasUsed := Some "148210";
     slippage := Some (parseFloat "0.4");
     er_error := None;
     er_retryCount := Some 0%Z |}.

End Inputs.

End ExecutionScenarios.

Module RedditScenarios.

Import Effects Reddit.
Local Open Scope string_scope.

(** A world that is only a clock, in milliseconds. *)
Definition tick : Z -> Z := fun w => w.

(** A search that runs for a second and then fails. *)
Definition failingSearch {T : Type} : M Z T :=
  fun w => (Throw "Reddit authentication failed: timeout", (w + 1000)%Z).

(** A search that finds nothing after a second. *)
Definition emptySearch {T : Type} : M Z (list T) :=
  fun w => (Ok [], (w + 1000)%Z).

(** A breaker that saw five failures, the last one at time 0. *)
Definition trippedBreaker : RedditApiCircuitBreaker :=
  {| failures := 5; lastFailureTime := 0;
     failureThreshold := 5; recoveryTimeout := 5 * 60000 |}.

Section Inputs.

Context {num : Type} `{Number num}.

Definition question : ToolInput :=
  {| marketTitle := "Will it happen?";
     marketId := "market-1";
     keywords := ["happen"];
     subreddits := None;
     timeFilter := week;
     sortBy := relevance |}.

Definition fixedHash : ToolInput -> string :=
  fun _ => "0123456789abcdef0123456789abcdef".

Definition noAnalysis
    : list (RedditPost (num:=num)) -> string
      -> M Z (ProcessedRedditData (num:=num)) :=
  fun _ _ => throw "language model unavailable".

(** One minute after the fifth failure, with nothing cached. *)
Definition trippedState : State (num:=num) Z :=
  {| circuitBreaker := trippedBreaker; cache := emptyCache; ext := 60000%Z |}.

(** A process that has just started, at time 0: the breaker closed, nothing
    cached. *)
Definition freshState : State (num:=num) Z :=
  {| circuitBreaker := defaultBreaker; cache := emptyCache; ext := 0%Z |}.

End Inputs.

End RedditScenarios.

(* ********************************************************************* *)
(** * Properties *)
(* ********************************************************************* *)

(* ===================================================================== *)
(** ** Rational arithmetic *)
(* ===================================================================== *)

Lemma Qlt_bool_iff (a b : Q) : Qlt_bool a b = true <-> a < b.
Proof.
  unfold Qlt_bool. rewrite negb_true_iff.
  split; intro H.
  - apply Qnot_le_lt. intro Hle. apply Qle_bool_iff in Hle. congruence.
  - destruct (Qle_bool b a) eqn:E; [|reflexivity].
    apply Qle_bool_iff in E. exfalso. apply (Qlt_not_le _ _ H E).
Qed.

Lemma Qlt_bool_false_iff (a b : Q) : Qlt_bool a b = false <-> b <= a.
Proof.
  unfold Qlt_bool. rewrite negb_false_iff. apply Qle_bool_iff.
Qed.

Lemma Qle_bool_false_iff (a b : Q) : Qle_bool a b = false <-> b < a.
Proof.
  rewrite <- Qlt_bool_iff. unfold Qlt_bool.
  destruct (Qle_bool a b); simpl; split; congruence.
Qed.

(** Unfold the number interface at the rational instance. *)
Ltac qinv :=
  unfold Qdiv in *;
  repeat match goal with
  | |- context [Qinv ?c] =>
      let c' := eval vm_compute in (Qinv c) in change (Qinv c) with c' in *
  | H : context [Qinv ?c] |- _ =>
      let c' := eval vm_compute in (Qinv c) in change (Qinv c) with c' in *
  end.

Ltac qnum :=
  cbv [lit ofZ ofQ nadd nsub nmul ndiv nlt nle Math_abs Math_min Math_max
       Math_round Math_floor QNumber] in *; qinv.

(** Boolean tests on rationals as propositions. *)
Ltac qbool :=
  repeat match goal with
  | H : _ && _ = true |- _ => apply andb_true_iff in H; destruct H
  | H : Qle_bool _ _ = true |- _ => apply Qle_bool_iff in H
  | H : Qlt_bool _ _ = true |- _ => apply Qlt_bool_iff in H
  | H : Qle_bool _ _ = false |- _ => apply Qle_bool_false_iff in H
  | H : Qlt_bool _ _ = false |- _ => apply Qlt_bool_false_iff in H
  end.

(** Name every [Qmin] and [Qmax] and keep what is known of it. *)
Ltac qminmax :=
  repeat match goal with
  | |- context [Qmin ?a ?b] =>
      let v := fresh "v" in
      pose proof (Q.min_spec a b); set (v := Qmin a b) in *; clearbody v
  | |- context [Qmax ?a ?b] =>
      let v := fresh "v" in
      pose proof (Q.max_spec a b); set (v := Qmax a b) in *; clearbody v
  | _ : context [Qmin ?a ?b] |- _ =>
      let v := fresh "v" in
      pose proof (Q.min_spec a b); set (v := Qmin a b) in *; clearbody v
  | _ : context [Qmax ?a ?b] |- _ =>
      let v := fresh "v" in
      pose proof (Q.max_spec a b); set (v := Qmax a b) in *; clearbody v
  end.

(* ===================================================================== *)
(** ** Strings *)
(* ===================================================================== *)

Section StringFacts.

Local Open Scope string_scope.

Lemma append_assoc (a b c : string) : (a ++ b) ++ c = a ++ (b ++ c).
Proof. induction a as [|x a IH]; simpl; [reflexivity | now rewrite IH]. Qed.

Lemma append_empty_r (a : string) : a ++ "" = a.
Proof. induction a as [|x a IH]; simpl; [reflexivity | now rewrite IH]. Qed.

Lemma Substring_refl (s : string) : Substring s s.
Proof. exists "", "". simpl. now rewrite append_empty_r. Qed.

Lemma Substring_trans (a b c : string) :
  Substring a b -> Substring b c -> Substring a c.
Proof.
  intros (p1 & q1 & ->) (p2 & q2 & ->).
  exists (p2 ++ p1), (q1 ++ q2). now rewrite !append_assoc.
Qed.

Lemma Substring_prepend (x p s : string) : Substring x s -> Substring x (p ++ s).
Proof.
  intros (pre & post & ->). exists (p ++ pre), post. now rewrite append_assoc.
Qed.

Lemma Substring_extend (x s q : string) : Substring x s -> Substring x (s ++ q).
Proof.
  intros (pre & post & ->). exists pre, (post ++ q). now rewrite !append_assoc.
Qed.

(** Every element of a list occurs in the joined text. *)
Lemma Substring_join (sep x : string) (xs : list string) :
  In x xs -> Substring x (join sep xs).
Proof.
  induction xs as [|y ys IH]; [contradiction|].
  intros [-> | Hin].
  - destruct ys as [|z zs]; simpl.
    + apply Substring_refl.
    + apply Substring_extend, Substring_refl.
  - destruct ys as [|z zs]; [contradiction|].
    change (join sep (y :: z :: zs)) with (y ++ sep ++ join sep (z :: zs)).
    apply Substring_prepend, Substring_prepend, IH, Hin.
Qed.

End StringFacts.

(* ===================================================================== *)
(** ** The decision agent *)
(* ===================================================================== *)

Module DecisionFacts.

Import Decision Scenarios.
Local Open Scope string_scope.

Section AnyNumber.

Context {num : Type} `{Number num}.
Local Open Scope js_scope.

(** [filtersPassed] says that no reason was pushed. *)
Lemma filtersPassed_reasons (m : MarketContext) :
  filtersPassed m = true <-> filtersPassedReasons m = [].
Proof.
  unfold filtersPassed, filtersPassedReasons.
  destruct (liquidity m <? lit 1000), (timeToClose m >? _),
    (orderBookEnabled m), (volume24h m <? lit 500), (spread m >? lit 0.05);
    simpl; split; congruence.
Qed.

(** With the filters passed, the confidence is the rounded weighted total of
    the five factors the tool reports. *)
Lemma confidence_formula (m : MarketContext) (i : IntelligenceData) :
  filtersPassed m = true ->
  let out := marketDecisionTool m i in
  d_confidence (decision out)
  = Math_round (weightedTotal (b_factors (out_scoring_breakdown out)) * lit 100)
  /\ b_factors (out_scoring_breakdown out)
     = breakdown (calculateMultiFactorScore i m).
Proof.
  intro Hf. unfold marketDecisionTool. rewrite Hf. simpl.
  destruct (determineStrategy i m _); simpl;
    repeat match goal with |- context [if ?b then _ else _] => destruct b end;
    simpl; split; reflexivity.
Qed.

(** C7. All five primary filters are evaluated, none cutting another
    short: when any one of the five tests fails on the market (a liquidity
    below 1000, more than 72 hours to the close, the order book not enabled,
    a daily volume below 500, a spread above 0.05) the decision is NONE with
    confidence 0 and the filters are reported as failed; the rationale is
    the list of the failed filters, in which a filter is named exactly when
    its own test fails, whatever the other tests give (a liquidity below the
    minimum of 1000 puts "liquidity" there). *)
Theorem failed_filters_give_none (m : MarketContext) (i : IntelligenceData) :
  (liquidity m <? lit 1000) = true \/
  (timeToClose m >? lit 72 * lit 60 * lit 60 * lit 1000) = true \/
  orderBookEnabled m = false \/
  (volume24h m <? lit 500) = true \/
  (spread m >? lit 0.05) = true ->
  let out := marketDecisionTool m i in
  let d := decision out in
  let names := risk_factors (out_risk_assessment out) in
  d_action d = NONE /\ d_confidence d = 0%Z /\
  market_filters_passed out = false /\
  names = filtersPassedReasons m /\
  d_reasoning d = "Market filters failed: " ^ join ", " names /\
  (forall name, In name names -> Substring name (d_reasoning d)) /\
  (forall name, In name names ->
     name = "Insufficient liquidity" \/ name = "Too much time until close" \/
     name = "Order book not enabled" \/ name = "Insufficient daily volume" \/
     name = "Spread too wide") /\
  (In "Insufficient liquidity" names <-> (liquidity m <? lit 1000) = true) /\
  (In "Too much time until close" names
   <-> (timeToClose m >? lit 72 * lit 60 * lit 60 * lit 1000) = true) /\
  (In "Order book not enabled" names <-> orderBookEnabled m = false) /\
  (In "Insufficient daily volume" names <-> (volume24h m <? lit 500) = true) /\
  (In "Spread too wide" names <-> (spread m >? lit 0.05) = true) /\
  ((liquidity m <? lit 1000) = true -> Substring "liquidity" (d_reasoning d)).
Proof.
  intros Hfail out d names.
  assert (Hf : filtersPassed m = false).
  { revert Hfail. unfold filtersPassed.
    destruct (liquidity m <? lit 1000), (timeToClose m >? _),
      (orderBookEnabled m), (volume24h m <? lit 500), (spread m >? lit 0.05);
      try reflexivity.
    intros [E|[E|[E|[E|E]]]]; discriminate. }
  subst names d out. unfold marketDecisionTool. rewrite Hf.
  cbn [negb decision out_risk_assessment risk_factors market_filters_passed
       d_action d_confidence d_reasoning].
  clear Hf Hfail.
  assert (Hnamed : forall name, In name (filtersPassedReasons m) ->
            Substring name ("Market filters failed: " ^ join ", " (filtersPassedReasons m))).
  { intros name Hin. apply Substring_prepend, Substring_join, Hin. }
  assert (Hliq : (liquidity m <? lit 1000) = true ->
            In "Insufficient liquidity" (filtersPassedReasons m)).
  { intro Ht. unfold filtersPassedReasons. rewrite Ht. simpl. auto. }
  do 5 (split; [reflexivity|]). split; [exact Hnamed|].
  split.
  { intro name. unfold filtersPassedReasons.
    destruct (liquidity m <? lit 1000), (timeToClose m >? _),
      (orderBookEnabled m), (volume24h m <? lit 500), (spread m >? lit 0.05);
      simpl; intro Hin;
      repeat (destruct Hin as [<-|Hin];
        [first [ left; reflexivity | right; left; reflexivity
               | right; right; left; reflexivity
               | right; right; right; left; reflexivity
               | right; right; right; right; reflexivity ]|]);
      contradiction. }
  repeat (split;
    [ unfold filtersPassedReasons;
      destruct (liquidity m <? lit 1000), (timeToClose m >? _),
        (orderBookEnabled m), (volume24h m <? lit 500), (spread m >? lit 0.05);
      simpl; (split; [intro Hin | intro Ht]);
      first [ reflexivity | discriminate | tauto
            | exfalso; intuition discriminate ] |]).
  intro Ht. apply Substring_trans with "Insufficient liquidity".
  - exists "Insufficient ", "". reflexivity.
  - apply Hnamed, Hliq, Ht.
Qed.


End AnyNumber.

Local Open Scope Q_scope.

(** The five weights sum to one. *)
Lemma weights_sum_to_one :
  (w_sentiment_edge + w_technical_momentum + w_liquidity_quality
   + w_timing_urgency + w_news_catalyst)%js == 1.
Proof. reflexivity. Qed.

(** Factors in [[0,1]] give a confidence in [[0,100]]. *)
Lemma confidence_range (f : ScoringFactors (num:=Q)) :
  0 <= sentiment_edge f <= 1 -> 0 <= technical_momentum f <= 1 ->
  0 <= liquidity_quality f <= 1 -> 0 <= timing_urgency f <= 1 ->
  0 <= news_catalyst f <= 1 ->
  (0 <= Math_round (weightedTotal f * lit 100)%js <= 100)%Z.
Proof.
  intros H1 H2 H3 H4 H5.
  unfold weightedTotal, w_sentiment_edge, w_technical_momentum,
    w_liquidity_quality, w_timing_urgency, w_news_catalyst. qnum.
  set (x := (_ + _) * 100 + _).
  assert (Hx : (1 # 2) <= x <= 100 + (1 # 2)) by (subst x; lra).
  destruct Hx as [Hlo Hhi]. split.
  - change 0%Z with (Qfloor 0). apply Qfloor_resp_le. lra.
  - assert (Hlt : x < inject_Z 101) by (change (inject_Z 101) with 101; lra).
    assert (Hfl := Qfloor_le x).
    assert (inject_Z (Qfloor x) < inject_Z 101) by lra.
    rewrite <- Zlt_Qlt in H. lia.
Qed.

(** Scenario B: confidence 72, eligible for a trade; in exact arithmetic
    (71.5 rounds up) and in binary64 (the total is just above 0.715). *)
Lemma scenario_B :
  Math_round (weightedTotal (num:=Q) scenarioB * lit 100)%js = 72%Z
  /\ (ofZ (num:=Q) 72 >=? lit 70)%js = true
  /\ Math_round (weightedTotal (num:=spec_float) scenarioB * lit 100)%js = 72%Z
  /\ (ofZ (num:=spec_float) 72 >=? lit 70)%js = true.
Proof. vm_compute. repeat split. Qed.

(** The five weights sum to one in binary64 as well. *)
Lemma weights_sum_to_one_binary64 :
  SFeqb (w_sentiment_edge + w_technical_momentum + w_liquidity_quality
         + w_timing_urgency + w_news_catalyst)%js (lit 1) = true.
Proof. vm_compute. reflexivity. Qed.

(** *** The factors *)

Lemma technical_momentum_range (i : IntelligenceData (num:=Q)) :
  0 <= calculateTechnicalMomentum i <= 1.
Proof.
  unfold calculateTechnicalMomentum. qnum.
  set (x := _ + _ + _). clearbody x.
  qminmax. lra.
Qed.

Lemma liquidity_quality_range (m : MarketContext (num:=Q)) :
  marketSchema m = true -> 0 <= calculateLiquidityQuality m <= 1.
Proof.
  unfold marketSchema, calculateLiquidityQuality, between. qnum. intro Hs. qbool.
  qminmax. lra.
Qed.

Lemma timing_urgency_range (m : MarketContext (num:=Q)) :
  0 <= calculateTimingUrgency m <= 1.
Proof.
  unfold calculateTimingUrgency.
  repeat match goal with |- context [if ?b then _ else _] => destruct b end;
    qnum; lra.
Qed.

Lemma news_catalyst_range (i : IntelligenceData (num:=Q)) :
  intelligenceSchema i = true -> 0 <= calculateNewsCatalyst i <= 1.
Proof.
  unfold intelligenceSchema, calculateNewsCatalyst, between. intro Hs.
  destruct (breaking_news (newsIntelligence i)); qnum; qbool; qminmax; lra.
Qed.

Lemma sentiment_edge_nonneg (i : IntelligenceData (num:=Q)) m :
  intelligenceSchema i = true -> 0 <= calculateSentimentEdge i m.
Proof.
  unfold intelligenceSchema, calculateSentimentEdge, aggregatedSentiment, between.
  intro Hs. qnum; qbool.
  apply Qmult_le_0_compat; [apply Qabs_nonneg | lra].
Qed.

(** The confidence is never negative on an accepted input. *)
Lemma confidence_nonneg (m : MarketContext (num:=Q)) i :
  inputSchema m i = true ->
  (0 <= d_confidence (decision (marketDecisionTool m i)))%Z.
Proof.
  intro Hs. apply andb_true_iff in Hs. destruct Hs as [Hm Hi].
  destruct (filtersPassed m) eqn:Hf.
  - destruct (confidence_formula m i Hf) as [-> ->].
    pose proof (sentiment_edge_nonneg i m Hi).
    pose proof (technical_momentum_range i).
    pose proof (liquidity_quality_range m Hm).
    pose proof (timing_urgency_range m).
    pose proof (news_catalyst_range i Hi).
    unfold calculateMultiFactorScore. cbn [breakdown].
    unfold weightedTotal, w_sentiment_edge, w_technical_momentum,
      w_liquidity_quality, w_timing_urgency, w_news_catalyst.
    cbn [sentiment_edge technical_momentum liquidity_quality timing_urgency
         news_catalyst].
    set (a := calculateSentimentEdge i m) in *.
    set (b := calculateTechnicalMomentum i) in *.
    set (c := calculateLiquidityQuality m) in *.
    set (d := calculateTimingUrgency m) in *.
    set (e := calculateNewsCatalyst i) in *.
    clearbody a b c d e. qnum.
    change 0%Z with (Qfloor 0). apply Qfloor_resp_le. lra.
  - unfold marketDecisionTool. rewrite Hf. simpl. lia.
Qed.

(** C1. On an input the tool accepts (schema and filters), the confidence is
    the rounded weighted total of the factors and is not clamped: a market
    priced at 1 against unanimous negative breaking news gets the total 19/15
    and the confidence 127. *)
Theorem confidence_exceeds_100 :
  let out := marketDecisionTool (num:=Q) certainMarket contraryIntel in
  let out64 := marketDecisionTool (num:=spec_float) certainMarket contraryIntel in
  (* in exact arithmetic *)
  inputSchema (num:=Q) certainMarket contraryIntel = true /\
  filtersPassed (num:=Q) certainMarket = true /\
  total_score (out_scoring_breakdown out) == 19 # 15 /\
  d_confidence (decision out)
  = Math_round (weightedTotal (b_factors (out_scoring_breakdown out)) * lit 100)%js /\
  d_confidence (decision out) = 127%Z /\
  recommended_for_execution out = true /\
  (* in binary64 *)
  inputSchema (num:=spec_float) certainMarket contraryIntel = true /\
  filtersPassed (num:=spec_float) certainMarket = true /\
  d_confidence (decision out64) = 127%Z /\
  recommended_for_execution out64 = true.
Proof. vm_compute. repeat split. Qed.

(** C2. On an input the tool accepts, the sentiment edge the tool reports is
    5/3, above 1 (the other four factors stay in [0,1]:
    [technical_momentum_range], [liquidity_quality_range],
    [timing_urgency_range], [news_catalyst_range]). *)
Theorem sentiment_edge_exceeds_1 :
  let out := marketDecisionTool (num:=Q) plainMarket contraryQuietIntel in
  let out64 := marketDecisionTool (num:=spec_float) plainMarket contraryQuietIntel in
  (* in exact arithmetic *)
  inputSchema (num:=Q) plainMarket contraryQuietIntel = true /\
  filtersPassed (num:=Q) plainMarket = true /\
  sentiment_edge (b_factors (out_scoring_breakdown out)) == 5 # 3 /\
  1 < sentiment_edge (b_factors (out_scoring_breakdown out)) /\
  sentiment_edge (b_factors (out_scoring_breakdown out))
  = calculateSentimentEdge contraryQuietIntel plainMarket /\
  (* in binary64 *)
  inputSchema (num:=spec_float) plainMarket contraryQuietIntel = true /\
  filtersPassed (num:=spec_float) plainMarket = true /\
  (sentiment_edge (b_factors (out_scoring_breakdown out64)) >? lit 1)%js = true /\
  (sentiment_edge (b_factors (out_scoring_breakdown out64)) >? lit 1.6)%js = true.
Proof. vm_compute. repeat split. Qed.

(** Scenario A, evaluated: the decision for a liquidity of 500. *)
Lemma failed_filters_give_none_witness :
  (liquidity (thinMarket (num:=Q)) <? lit 1000)%js = true /\
  let d := decision (marketDecisionTool (num:=Q) thinMarket calmIntel) in
  d_action d = NONE /\ d_confidence d = 0%Z /\
  d_reasoning d = "Market filters failed: Insufficient liquidity" /\
  Substring "liquidity" (d_reasoning d).
Proof.
  assert (Hl : (liquidity (thinMarket (num:=Q)) <? lit 1000)%js = true)
    by (vm_compute; reflexivity).
  split; [exact Hl|].
  destruct (failed_filters_give_none thinMarket calmIntel (or_introl Hl))
    as (Ha & Hc & _ & Hn & Hr & _ & _ & _ & _ & _ & _ & _ & Hsub).
  split; [exact Ha|]. split; [exact Hc|]. split; [|exact (Hsub Hl)].
  rewrite Hr, Hn. vm_compute. reflexivity.
Defined.

End DecisionFacts.


(* ===================================================================== *)
(** ** The security manager *)
(* ===================================================================== *)

Module SecurityFacts.

Import Execution ExecutionScenarios.
Local Open Scope string_scope.

Section AnyNumber.

Context {num : Type} `{Number num}.
Local Open Scope js_scope.

(** With the emergency stop set nothing else is looked at, and the day is
    not rolled over. *)
Lemma validate_emergency (amount today : string) (ctx : WalletSecurityContext) :
  emergencyStopActive ctx = true ->
  validateTradeAmount amount today ctx = (reject "Emergency stop is active", ctx).
Proof. intro He. unfold validateTradeAmount. now rewrite He. Qed.

(** Otherwise the day is rolled over first, and the three caps are tried in
    their order on the rolled-over context. *)
Lemma validate_caps (amount today : string) (ctx : WalletSecurityContext) :
  emergencyStopActive ctx = false ->
  validateTradeAmount amount today ctx
  = (if exceedsSingleTrade amount then
       reject ("Trade amount $" ^ amount ^ " exceeds max single trade limit $"
               ^ toString (maxSingleTrade SECURITY_LIMITS))
     else if exceedsDailySpend amount (dayRollover today ctx) then
       reject ("Trade would exceed daily spending limit. Daily spent: $"
               ^ nan_toString (dailySpentAmount (dayRollover today ctx))
               ^ ", Trade: $" ^ nan_toString (parseFloat amount)
               ^ ", Limit: $" ^ toString (maxDailySpend SECURITY_LIMITS))
     else if atConcurrentLimit (dayRollover today ctx) then
       reject ("Maximum concurrent trades limit reached: "
               ^ Z_toString (maxConcurrentTrades SECURITY_LIMITS))
     else accept,
     dayRollover today ctx).
Proof.
  intro He. unfold validateTradeAmount, exceedsSingleTrade, exceedsDailySpend,
    atConcurrentLimit, dayRollover. rewrite He.
  destruct (negb (today =? lastResetDate ctx)%string);
    repeat match goal with |- context [if ?b then _ else _] => destruct b end;
    reflexivity.
Qed.

(** Scenario C in binary64: the same rejection, with the same text. *)
Lemma scenario_C_binary64 (open : Z) :
  fst (validateTradeAmount (num:=spec_float) "60" "Tue Nov 03 2026"
         (spent250 "Tue Nov 03 2026" open))
  = reject "Trade would exceed daily spending limit. Daily spent: $250, Trade: $60, Limit: $300".
Proof.
  unfold validateTradeAmount. cbn [emergencyStopActive spent250].
  vm_compute. reflexivity.
Qed.

(** The concurrent count never goes below zero. *)
Lemma recordTradeEnd_nonneg (ctx : WalletSecurityContext (num:=num)) :
  (0 <= concurrentTradesCount (recordTradeEnd ctx))%Z.
Proof. unfold recordTradeEnd. simpl. lia. Qed.

End AnyNumber.

(** C5. [validateTradeAmount] checks, in this order, the emergency stop, the
    day roll-over, the per-trade cap, the daily cap and the concurrent-trade
    cap, and answers with the reason of the first check that fails whatever
    the later ones would say; with 250 spent, a daily cap of 300 and a request
    of 60 it rejects with a reason that cites 250, 60 and 300. *)
Theorem validation_order (amount today : string)
    (ctx : WalletSecurityContext (num:=Q)) :
  (emergencyStopActive ctx = true ->
     validateTradeAmount amount today ctx
     = (reject "Emergency stop is active", ctx)) /\
  (emergencyStopActive ctx = false ->
     let ctx' := dayRollover today ctx in
     let v := fst (validateTradeAmount amount today ctx) in
     snd (validateTradeAmount amount today ctx) = ctx' /\
     (exceedsSingleTrade (num:=Q) amount = true ->
        v = reject ("Trade amount $" ++ amount
                    ++ " exceeds max single trade limit $100")) /\
     (exceedsSingleTrade (num:=Q) amount = false ->
      exceedsDailySpend amount ctx' = true ->
        v = reject ("Trade would exceed daily spending limit. Daily spent: $"
                    ++ nan_toString (dailySpentAmount ctx')
                    ++ ", Trade: $" ++ nan_toString (parseFloat amount)
                    ++ ", Limit: $300")) /\
     (exceedsSingleTrade (num:=Q) amount = false ->
      exceedsDailySpend amount ctx' = false ->
      atConcurrentLimit ctx' = true ->
        v = reject "Maximum concurrent trades limit reached: 3") /\
     (exceedsSingleTrade (num:=Q) amount = false ->
      exceedsDailySpend amount ctx' = false ->
      atConcurrentLimit ctx' = false ->
        v = accept)) /\
  (forall open,
     let why := "Trade would exceed daily spending limit. Daily spent: $250, Trade: $60, Limit: $300" in
     validateTradeAmount "60" today (spent250 today open)
     = (reject why, spent250 today open) /\
     Substring "250" why /\ Substring "60" why /\ Substring "300" why).
Proof.
  split; [apply validate_emergency|]. split.
  - intros He ctx' v. subst v ctx'. rewrite (validate_caps amount today ctx He).
    cbn [fst snd]. split; [reflexivity|].
    repeat split; intros; 
      repeat match goal with H : _ = _ |- _ => rewrite H end; reflexivity.
  - intros open why. split.
    + rewrite validate_caps by reflexivity.
      unfold dayRollover. cbn [lastResetDate spent250].
      rewrite String.eqb_refl. reflexivity.
    + repeat split.
      * exists "Trade would exceed daily spending limit. Daily spent: $",
          ", Trade: $60, Limit: $300". reflexivity.
      * exists "Trade would exceed daily spending limit. Daily spent: $250, Trade: $",
          ", Limit: $300". reflexivity.
      * exists "Trade would exceed daily spending limit. Daily spent: $250, Trade: $60, Limit: $",
          "". reflexivity.
Qed.

(** Scenario C with three trades already open: the daily cap answers, the
    concurrent cap is not reached. *)
Lemma validation_order_witness :
  emergencyStopActive (spent250 (num:=Q) "Tue Nov 03 2026" 3) = false /\
  exceedsSingleTrade (num:=Q) "60" = false /\
  exceedsDailySpend "60" (dayRollover "Tue Nov 03 2026"
                            (spent250 (num:=Q) "Tue Nov 03 2026" 3)) = true /\
  fst (validateTradeAmount "60" "Tue Nov 03 2026"
         (spent250 (num:=Q) "Tue Nov 03 2026" 3))
  = reject "Trade would exceed daily spending limit. Daily spent: $250, Trade: $60, Limit: $300".
Proof.
  assert (He : emergencyStopActive (spent250 (num:=Q) "Tue Nov 03 2026" 3) = false)
    by reflexivity.
  assert (Hs : exceedsSingleTrade (num:=Q) "60" = false) by (vm_compute; reflexivity).
  assert (Hd : exceedsDailySpend "60" (dayRollover "Tue Nov 03 2026"
                 (spent250 (num:=Q) "Tue Nov 03 2026" 3)) = true)
    by (vm_compute; reflexivity).
  split; [exact He|]. split; [exact Hs|]. split; [exact Hd|].
  destruct (validation_order "60" "Tue Nov 03 2026"
              (spent250 "Tue Nov 03 2026" 3)) as (_ & Hcaps & _).
  destruct (Hcaps He) as (_ & _ & Hdaily & _).
  rewrite (Hdaily Hs Hd). vm_compute. reflexivity.
Defined.

End SecurityFacts.

(* ===================================================================== *)
(** ** The trade execution tool *)
(* ===================================================================== *)

Module ExecutionFacts.

Import Effects Execution ExecutionScenarios.
Local Open Scope string_scope.
Local Open Scope list_scope.

(** Reduce the accessors of a run applied to its setters. *)
Ltac run_state :=
  repeat (progress (cbv beta iota;
    cbn [today securityContext setRetryCount POLYMARKET_WALLET_ADDRESS backend
         setSecurity emit dbFaults rows setBackend setDb trace retryCount
         fst snd negb andb tl])).

Ltac run_state_in H :=
  repeat (progress (cbv beta iota in H;
    cbn [today securityContext setRetryCount POLYMARKET_WALLET_ADDRESS backend
         setSecurity emit dbFaults rows setBackend setDb trace retryCount
         fst snd negb andb tl] in H)).

Section Pipeline.

Context {num : Type} `{Number num}.
Variable Backend : Type.
Variable callTool : ToolCall -> Backend -> CallResult * Backend.

Local Abbreviation Run := (Run (num:=num) Backend).

(** Two runs with the same parts are the same run. *)
Lemma Run_ext (r1 r2 : Run) :
  securityContext r1 = securityContext r2 ->
  backend r1 = backend r2 ->
  rows r1 = rows r2 ->
  dbFaults r1 = dbFaults r2 ->
  POLYMARKET_WALLET_ADDRESS r1 = POLYMARKET_WALLET_ADDRESS r2 ->
  today r1 = today r2 ->
  trace r1 = trace r2 ->
  retryCount r1 = retryCount r2 ->
  r1 = r2.
Proof. destruct r1, r2. cbn. intros. subst. reflexivity. Qed.

Lemma reaches_trans (r r1 r2 : Run) (n1 n2 : Z) (e1 e2 : list Event) :
  reaches r r1 n1 e1 -> reaches r1 r2 n2 e2 -> reaches r r2 n2 (e1 ++ e2).
Proof.
  unfold reaches.
  intros (A1 & A2 & A3 & A4 & A5 & A6 & A7) (B1 & B2 & B3 & B4 & B5 & B6 & B7).
  rewrite B1, B2, B3, B4, B5, B7, A7, app_assoc. repeat split; assumption.
Qed.

Lemma advances_trans (r r1 r2 : Run) (e1 e2 : list Event) :
  advances r r1 e1 -> advances r1 r2 e2 -> advances r r2 (e1 ++ e2).
Proof.
  unfold advances. intros A B.
  assert (E : retryCount r1 = retryCount r) by apply A.
  rewrite E in B. exact (reaches_trans A B).
Qed.

Lemma callToolM_advances (call : ToolCall) (r : Run) :
  exists r',
    callToolM callTool call r = (Ok (fst (callTool call (backend r))), r') /\
    backend r' = snd (callTool call (backend r)) /\
    advances r r' [ev_callTool call].
Proof.
  unfold callToolM. destruct (callTool call (backend r)) as [res b].
  eexists. split; [reflexivity|]. split; [reflexivity|].
  unfold advances, reaches. simpl. repeat split.
Qed.

(** A pass makes the approval call first, then at most the trade call, and
    touches nothing but the backend. *)
Lemma attempt_advances (tradeInput : TradeExecutionInput) (r : Run) :
  exists res r' evs,
    attempt callTool tradeInput r = (res, r') /\
    advances r r'
      (ev_callTool (approve_token_spending usdc (marketAddress tradeInput)
                      (amount tradeInput)) :: evs) /\
    Forall followUp evs.
Proof.
  unfold attempt, bind.
  destruct (callToolM_advances
              (approve_token_spending usdc (marketAddress tradeInput)
                 (amount tradeInput)) r) as (r1 & -> & Hb1 & Ha1).
  destruct (success (fst (callTool _ (backend r)))).
  - cbn [negb].
    match goal with |- context [callToolM callTool ?c r1] =>
      destruct (callToolM_advances c r1) as (r2 & -> & Hb2 & Ha2);
      set (call := c) in *
    end.
    destruct (success (fst (callTool call (backend r1)))).
    + unfold gets, ret. do 3 eexists. split; [reflexivity|].
      split; [exact (advances_trans Ha1 Ha2)|].
      constructor; [split; reflexivity | constructor].
    + unfold throw. do 3 eexists. split; [reflexivity|].
      split; [exact (advances_trans Ha1 Ha2)|].
      constructor; [split; reflexivity | constructor].
  - cbn [negb]. unfold throw. do 3 eexists. split; [reflexivity|].
    split; [exact Ha1 | constructor].
Qed.


(** The [catch] block of the loop: one more retry counted, then the delay
    or, with the retries used up, the failure. *)
Lemma attemptFailed_spec (er : ExecutionResult) (e : string) (r : Run) :
  attemptFailed er e r
  = if (retryCount r + 1 <=? maxRetries)%Z
    then (Ok er, emit (ev_delay retryDelayMs) (setRetryCount (retryCount r + 1) r))
    else (Ok (failedResult e (retryCount r + 1)),
          setRetryCount (retryCount r + 1) r).
Proof.
  unfold attemptFailed, bind, modify, gets, delay, ret. cbn [retryCount setRetryCount].
  destruct (retryCount r + 1 <=? maxRetries)%Z; reflexivity.
Qed.


Lemma reaches_delay (r r1 : Run) (n : Z) (evs : list Event) :
  advances r r1 evs ->
  reaches r (emit (ev_delay retryDelayMs) (setRetryCount n r1)) n
    (evs ++ [ev_delay retryDelayMs]).
Proof.
  unfold advances, reaches. intros (A1 & A2 & A3 & A4 & A5 & A6 & A7).
  cbn [emit setRetryCount securityContext rows dbFaults
       POLYMARKET_WALLET_ADDRESS today retryCount trace].
  rewrite A7, <- app_assoc. repeat split; assumption.
Qed.

Lemma reaches_bump (r r1 : Run) (n : Z) (evs : list Event) :
  advances r r1 evs -> reaches r (setRetryCount n r1) n evs.
Proof.
  unfold advances, reaches. intros (A1 & A2 & A3 & A4 & A5 & A6 & A7).
  cbn [setRetryCount securityContext rows dbFaults
       POLYMARKET_WALLET_ADDRESS today retryCount trace].
  repeat split; assumption.
Qed.

Lemma reaches_advances (r r1 r2 : Run) (n : Z) (e1 e2 : list Event) :
  reaches r r1 n e1 -> advances r1 r2 e2 -> reaches r r2 n (e1 ++ e2).
Proof.
  intros A B. unfold advances in B.
  assert (E : retryCount r1 = n) by apply A. rewrite E in B.
  exact (reaches_trans A B).
Qed.


Lemma skipn_prefix (A : Type) (l x : list A) : skipn (List.length l) (l ++ x) = x.
Proof. induction l as [|a l IH]; simpl; [reflexivity | exact IH]. Qed.

Lemma occurrences_app (p : Event -> bool) (l1 l2 : list Event) :
  occurrences p (l1 ++ l2) = (occurrences p l1 + occurrences p l2)%nat.
Proof. unfold occurrences. now rewrite filter_app, length_app. Qed.

Lemma occurrences_cons (p : Event -> bool) (e : Event) (l : list Event) :
  occurrences p (e :: l)
  = ((if p e then 1 else 0) + occurrences p l)%nat.
Proof. unfold occurrences. simpl. now destruct (p e). Qed.

(** After [updateStatus(savedId, st)] every row with that id has the status. *)
Lemma updated_rows (savedId : string) (st : TradeStatus)
    (table : list (TradeDecision (num:=num))) (row : TradeDecision) :
  In row (map (fun row => if (id row =? savedId)%string
                          then withStatus st row else row) table) ->
  id row = savedId -> status row = st.
Proof.
  rewrite in_map_iff. intros (x & Hx & _) Hid.
  destruct (id x =? savedId)%string eqn:E; subst row; [reflexivity|].
  apply String.eqb_neq in E. contradiction.
Qed.

Lemma followUp_no_attempt (evs : list Event) :
  Forall followUp evs -> occurrences isAttempt evs = 0%nat.
Proof.
  unfold occurrences. induction 1 as [|e evs [_ He] _ IH]; simpl; [reflexivity|].
  now rewrite He.
Qed.

Lemma followUp_no_delay (evs : list Event) :
  Forall followUp evs -> occurrences isDelay evs = 0%nat.
Proof.
  unfold occurrences. induction 1 as [|e evs [He _] _ IH]; simpl; [reflexivity|].
  destruct e; try discriminate He. exact IH.
Qed.



(** A pass that does not throw has succeeded, and leaves [retryCount]
    alone. *)
Lemma attempt_ok (tradeInput : TradeExecutionInput) (r r' : Run)
    (er : ExecutionResult) :
  attempt callTool tradeInput r = (Ok er, r') ->
  er_success er = true /\ retryCount r' = retryCount r.
Proof.
  destruct (attempt_advances tradeInput r) as (res & r1 & evs & Heq & Hadv & _).
  rewrite Heq. intro E. injection E as -> ->.
  split; [|apply Hadv].
  revert Heq. unfold attempt, bind, callToolM.
  destruct (callTool _ (backend r)) as [approval b1].
  destruct (success approval); cbn [negb]; [|unfold throw; discriminate].
  match goal with |- context [callTool ?c ?b] =>
    destruct (callTool c b) as [tradeResult b2]
  end.
  destruct (success tradeResult); [|unfold throw; discriminate].
  unfold gets, ret. intro E. injection E as <- _. reflexivity.
Qed.

(** The fuel never cuts the loop short: with [retryCount] counted from 0 and
    fuel for [maxRetries + 1] passes the loop ends because its condition is
    false. *)
Lemma retryLoop_fuel_enough (fuel : nat) (tradeInput : TradeExecutionInput) :
  forall (er : ExecutionResult) (r : Run),
  (Z.to_nat (maxRetries + 1 - retryCount r) <= fuel)%nat ->
  exists er' r',
    retryLoop callTool fuel tradeInput er r = (Ok er', r') /\
    (retryCount r' <=? maxRetries)%Z && negb (er_success er') = false.
Proof.
  induction fuel as [|fuel IH]; intros er r Hfuel.
  - exists er, r. split; [reflexivity|].
    replace (retryCount r <=? maxRetries)%Z with false; [reflexivity|].
    symmetry. apply Z.leb_gt. lia.
  - cbn [retryLoop]. unfold bind at 1. unfold gets at 1.
    destruct ((retryCount r <=? maxRetries)%Z && negb (er_success er)) eqn:Hcond.
    + destruct (attempt callTool tradeInput r) as [[er1|e] r1] eqn:Hat.
      * destruct (attempt_ok _ _ Hat) as [Hs _].
        exists er1, r1. split; [reflexivity|].
        rewrite Hs. cbn [negb]. apply andb_false_r.
      * destruct (attempt_advances tradeInput r)
          as (res & r1' & evs & Heq & Hadv & _).
        rewrite Hat in Heq. injection Heq as <- <-.
        assert (Hrc : retryCount r1 = retryCount r) by apply Hadv.
        unfold bind. rewrite attemptFailed_spec, Hrc.
        destruct (retryCount r + 1 <=? maxRetries)%Z; apply IH; run_state; lia.
    + exists er, r. split; [reflexivity | exact Hcond].
Qed.

(** *** The ledger calls of a run *)

Lemma offLedger_no_start (evs : list Event) :
  Forall offLedger evs -> occurrences isRecordStart evs = 0%nat.
Proof.
  unfold occurrences. induction 1 as [|e evs [He _] _ IH]; simpl; [reflexivity|].
  now rewrite He.
Qed.

Lemma offLedger_no_end (evs : list Event) :
  Forall offLedger evs -> occurrences isRecordEnd evs = 0%nat.
Proof.
  unfold occurrences. induction 1 as [|e evs [_ He] _ IH]; simpl; [reflexivity|].
  now rewrite He.
Qed.

Lemma followUp_offLedger (evs : list Event) :
  Forall followUp evs -> Forall offLedger evs.
Proof.
  induction 1 as [|e evs [He _] _ IH]; constructor; [|exact IH].
  destruct e; try discriminate He. split; reflexivity.
Qed.

(** The retry loop never throws and makes no ledger call, whatever the
    backend answers. *)
Lemma retryLoop_offLedger (fuel : nat) (tradeInput : TradeExecutionInput) :
  forall (er : ExecutionResult) (r : Run),
  exists er' r' evs,
    retryLoop callTool fuel tradeInput er r = (Ok er', r') /\
    trace r' = trace r ++ evs /\ Forall offLedger evs /\
    securityContext r' = securityContext r /\
    dbFaults r' = dbFaults r /\ rows r' = rows r.
Proof.
  induction fuel as [|fuel IH]; intros er r.
  - exists er, r, []. cbn [retryLoop]. unfold ret. rewrite app_nil_r.
    repeat split. constructor.
  - cbn [retryLoop]. unfold bind at 1. unfold gets at 1.
    destruct ((retryCount r <=? maxRetries)%Z && negb (er_success er)).
    + destruct (attempt_advances tradeInput r)
        as (res & r1 & evs & -> & (A1 & A2 & A3 & _ & _ & _ & A7) & Hf).
      destruct res as [er1|e].
      * exists er1, r1, (ev_callTool
                          (approve_token_spending usdc (marketAddress tradeInput)
                             (amount tradeInput)) :: evs).
        repeat split; try assumption.
        constructor; [split; reflexivity | apply followUp_offLedger, Hf].
      * unfold bind. rewrite attemptFailed_spec.
        destruct (retryCount r1 + 1 <=? maxRetries)%Z.
        -- destruct (IH er (emit (ev_delay retryDelayMs)
                              (setRetryCount (retryCount r1 + 1) r1)))
             as (er' & r' & evs' & -> & T & F & S1 & S2 & S3).
           run_state_in T. run_state_in S1. run_state_in S2. run_state_in S3.
           exists er', r', ((ev_callTool
                              (approve_token_spending usdc
                                 (marketAddress tradeInput)
                                 (amount tradeInput)) :: evs)
                           ++ [ev_delay retryDelayMs] ++ evs').
           split; [reflexivity|]. split.
           { rewrite T, A7. now repeat rewrite <- app_assoc. }
           split.
           { apply Forall_app. split.
             - constructor; [split; reflexivity | apply followUp_offLedger, Hf].
             - constructor; [split; reflexivity | exact F]. }
           rewrite S1, S2, S3. repeat split; assumption.
        -- destruct (IH (failedResult e (retryCount r1 + 1))
                        (setRetryCount (retryCount r1 + 1) r1))
             as (er' & r' & evs' & -> & T & F & S1 & S2 & S3).
           run_state_in T. run_state_in S1. run_state_in S2. run_state_in S3.
           exists er', r', ((ev_callTool
                              (approve_token_spending usdc
                                 (marketAddress tradeInput)
                                 (amount tradeInput)) :: evs) ++ evs').
           split; [reflexivity|]. split.
           { rewrite T, A7. now repeat rewrite <- app_assoc. }
           split.
           { apply Forall_app. split; [|exact F].
             constructor; [split; reflexivity | apply followUp_offLedger, Hf]. }
           rewrite S1, S2, S3. repeat split; assumption.
    + exists er, r, []. unfold ret. rewrite app_nil_r. repeat split. constructor.
Qed.

(** Count the ledger calls among the new events of a finished run. *)
Ltac count_ledger :=
  unfold newEvents; run_state;
  repeat match goal with T : trace _ = _ |- _ => rewrite T; clear T end;
  run_state;
  repeat rewrite <- app_assoc; rewrite skipn_prefix;
  repeat (rewrite ?occurrences_app, ?occurrences_cons);
  repeat match goal with F : Forall offLedger _ |- _ =>
    rewrite ?(offLedger_no_start F), ?(offLedger_no_end F); clear F end;
  cbn; auto.

(** X7. In every run [recordTradeStart] and [recordTradeEnd] are each called at
    most once, and a run that called [recordTradeStart] calls
    [recordTradeEnd] exactly once: after the trade is undertaken every path
    (success, retries used up, an exception of the database) passes one
    [recordTradeEnd]. *)
Lemma ledger_calls (tradeInput : TradeExecutionInput) (r : Run) :
  let new := newEvents r (snd (execute callTool tradeInput r)) in
  (occurrences isRecordStart new = 0%nat /\
   (occurrences isRecordEnd new <= 1)%nat) \/
  (occurrences isRecordStart new = 1%nat /\
   occurrences isRecordEnd new = 1%nat).
Proof.
  cbv zeta.
  unfold execute, tryBlock, bind, validateM, gets, callToolM,
    recordTradeStartM, modify, repoCreate.
  run_state.
  destruct (validateTradeAmount (amount tradeInput) (today r) (securityContext r))
    as [v c].
  run_state. destruct (valid v); run_state.
  2:{ unfold ret. left. count_ledger. }
  destruct (truthy (POLYMARKET_WALLET_ADDRESS r)); run_state.
  2:{ unfold throw, catchBlock.
      match goal with |- context [if ?b then _ else _] => destruct b end;
        left; count_ledger. }
  destruct (callTool (get_balance usdc (showOpt (POLYMARKET_WALLET_ADDRESS r)))
              (backend r)) as [balanceResult b1].
  run_state. destruct (success balanceResult); run_state.
  2:{ unfold throw, catchBlock.
      match goal with |- context [if ?b then _ else _] => destruct b end;
        left; count_ledger. }
  destruct (nan_lt _ _); run_state.
  { unfold throw, catchBlock.
    match goal with |- context [if ?b then _ else _] => destruct b end;
      left; count_ledger. }
  destruct (dbFaults r) as [|[e0|] rest0] eqn:Hdb; run_state.
  2:{ unfold catchBlock.
      match goal with |- context [if ?b then _ else _] => destruct b end;
        right; count_ledger. }
  all: match goal with
       |- context [retryLoop _ _ ?ti initialResult ?rc] =>
         destruct (retryLoop_offLedger loopFuel ti initialResult rc)
           as (er' & r' & evs & -> & T & F & S1 & S2 & S3)
       end; run_state_in T; run_state_in S2; run_state.
  all: destruct (er_success er' && truthy (er_transactionHash er')); run_state.
  all: unfold ret, recordTradeEndM, modify, repoUpdateStatus; run_state;
       rewrite ?S2; run_state.
  all: try (right; count_ledger; fail).
  all: repeat match goal with
       |- context [match ?l with [] => _ | _ :: _ => _ end] =>
         destruct l as [|[?|] ?]
       end; run_state.
  all: try (right; count_ledger; fail).
  all: unfold catchBlock;
       match goal with |- context [if ?b then _ else _] => destruct b end;
       right; count_ledger.
Qed.

(** [validateTradeAmount] leaves the concurrent count alone. *)
Lemma validate_keeps_count (amount today : string)
    (ctx : WalletSecurityContext (num:=num)) :
  concurrentTradesCount (snd (validateTradeAmount amount today ctx))
  = concurrentTradesCount ctx.
Proof.
  unfold validateTradeAmount.
  repeat match goal with |- context [if ?b then _ else _] => destruct b end;
    reflexivity.
Qed.

(** C4, as the code has it: a run that passes validation but finds no wallet
    address configured throws before [recordTradeStart], and its [catch]
    block calls [recordTradeEnd] all the same: one [recordTradeEnd], no
    [recordTradeStart], and the concurrent count of the process goes down
    by one (if it was positive). *)
Theorem recordEnd_without_recordStart
    (tradeInput : TradeExecutionInput) (r : Run) :
  securityAccepts tradeInput r ->
  truthy (POLYMARKET_WALLET_ADDRESS r) = false ->
  let r' := snd (execute callTool tradeInput r) in
  newEvents r r' = [ev_validate (amount tradeInput); ev_recordTradeEnd] /\
  occurrences isRecordStart (newEvents r r') = 0%nat /\
  occurrences isRecordEnd (newEvents r r') = 1%nat /\
  concurrentTradesCount (securityContext r')
  = Z.max 0 (concurrentTradesCount (securityContext r) - 1).
Proof.
  intros Hacc Hwallet. unfold securityAccepts in Hacc.
  pose proof (validate_keeps_count (amount tradeInput) (today r)
                (securityContext r)) as Hcount.
  cbv zeta.
  unfold execute, tryBlock, bind, validateM, gets.
  run_state.
  destruct (validateTradeAmount (amount tradeInput) (today r) (securityContext r))
    as [v c].
  cbn [fst snd] in Hacc, Hcount. run_state. rewrite Hacc. run_state.
  rewrite Hwallet. run_state.
  unfold throw, catchBlock.
  match goal with |- context [includes ?m "insufficient" || includes ?m "unauthorized"] =>
    replace (includes m "insufficient" || includes m "unauthorized") with false
      by (vm_compute; reflexivity)
  end.
  unfold newEvents. run_state.
  repeat rewrite <- app_assoc. rewrite skipn_prefix.
  unfold recordTradeEnd. cbn [concurrentTradesCount]. rewrite Hcount.
  repeat split.
Qed.

End Pipeline.


(** The run without a wallet address while another trade is open. *)
Lemma recordEnd_without_recordStart_witness :
  securityAccepts (num:=Q) trade50 unconfiguredRun /\
  truthy (POLYMARKET_WALLET_ADDRESS (unconfiguredRun (num:=Q))) = false /\
  let r' := snd (execute (num:=Q) refusingBackend trade50 unconfiguredRun) in
  concurrentTradesCount (securityContext (unconfiguredRun (num:=Q))) = 1%Z /\
  occurrences isRecordStart (newEvents unconfiguredRun r') = 0%nat /\
  occurrences isRecordEnd (newEvents unconfiguredRun r') = 1%nat /\
  concurrentTradesCount (securityContext r') = 0%Z.
Proof.
  assert (Hacc : securityAccepts (num:=Q) trade50 unconfiguredRun)
    by (vm_compute; reflexivity).
  assert (Hw : truthy (POLYMARKET_WALLET_ADDRESS (unconfiguredRun (num:=Q))) = false)
    by reflexivity.
  split; [exact Hacc|]. split; [exact Hw|].
  destruct (recordEnd_without_recordStart refusingBackend Hacc Hw)
    as (_ & Hs & He & Hc).
  split; [reflexivity|]. split; [exact Hs|]. split; [exact He|]. exact Hc.
Defined.

End ExecutionFacts.

(* ===================================================================== *)
(** ** The circuit breaker *)
(* ===================================================================== *)

Module BreakerFacts.

Import Effects Reddit RedditScenarios.
Local Open Scope Z_scope.

Section AnyWorld.

Variable Ext : Type.
Variable clock : Ext -> Z.
Variable T : Type.

(** While open, the fallback comes back and nothing else happens, whatever
    the operation is. *)
Lemma open_short_circuits (cb : RedditApiCircuitBreaker) (w : Ext)
    (operation : M Ext T) (fallback : T) :
  isOpen cb (clock w) = true ->
  execute clock operation fallback (cb, w) = (Ok fallback, (cb, w)).
Proof. intro Ho. unfold execute. now rewrite Ho. Qed.

(** While not open, the operation is invoked and its outcome recorded. *)
Lemma closed_invokes (cb : RedditApiCircuitBreaker) (w : Ext)
    (operation : M Ext T) (fallback : T) :
  isOpen cb (clock w) = false ->
  execute clock operation fallback (cb, w)
  = match operation w with
    | (Ok result, w') => (Ok result, (onSuccess cb, w'))
    | (Throw e, w') => (Throw e, (onFailure (clock w') cb, w'))
    end.
Proof. intro Ho. unfold execute. now rewrite Ho. Qed.

(** Below the threshold the breaker is not open, at any time. *)
Lemma below_threshold_closed (cb : RedditApiCircuitBreaker) (now : Z) :
  failures cb < failureThreshold cb -> isOpen cb now = false.
Proof.
  intro Hlt. unfold isOpen.
  replace (failures cb >=? failureThreshold cb) with false; [reflexivity|].
  symmetry. rewrite Z.geb_leb. apply Z.leb_gt. exact Hlt.
Qed.

(** At or above the threshold it is open exactly during the recovery
    window. *)
Lemma at_threshold_open (cb : RedditApiCircuitBreaker) (now : Z) :
  failureThreshold cb <= failures cb ->
  isOpen cb now = (now - lastFailureTime cb <? recoveryTimeout cb).
Proof.
  intro Hle. unfold isOpen.
  replace (failures cb >=? failureThreshold cb) with true; [reflexivity|].
  symmetry. rewrite Z.geb_leb. apply Z.leb_le. exact Hle.
Qed.

(** Failing calls on a breaker that stays below its threshold are all
    invoked and all counted. *)
Lemma failures_accumulate (fallback : T) (operations : list (M Ext T)) :
  forall (cb : RedditApiCircuitBreaker) (w : Ext),
  Forall (alwaysFails (Ext:=Ext)) operations ->
  failures cb + Z.of_nat (List.length operations) <= failureThreshold cb ->
  let '(outcomes, (cb', w')) := executeAll clock operations fallback (cb, w) in
  Forall (isThrow (T:=T)) outcomes /\
  List.length outcomes = List.length operations /\
  failures cb' = failures cb + Z.of_nat (List.length operations) /\
  failureThreshold cb' = failureThreshold cb /\
  recoveryTimeout cb' = recoveryTimeout cb /\
  (operations <> [] -> lastFailureTime cb' = clock w').
Proof.
  induction operations as [|op rest IH]; intros cb w Hall Hlen.
  - cbn [executeAll]. repeat split; try constructor.
    + cbn [List.length]. lia.
    + intro Hne. now contradiction Hne.
  - inversion Hall as [|? ? Hop Hrest]; subst.
    cbn [executeAll List.length] in *.
    rewrite closed_invokes
      by (apply below_threshold_closed; lia).
    destruct (Hop w) as (e & w1 & ->).
    specialize (IH (onFailure (clock w1) cb) w1 Hrest).
    cbn [failures onFailure failureThreshold recoveryTimeout lastFailureTime] in IH.
    destruct (executeAll clock rest fallback (onFailure (clock w1) cb, w1))
      as [outcomes [cb' w']] eqn:Hrun.
    destruct IH as (I1 & I2 & I3 & I4 & I5 & I6); [lia|].
    repeat split; try assumption.
    + constructor; [exact I|exact I1].
    + cbn [List.length]. now rewrite I2.
    + lia.
    + intros _. destruct rest as [|op' rest'].
      * cbn [executeAll] in Hrun. inversion Hrun; subst. reflexivity.
      * apply I6. discriminate.
Qed.

(** C3. The circuit breaker: from a closed breaker, fewer consecutive
    failures than the threshold leave it closed and exactly the threshold
    opens it (every one of these calls invokes the operation); a call made
    while it is open returns the fallback without invoking the operation; a
    call made once the recovery window has passed invokes the operation, and
    then a success puts the counter back to 0 while a failure sets the
    last-failure time anew and keeps the breaker open. *)
Theorem breaker_trips_and_recovers (fallback : T)
    (cb : RedditApiCircuitBreaker) (w : Ext) :
  (forall operations : list (M Ext T),
     failures cb = 0 -> 0 < recoveryTimeout cb ->
     Forall (alwaysFails (Ext:=Ext)) operations ->
     let '(outcomes, (cb', w')) := executeAll clock operations fallback (cb, w) in
     (Z.of_nat (List.length operations) < failureThreshold cb ->
        Forall (isThrow (T:=T)) outcomes /\
        forall now, isOpen cb' now = false) /\
     (1 <= failureThreshold cb ->
      Z.of_nat (List.length operations) = failureThreshold cb ->
        Forall (isThrow (T:=T)) outcomes /\
        failures cb' = failureThreshold cb /\
        lastFailureTime cb' = clock w' /\
        isOpen cb' (clock w') = true /\
        forall now, now - clock w' < recoveryTimeout cb -> isOpen cb' now = true)) /\
  (isOpen cb (clock w) = true ->
     forall operation : M Ext T,
       execute clock operation fallback (cb, w) = (Ok fallback, (cb, w))) /\
  (failureThreshold cb <= failures cb ->
   recoveryTimeout cb <= clock w - lastFailureTime cb ->
     forall operation : M Ext T,
       execute clock operation fallback (cb, w)
       = match operation w with
         | (Ok result, w') => (Ok result, (onSuccess cb, w'))
         | (Throw e, w') => (Throw e, (onFailure (clock w') cb, w'))
         end /\
       failures (onSuccess cb) = 0 /\
       forall t,
         lastFailureTime (onFailure t cb) = t /\
         failures (onFailure t cb) = failures cb + 1 /\
         forall now, now - t < recoveryTimeout cb ->
                     isOpen (onFailure t cb) now = true).
Proof.
  split; [|split].
  - intros operations H0 Hrt Hall.
    destruct (Z_le_gt_dec (Z.of_nat (List.length operations)) (failureThreshold cb))
      as [Hle|Hgt].
    + pose proof (@failures_accumulate fallback operations cb w Hall) as Hacc.
      destruct (executeAll clock operations fallback (cb, w))
        as [outcomes [cb' w']].
      destruct Hacc as (I1 & I2 & I3 & I4 & I5 & I6); [lia|].
      split.
      * intro Hlt. split; [exact I1|].
        intro now. apply below_threshold_closed. lia.
      * intros Hpos Heq. split; [exact I1|].
        assert (Hne : operations <> []).
        { intro E. rewrite E in Heq. cbn in Heq. lia. }
        assert (Hopen : forall now, now - clock w' < recoveryTimeout cb ->
                                    isOpen cb' now = true).
        { intros now Hnow. rewrite at_threshold_open by lia.
          rewrite (I6 Hne), I5. apply Z.ltb_lt. exact Hnow. }
        repeat split; try lia; try (apply I6, Hne); try exact Hopen.
        apply Hopen. lia.
    + destruct (executeAll clock operations fallback (cb, w))
        as [outcomes [cb' w']].
      split; intros; lia.
  - intros Ho operation. apply open_short_circuits, Ho.
  - intros Hth Hwin operation. split; [|split].
    + apply closed_invokes. rewrite at_threshold_open by exact Hth.
      apply Z.ltb_ge. exact Hwin.
    + reflexivity.
    + intro t. split; [reflexivity|]. split; [reflexivity|].
      intros now Hnow. rewrite at_threshold_open
        by (cbn [failures failureThreshold onFailure]; lia).
      cbn [lastFailureTime recoveryTimeout onFailure]. apply Z.ltb_lt. exact Hnow.
Qed.

End AnyWorld.

(** Scenario D: five failures in a row open the default breaker, and a sixth
    call inside the recovery window gets the fallback while the world (the
    clock included) stays as it was. *)
Lemma breaker_trips_and_recovers_witness :
  let '(outcomes, (cb', w')) :=
    executeAll tick (repeat (failingSearch (T:=list nat)) 5) []
      (defaultBreaker, 0) in
  failures defaultBreaker = 0 /\ 0 < recoveryTimeout defaultBreaker /\
  Forall (alwaysFails (Ext:=Z)) (repeat (failingSearch (T:=list nat)) 5) /\
  Forall (isThrow (T:=list nat)) outcomes /\
  isOpen cb' (tick w') = true /\
  execute tick emptySearch [7%nat] (cb', w') = (Ok [7%nat], (cb', w')).
Proof.
  assert (Hall : Forall (alwaysFails (Ext:=Z))
                   (repeat (failingSearch (T:=list nat)) 5)).
  { apply Forall_forall. intros op Hin. apply repeat_spec in Hin. subst op.
    intro w. eexists. eexists. reflexivity. }
  destruct (breaker_trips_and_recovers tick (T:=list nat) [] defaultBreaker 0)
    as (Htrip & _).
  specialize (Htrip _ eq_refl eq_refl Hall).
  destruct (executeAll tick (repeat failingSearch 5) [] (defaultBreaker, 0))
    as [outcomes [cb' w']].
  destruct Htrip as (_ & Hopen).
  destruct Hopen as (Hth & _ & _ & Ho & _); [cbn; lia | reflexivity |].
  destruct (breaker_trips_and_recovers tick (T:=list nat) [7%nat] cb' w')
    as (_ & Hshort & _).
  repeat split; try assumption; try reflexivity.
  apply Hshort, Ho.
Defined.

End BreakerFacts.

(* ===================================================================== *)
(** ** The signal cache *)
(* ===================================================================== *)

Module CacheFacts.

Import Effects Reddit RedditScenarios.
Local Open Scope string_scope.
Local Open Scope Z_scope.

Section AnyNumber.

Context {num : Type} `{Number num}.

Local Abbreviation Cache := (LRUCache (Cached (num:=num))).

(** After [delete] the key is gone. *)
Lemma deleted_absent (k : string) (c : Cache) : absent k (lru_delete k c).
Proof.
  unfold absent, lru_delete. cbn [entries withEntries].
  induction (entries c) as [|e es IH]; [reflexivity|].
  cbn [filter]. destruct (hasKey k e) eqn:E; cbn [negb]; [exact IH|].
  cbn [find]. now rewrite E.
Qed.

Lemma lru_delete_configured (k : string) (c : Cache) :
  configured c -> configured (lru_delete k c).
Proof. intro Hc. exact Hc. Qed.

(** What [get] answers right after [set], in a cache with room for an entry. *)
Lemma get_after_set (k : string) (v : Cached) (T now : Z) (c : Cache) :
  (1 <= max c)%nat ->
  lru_get k now (lru_set k v T c)
  = if negb (ttl c =? 0) && negb (T =? 0) && (now - T >? ttl c)
    then (None, lru_delete k (lru_set k v T c))
    else (Some v,
          withEntries ({| key := k; value := v; start := T |}
                         :: entries (lru_delete k (lru_set k v T c)))
            (lru_set k v T c)).
Proof.
  intro Hmax. unfold lru_get, lru_set at 1 2. cbn [entries withEntries].
  destruct (max c) as [|n]; [lia|]. cbn [firstn find].
  unfold hasKey at 1. cbn [key]. rewrite String.eqb_refl. unfold isStale. cbn [ttl withEntries start value].
  reflexivity.
Qed.

(** The lookup keeps the settings of the cache. *)
Lemma getCachedResult_configured (marketId queryHash : string) (now : Z)
    (c : Cache) :
  configured c -> configured (snd (getCachedResult marketId queryHash now c)).
Proof.
  intro Hc. unfold getCachedResult, lru_get.
  destruct (find _ (entries c)) as [e|]; [|exact Hc].
  destruct (isStale c now e); [exact Hc|].
  destruct (_ >? _); exact Hc.
Qed.

(** A lookup within five minutes of the insertion finds the entry. *)
Lemma lookup_after_insert (marketId queryHash : string)
    (d : ProcessedRedditData) (T now : Z) (c : Cache) :
  configured c ->
  now - T <= 5 * 60 * 1000 ->
  fst (getCachedResult marketId queryHash now
         (setCachedResult marketId queryHash d T c)) = Some d.
Proof.
  intros [Hmax Httl] Hfresh.
  unfold getCachedResult, setCachedResult.
  rewrite get_after_set by (rewrite Hmax; lia).
  rewrite Httl. change (5 * 60 * 1000 =? 0) with false. cbn [negb andb].
  rewrite Z.gtb_ltb.
  destruct (Z.ltb_spec (5 * 60 * 1000) (now - T)) as [Hlate|_]; [lia|].
  rewrite andb_false_r. cbn [timestamp data].
  rewrite Z.gtb_ltb.
  destruct (Z.ltb_spec (5 * 60 * 1000) (now - T)); [lia|]. reflexivity.
Qed.

(** C9, as the code has it. An entry put into the cache at time [T] is
    returned by a lookup at any time [now] with [now - T <= TTL], the instant
    [T + TTL] included; a lookup with [now - T > TTL] treats it as absent
    and removes it. *)
Theorem cache_entry_lifetime (marketId queryHash : string)
    (d : ProcessedRedditData) (T now : Z) (c : Cache) :
  configured c ->
  let c' := setCachedResult marketId queryHash d T c in
  (now - T <= 5 * 60 * 1000 ->
     fst (getCachedResult marketId queryHash now c') = Some d) /\
  (now - T > 5 * 60 * 1000 ->
     fst (getCachedResult marketId queryHash now c') = None /\
     absent (cacheKeyOf marketId queryHash)
       (snd (getCachedResult marketId queryHash now c'))).
Proof.
  intros [Hmax Httl] c'. subst c'.
  unfold getCachedResult, setCachedResult.
  rewrite get_after_set by (rewrite Hmax; lia).
  rewrite Httl. change (5 * 60 * 1000 =? 0) with false. cbn [negb andb].
  rewrite Z.gtb_ltb.
  destruct (Z.ltb_spec (5 * 60 * 1000) (now - T)) as [Hlate|Hfresh].
  - split; [lia|]. intros _.
    destruct (T =? 0); cbn [negb andb fst snd timestamp data].
    + rewrite Z.gtb_ltb.
      destruct (Z.ltb_spec (5 * 60 * 1000) (now - T)); [|lia].
      cbn [fst snd]. split; [reflexivity | apply deleted_absent].
    + split; [reflexivity | apply deleted_absent].
  - split; [|lia]. intros _. rewrite andb_false_r. cbn [timestamp data].
    rewrite Z.gtb_ltb.
    destruct (Z.ltb_spec (5 * 60 * 1000) (now - T)); [lia|]. reflexivity.
Qed.

End AnyNumber.

(** An entry set at 0 and read one millisecond before and one after the
    five minutes. *)
Lemma cache_entry_lifetime_witness :
  configured (emptyCache (num:=Q)) /\
  fst (getCachedResult "market-1" "q" 299999
         (setCachedResult "market-1" "q" neutralData 0 (emptyCache (num:=Q))))
  = Some neutralData /\
  fst (getCachedResult "market-1" "q" 300001
         (setCachedResult "market-1" "q" neutralData 0 (emptyCache (num:=Q))))
  = None.
Proof.
  assert (Hc : configured (emptyCache (num:=Q))) by (split; reflexivity).
  split; [exact Hc|]. split.
  - destruct (cache_entry_lifetime "market-1" "q" neutralData 0 299999 Hc)
      as [Hfresh _].
    apply Hfresh. lia.
  - destruct (cache_entry_lifetime "market-1" "q" neutralData 0 300001 Hc)
      as [_ Hlate].
    apply Hlate. lia.
Defined.

(** C9 as stated fails at the boundary: with [now - insertion = TTL], which
    is [>= TTL], the lookup still returns the entry and leaves it in the
    cache. *)
Lemma expiry_at_ttl_counterexample :
  let c := setCachedResult "market-1" "q" neutralData 0 (emptyCache (num:=Q)) in
  (300000 - 0 >= 5 * 60 * 1000) /\
  fst (getCachedResult "market-1" "q" 300000 c) = Some neutralData /\
  ~ absent (cacheKeyOf "market-1" "q")
      (snd (getCachedResult "market-1" "q" 300000 c)).
Proof.
  cbv zeta. split; [lia|]. split; [reflexivity|].
  unfold absent. vm_compute. discriminate.
Qed.

End CacheFacts.

(* ===================================================================== *)
(** ** The Reddit intelligence tool *)
(* ===================================================================== *)

Module RedditToolFacts.

Import Effects Reddit RedditScenarios CacheFacts.
Local Open Scope string_scope.
Local Open Scope Z_scope.

Section AnyWorld.

Context {num : Type} `{Number num}.
Variable Ext : Type.
Variable clock : Ext -> Z.
Variable searchRedditDiscussions : ToolInput -> M Ext (list (RedditPost (num:=num))).
Variable analyzeQualityPosts :
  list (RedditPost (num:=num)) -> string -> M Ext (ProcessedRedditData (num:=num)).
Variable generateQueryHash : ToolInput -> string.

Local Abbreviation tool :=
  (redditIntelligenceTool clock searchRedditDiscussions analyzeQualityPosts
     generateQueryHash).

(** A failing source is not cached: when the search is invoked and throws,
    the tool answers with the fallback and stores nothing. *)
Lemma source_error_not_cached (input : ToolInput) (s : State Ext)
    (e : string) (w' : Ext) :
  fst (getCachedResult (marketId input) (generateQueryHash input)
         (clock (ext s)) (cache s)) = None ->
  isOpen (circuitBreaker s) (clock (ext s)) = false ->
  searchRedditDiscussions input (ext s) = (Throw e, w') ->
  tool input s
  = ({| out_data := neutralData; sources := ["fallback"]; cached := false |},
     {| circuitBreaker := onFailure (clock w') (circuitBreaker s);
        cache := snd (getCachedResult (marketId input) (generateQueryHash input)
                        (clock (ext s)) (cache s));
        ext := w' |}).
Proof.
  intros Hmiss Hclosed Hthrow.
  unfold redditIntelligenceTool, toolTry.
  destruct (getCachedResult _ _ _ _) as [[hit|] cache1]; [discriminate|].
  unfold execute. rewrite Hclosed, Hthrow. reflexivity.
Qed.

(** C8, as the code has it: with the breaker open and nothing cached, the
    tool makes no call, turns the breaker's empty fallback into the neutral
    result, and stores that result in the cache, so that lookups during the
    next five minutes, and the next run of the tool, return it as a cached
    result. *)
Theorem open_breaker_result_is_cached (input : ToolInput) (s : State Ext) :
  isOpen (circuitBreaker s) (clock (ext s)) = true ->
  configured (cache s) ->
  fst (getCachedResult (marketId input) (generateQueryHash input)
         (clock (ext s)) (cache s)) = None ->
  let out := fst (tool input s) in
  let s' := snd (tool input s) in
  out = {| out_data := neutralData; sources := ["reddit-api"]; cached := false |} /\
  ext s' = ext s /\ circuitBreaker s' = circuitBreaker s /\
  (forall now, now - clock (ext s) <= 5 * 60 * 1000 ->
     fst (getCachedResult (marketId input) (generateQueryHash input) now
            (cache s')) = Some neutralData) /\
  fst (tool input s')
  = {| out_data := neutralData; sources := ["reddit-cache"]; cached := true |}.
Proof.
  intros Hopen Hconf Hmiss.
  pose proof (getCachedResult_configured (marketId input)
                (generateQueryHash input) (clock (ext s)) Hconf) as Hconf1.
  assert (Hrun : tool input s
          = ({| out_data := neutralData; sources := ["reddit-api"];
                cached := false |},
             {| circuitBreaker := circuitBreaker s;
                cache := setCachedResult (marketId input)
                           (generateQueryHash input) neutralData
                           (clock (ext s))
                           (snd (getCachedResult (marketId input)
                                   (generateQueryHash input)
                                   (clock (ext s)) (cache s)));
                ext := ext s |})).
  { unfold redditIntelligenceTool, toolTry.
    destruct (getCachedResult _ _ _ _) as [[hit|] cache1]; [discriminate|].
    unfold execute. rewrite Hopen. reflexivity. }
  cbv zeta. rewrite Hrun. cbn [fst snd ext circuitBreaker cache].
  assert (Hhit : forall now, now - clock (ext s) <= 5 * 60 * 1000 ->
            fst (getCachedResult (marketId input) (generateQueryHash input) now
                   (setCachedResult (marketId input) (generateQueryHash input)
                      neutralData (clock (ext s))
                      (snd (getCachedResult (marketId input)
                              (generateQueryHash input)
                              (clock (ext s)) (cache s)))))
            = Some neutralData).
  { intros now Hnow.
    apply lookup_after_insert; [exact Hconf1 | exact Hnow]. }
  repeat split; try reflexivity; try exact Hhit.
  unfold redditIntelligenceTool, toolTry. cbn [ext cache circuitBreaker].
  specialize (Hhit (clock (ext s))).
  destruct (getCachedResult _ _ (clock (ext s)) (setCachedResult _ _ _ _ _))
    as [[hit|] cache2]; cbn [fst] in Hhit.
  - assert (E : hit = neutralData) by (injection Hhit; [auto | lia]).
    subst hit. reflexivity.
  - exfalso. assert (E : @None (ProcessedRedditData (num:=num)) = Some neutralData)
      by (apply Hhit; lia). discriminate E.
Qed.

End AnyWorld.

(** One minute after the fifth failure: the tool caches the neutral result
    although the source never answered. *)
Lemma open_breaker_result_is_cached_witness :
  let run := redditIntelligenceTool (num:=Q) tick (fun _ => emptySearch)
               noAnalysis fixedHash in
  isOpen (circuitBreaker (trippedState (num:=Q)))
         (tick (ext (trippedState (num:=Q)))) = true /\
  configured (cache (trippedState (num:=Q))) /\
  fst (getCachedResult (marketId question) (fixedHash question)
         (tick (ext (trippedState (num:=Q))))
         (cache (trippedState (num:=Q)))) = None /\
  sources (fst (run question trippedState)) = ["reddit-api"] /\
  fst (run question (snd (run question trippedState)))
  = {| out_data := neutralData; sources := ["reddit-cache"]; cached := true |}.
Proof.
  cbv zeta.
  assert (Ho : isOpen (circuitBreaker (trippedState (num:=Q)))
                 (tick (ext (trippedState (num:=Q)))) = true) by reflexivity.
  assert (Hc : configured (cache (trippedState (num:=Q))))
    by (split; reflexivity).
  assert (Hm : fst (getCachedResult (marketId question) (fixedHash question)
                      (tick (ext (trippedState (num:=Q))))
                      (cache (trippedState (num:=Q)))) = None) by reflexivity.
  split; [exact Ho|]. split; [exact Hc|]. split; [exact Hm|].
  destruct (open_breaker_result_is_cached tick (fun _ => emptySearch)
              noAnalysis fixedHash question trippedState Ho Hc Hm)
    as (Hout & _ & _ & _ & Hnext).
  split; [now rewrite Hout | exact Hnext].
Defined.

End RedditToolFacts.

(* ===================================================================== *)
(** ** The decision agent: ranges, sizing and strategy *)
(* ===================================================================== *)

Module DecisionBounds.

Import Decision Scenarios.
Local Open Scope string_scope.

Section AnyNumber.

Context {num : Type} `{Number num}.
Local Open Scope js_scope.

(** X1. A decision is recommended for execution exactly when its action is not
    NONE, HOLD included; the action is BUY exactly when an outcome is named,
    and a NONE decision has position size 0. *)
Theorem recommended_iff_acting (m : MarketContext) (i : IntelligenceData) :
  let out := marketDecisionTool m i in
  (recommended_for_execution out = true <-> d_action (decision out) <> NONE)
  /\ (d_action (decision out) = BUY <-> d_outcome (decision out) <> None)
  /\ (d_action (decision out) = NONE ->
        d_position_size (decision out) = lit 0)
  /\ (d_action (decision out) <> NONE ->
        market_filters_passed out = true
        /\ d_strategy (decision out) <> none
        /\ (ofZ (d_confidence (decision out)) >=? lit 70) = true
        /\ d_position_size (decision out)
           = recommended_size (out_risk_assessment out)).
Proof.
  unfold marketDecisionTool.
  destruct (filtersPassed m) eqn:Hf;
    [| simpl; repeat split; intros; try congruence; try discriminate].
  set (sc := calculateMultiFactorScore i m).
  set (conf := Math_round (totalScore sc * lit 100)).
  clearbody conf sc. cbn [negb].
  destruct (determineStrategy i m sc);
    [| | simpl; repeat split; intros; try congruence; try discriminate].
  all: destruct (ofZ conf >=? lit 70) eqn:Hc;
    [ destruct (aggregatedSentiment i >? lit 0.1);
      [| destruct (aggregatedSentiment i <? lit (-0.1))] |];
    simpl; rewrite ?Hc;
    repeat split; intros; try congruence; try discriminate.
Qed.

(** X2. The breaking-news strategy is chosen only on breaking news; a decision
    under it is IMMEDIATE, capped at 75 and carries the stop-loss at 85% of
    the current price.  No other decision carries a stop-loss, and none
    carries a take-profit price. *)
Theorem breaking_news_strategy (m : MarketContext) (i : IntelligenceData) :
  let out := marketDecisionTool m i in
  (d_strategy (decision out) = breaking_news_hunter ->
     breaking_news (newsIntelligence i) = true
     /\ d_execution_urgency (decision out) = IMMEDIATE
     /\ max_position_size (out_risk_assessment out) = lit 75
     /\ stop_loss_price (out_risk_assessment out)
        = Some (currentPrice m * (lit 1 - lit 0.15)))
  /\ (d_strategy (decision out) <> breaking_news_hunter ->
        stop_loss_price (out_risk_assessment out) = None)
  /\ take_profit_price (out_risk_assessment out) = None.
Proof.
  unfold marketDecisionTool.
  destruct (filtersPassed m) eqn:Hf;
    [| simpl; repeat split; intros; try congruence; try discriminate].
  set (sc := calculateMultiFactorScore i m).
  set (conf := Math_round (totalScore sc * lit 100)).
  clearbody conf. cbn [negb].
  destruct (determineStrategy i m sc) eqn:Hs;
    repeat match goal with
    | |- context [if ?b then _ else _] => destruct b
    end;
    simpl; repeat split; intros; try congruence; try discriminate.
  all: unfold determineStrategy in Hs;
    destruct (breaking_news (newsIntelligence i)); [reflexivity|];
    simpl in Hs;
    repeat match type of Hs with
    | context [if ?b then _ else _] => destruct b
    end; discriminate.
Qed.

End AnyNumber.

Local Open Scope Q_scope.

(** The sentiment edge of an accepted input: the gap is at most 2 and the
    mean confidence at most 5/6. *)
Lemma sentiment_edge_range (m : MarketContext (num:=Q)) (i : IntelligenceData) :
  inputSchema m i = true -> 0 <= calculateSentimentEdge i m <= 5 # 3.
Proof.
  intro Hs. apply andb_true_iff in Hs. destruct Hs as [Hm Hi].
  unfold marketSchema, between in Hm.
  unfold intelligenceSchema, between in Hi.
  unfold calculateSentimentEdge, aggregatedSentiment.
  qnum. qbool.
  set (g := _ - _).
  assert (Hg : 0 <= Qabs g <= 2).
  { split; [apply Qabs_nonneg|]. apply Qabs_Qle_condition. subst g. lra. }
  set (c := (_ + _ + _) * _).
  assert (Hc : 0 <= c <= 5 # 6) by (subst c; lra).
  clearbody g c. set (a := Qabs g) in *. clearbody a.
  split; [apply Qmult_le_0_compat; lra|].
  setoid_replace (5 # 3) with (2 * (5 # 6)) by reflexivity.
  apply Qle_trans with (a * (5 # 6)).
  - setoid_replace (a * c) with (c * a) by ring.
    setoid_replace (a * (5 # 6)) with ((5 # 6) * a) by ring.
    apply Qmult_le_compat_r; lra.
  - apply Qmult_le_compat_r; lra.
Qed.

(** The rounded hundredfold of a total in [[0, 19/15]]. *)
Lemma round_of_total (t : Q) :
  0 <= t <= 19 # 15 -> (0 <= Math_round (t * lit 100)%js <= 127)%Z.
Proof.
  intros [Hlo Hhi]. qnum. split.
  - change 0%Z with (Qfloor 0). apply Qfloor_resp_le. lra.
  - assert (Hfl := Qfloor_le (t * 100 + (1 # 2))).
    assert (Hlt : inject_Z (Qfloor (t * 100 + (1 # 2))) < inject_Z 128)
      by (change (inject_Z 128) with 128; lra).
    rewrite <- Zlt_Qlt in Hlt. lia.
Qed.

(** The rounded total of an accepted input. *)
Lemma accepted_total (m : MarketContext (num:=Q)) (i : IntelligenceData) :
  inputSchema m i = true ->
  (0 <= Math_round (totalScore (calculateMultiFactorScore i m) * lit 100)%js
   <= 127)%Z.
Proof.
  intro Hs. pose proof (sentiment_edge_range m i Hs) as H1.
  apply andb_true_iff in Hs. destruct Hs as [Hm Hi].
  pose proof (DecisionFacts.technical_momentum_range i) as H2.
  pose proof (DecisionFacts.liquidity_quality_range m Hm) as H3.
  pose proof (DecisionFacts.timing_urgency_range m) as H4.
  pose proof (DecisionFacts.news_catalyst_range i Hi) as H5.
  apply round_of_total.
  cbn [calculateMultiFactorScore totalScore].
  unfold weightedTotal, w_sentiment_edge, w_technical_momentum,
    w_liquidity_quality, w_timing_urgency, w_news_catalyst.
  cbn [sentiment_edge technical_momentum liquidity_quality timing_urgency
       news_catalyst].
  set (a := calculateSentimentEdge i m) in *.
  set (b := calculateTechnicalMomentum i) in *.
  set (c := calculateLiquidityQuality m) in *.
  set (d := calculateTimingUrgency m) in *.
  set (e := calculateNewsCatalyst i) in *.
  clearbody a b c d e. qnum. lra.
Qed.

(** X3. On an input the schema accepts, four of the five factors lie in [[0,1]];
    the sentiment edge lies in [[0,5/3]]. *)
Theorem factor_ranges (m : MarketContext (num:=Q)) (i : IntelligenceData) :
  inputSchema m i = true ->
  let f := breakdown (calculateMultiFactorScore i m) in
  0 <= sentiment_edge f <= 5 # 3
  /\ 0 <= technical_momentum f <= 1
  /\ 0 <= liquidity_quality f <= 1
  /\ 0 <= timing_urgency f <= 1
  /\ 0 <= news_catalyst f <= 1.
Proof.
  intro Hs. pose proof (sentiment_edge_range m i Hs) as He.
  apply andb_true_iff in Hs. destruct Hs as [Hm Hi].
  cbn [calculateMultiFactorScore breakdown sentiment_edge technical_momentum
       liquidity_quality timing_urgency news_catalyst].
  split; [exact He|]. split; [|split; [|split]].
  - (* technical momentum *)
    unfold calculateTechnicalMomentum. qnum.
    set (x := _ + _ + _). clearbody x. qminmax. lra.
  - (* liquidity quality *)
    unfold marketSchema, calculateLiquidityQuality, between in *.
    qnum. qbool. qminmax. lra.
  - (* timing urgency *)
    unfold calculateTimingUrgency.
    repeat match goal with |- context [if ?b then _ else _] => destruct b end;
      qnum; lra.
  - (* news catalyst *)
    unfold intelligenceSchema, calculateNewsCatalyst, between in *.
    destruct (breaking_news (newsIntelligence i)); qnum; qbool; qminmax; lra.
Qed.

(** X4. On every input the schema accepts the reported confidence lies in
    [[0,127]]. *)
Theorem confidence_bounds (m : MarketContext (num:=Q)) (i : IntelligenceData) :
  inputSchema m i = true ->
  (0 <= d_confidence (decision (marketDecisionTool m i)) <= 127)%Z.
Proof.
  intro Hs. pose proof (accepted_total m i Hs) as Hr.
  unfold marketDecisionTool.
  destruct (filtersPassed m); [| simpl; lia].
  set (conf := Math_round _) in *. clearbody conf. cbn [negb].
  destruct (determineStrategy i m _);
    repeat match goal with
    | |- context [if ?b then _ else _] => destruct b
    end; simpl; exact Hr.
Qed.

(** Whatever the confidence and the strategy, the recommended size is
    between 0 and the strategy's cap, which is 75 or 100. *)
Lemma sizing_within_cap (confidence : Q) (s : Strategy)
    (m : MarketContext (num:=Q)) :
  let ra := calculatePositionSizing confidence s m in
  0 <= recommended_size ra <= max_position_size ra
  /\ max_position_size ra == (match s with breaking_news_hunter => 75 | _ => 100 end)
  /\ recommended_size ra <= confidence_adjusted_size ra * (1 # 4).
Proof.
  unfold calculatePositionSizing, rm_max_single_trade, sa_max_position,
    rm_kelly_fraction.
  destruct s; cbn [max_position_size recommended_size confidence_adjusted_size];
    qnum; qminmax; repeat split; try lra; try reflexivity.
Qed.

(** X5. On an accepted input the position size is at most 25.5: the Kelly size
    stays under every cap, those of the strategies (75, 100) and the
    single-trade limit of 100. *)
Theorem position_size_bounds (m : MarketContext (num:=Q)) (i : IntelligenceData) :
  inputSchema m i = true ->
  0 <= d_position_size (decision (marketDecisionTool m i)) <= 51 # 2.
Proof.
  intro Hs. pose proof (accepted_total m i Hs) as Hc.
  unfold marketDecisionTool.
  destruct (filtersPassed m); [| simpl; qnum; lra].
  set (conf := Math_round _) in *. clearbody conf. cbn [negb].
  assert (Hsize : forall s, (0 <= conf <= 127)%Z ->
            0 <= recommended_size (calculatePositionSizing (ofZ conf) s m)
              <= 51 # 2).
  { intros s [Hlo Hhi].
    assert (Hq : 0 <= inject_Z conf <= 127).
    { split.
      - change 0 with (inject_Z 0). rewrite <- Zle_Qle. exact Hlo.
      - change 127 with (inject_Z 127). rewrite <- Zle_Qle. exact Hhi. }
    unfold calculatePositionSizing, rm_max_single_trade, sa_max_position,
      rm_kelly_fraction.
    destruct s; cbn [recommended_size]; qnum;
      set (c := inject_Z conf) in *; clearbody c; qminmax; lra. }
  destruct (determineStrategy i m _) eqn:Hst;
    repeat match goal with
    | |- context [if ?b then _ else _] => destruct b
    end;
    cbn [decision d_position_size d_confidence position_size sameAction negb];
    first [apply (Hsize _ Hc) | qnum; lra].
Qed.

(** X6. Without breaking news, a market whose liquidity is under 2000 or that
    closes within 12 hours gets no strategy and the action NONE. *)
Theorem quiet_market_gets_none (m : MarketContext (num:=Q)) (i : IntelligenceData) :
  breaking_news (newsIntelligence i) = false ->
  liquidity m < 2000 \/ timeToClose m < 43200000 ->
  let out := marketDecisionTool m i in
  d_strategy (decision out) = none /\ d_action (decision out) = NONE
  /\ recommended_for_execution out = false.
Proof.
  intros Hb Hthin. unfold marketDecisionTool.
  destruct (filtersPassed m); [| simpl; repeat split; reflexivity].
  assert (Hst : determineStrategy i m (calculateMultiFactorScore i m) = none).
  { unfold determineStrategy. rewrite Hb. cbn [andb].
    unfold sa_min_liquidity, sa_min_time_buffer.
    destruct Hthin as [Hl | Ht].
    - assert (E : (liquidity m >=? lit 2000)%js = false)
        by (qnum; apply Qle_bool_false_iff; exact Hl).
      rewrite E, andb_false_r. reflexivity.
    - assert (E : (timeToClose m >=? lit 12 * lit 60 * lit 60 * lit 1000)%js = false).
      { qnum. apply Qle_bool_false_iff.
        setoid_replace (12 * 60 * 60 * 1000) with 43200000 by reflexivity.
        exact Ht. }
      rewrite E, andb_false_r. reflexivity. }
  rewrite Hst. simpl. repeat split; reflexivity.
Qed.

(** *** Instances *)

Lemma factor_ranges_witness :
  inputSchema (num:=Q) plainMarket contraryQuietIntel = true
  /\ (let f := breakdown (calculateMultiFactorScore (num:=Q)
                            contraryQuietIntel plainMarket) in
      0 <= sentiment_edge f <= 5 # 3
      /\ 0 <= technical_momentum f <= 1
      /\ 0 <= liquidity_quality f <= 1
      /\ 0 <= timing_urgency f <= 1
      /\ 0 <= news_catalyst f <= 1).
Proof.
  assert (Hs : inputSchema (num:=Q) plainMarket contraryQuietIntel = true)
    by (vm_compute; reflexivity).
  split; [exact Hs | exact (factor_ranges plainMarket contraryQuietIntel Hs)].
Defined.

Lemma confidence_bounds_witness :
  inputSchema (num:=Q) certainMarket contraryIntel = true
  /\ (0 <= d_confidence
             (decision (marketDecisionTool (num:=Q) certainMarket contraryIntel))
        <= 127)%Z.
Proof.
  assert (Hs : inputSchema (num:=Q) certainMarket contraryIntel = true)
    by (vm_compute; reflexivity).
  split; [exact Hs | exact (confidence_bounds certainMarket contraryIntel Hs)].
Defined.

Lemma position_size_bounds_witness :
  inputSchema (num:=Q) certainMarket contraryIntel = true
  /\ 0 <= d_position_size
            (decision (marketDecisionTool (num:=Q) certainMarket contraryIntel))
       <= 51 # 2.
Proof.
  assert (Hs : inputSchema (num:=Q) certainMarket contraryIntel = true)
    by (vm_compute; reflexivity).
  split; [exact Hs | exact (position_size_bounds certainMarket contraryIntel Hs)].
Defined.

Lemma quiet_market_gets_none_witness :
  let m := market (num:=Q) 1500 64800000 2000 0.01 0.5 in
  let out := marketDecisionTool m calmIntel in
  filtersPassed m = true
  /\ d_strategy (decision out) = none /\ d_action (decision out) = NONE
  /\ recommended_for_execution out = false.
Proof.
  split; [vm_compute; reflexivity|].
  apply (quiet_market_gets_none (market (num:=Q) 1500 64800000 2000 0.01 0.5)
           calmIntel).
  - reflexivity.
  - left. vm_compute. reflexivity.
Defined.

End DecisionBounds.

(* ===================================================================== *)
(** ** The security ledger across runs *)
(* ===================================================================== *)

Module LedgerFacts.

Import Effects Execution ExecutionScenarios ExecutionFacts.
Local Open Scope string_scope.
Local Open Scope list_scope.

Section Pipeline.

Context {num : Type} `{Number num}.
Variable Backend : Type.
Variable callTool : ToolCall -> Backend -> CallResult * Backend.

Local Abbreviation Run := (Run (num:=num) Backend).

(** What a validation leaves of the context: the context itself, or the
    context rolled over to the new day. *)
Lemma validate_context (amount today : string) (ctx : WalletSecurityContext) :
  snd (validateTradeAmount amount today ctx)
  = if emergencyStopActive ctx then ctx else dayRollover today ctx.
Proof.
  unfold validateTradeAmount, dayRollover.
  repeat match goal with |- context [if ?b then _ else _] => destruct b end;
    reflexivity.
Qed.

(** An accepted amount passed the three caps, with the stop not set. *)
Lemma accepted_caps (amount today : string) (ctx : WalletSecurityContext) :
  valid (fst (validateTradeAmount amount today ctx)) = true ->
  emergencyStopActive ctx = false
  /\ exceedsSingleTrade amount = false
  /\ exceedsDailySpend amount (dayRollover today ctx) = false
  /\ atConcurrentLimit (dayRollover today ctx) = false.
Proof.
  destruct (emergencyStopActive ctx) eqn:He.
  - rewrite (SecurityFacts.validate_emergency amount today ctx He). discriminate.
  - rewrite (SecurityFacts.validate_caps amount today ctx He). cbn [fst].
    destruct (exceedsSingleTrade amount); [discriminate|].
    destruct (exceedsDailySpend amount _); [discriminate|].
    destruct (atConcurrentLimit _); [discriminate|].
    repeat split.
Qed.

(** The security context a run leaves behind, by the point the run got to:
    rejected by the manager; stopped at the wallet checks; or past
    [recordTradeStart]. *)
Lemma execute_security (tradeInput : TradeExecutionInput) (r : Run) :
  let v := fst (validateTradeAmount (amount tradeInput) (today r)
                  (securityContext r)) in
  let c := snd (validateTradeAmount (amount tradeInput) (today r)
                  (securityContext r)) in
  let c' := securityContext (snd (execute callTool tradeInput r)) in
  (valid v = false /\ c' = c)
  \/ (valid v = true /\ ~ walletCovers callTool tradeInput r /\
      (c' = recordTradeEnd c \/ c' = activateEmergencyStop (recordTradeEnd c)))
  \/ (valid v = true /\ walletCovers callTool tradeInput r /\
      (c' = recordTradeEnd (recordTradeStart (amount tradeInput) c)
       \/ (dbFaults r <> [] /\
           c' = activateEmergencyStop
                  (recordTradeEnd (recordTradeStart (amount tradeInput) c))))).
Proof.
  cbv zeta. unfold walletCovers.
  unfold execute, tryBlock, bind, validateM, gets, callToolM,
    recordTradeStartM, modify, repoCreate.
  run_state.
  destruct (validateTradeAmount (amount tradeInput) (today r) (securityContext r))
    as [v c].
  run_state. destruct (valid v); run_state.
  2:{ unfold ret. left. split; reflexivity. }
  right.
  destruct (truthy (POLYMARKET_WALLET_ADDRESS r)); run_state.
  2:{ left. split; [reflexivity|]. split; [intros [E _]; discriminate|].
      unfold throw, catchBlock.
      match goal with |- context [if ?b then _ else _] => destruct b end;
        run_state; auto. }
  destruct (callTool (get_balance usdc (showOpt (POLYMARKET_WALLET_ADDRESS r)))
              (backend r)) as [balanceResult b1].
  run_state. destruct (success balanceResult); run_state.
  2:{ left. split; [reflexivity|]. split; [intros (_ & E & _); discriminate|].
      unfold throw, catchBlock.
      match goal with |- context [if ?b then _ else _] => destruct b end;
        run_state; auto. }
  destruct (nan_lt _ _); run_state.
  { left. split; [reflexivity|]. split; [intros (_ & _ & E); discriminate|].
    unfold throw, catchBlock.
    match goal with |- context [if ?b then _ else _] => destruct b end;
      run_state; auto. }
  right. split; [reflexivity|]. split; [repeat split|].
  destruct (dbFaults r) as [|[e0|] rest0] eqn:Hdb; run_state.
  2:{ unfold catchBlock.
      match goal with |- context [if ?b then _ else _] => destruct b end;
        run_state; [right; split; [discriminate | reflexivity] | left; reflexivity]. }
  all: match goal with
       |- context [retryLoop _ _ ?ti initialResult ?rc] =>
         destruct (retryLoop_offLedger callTool loopFuel ti initialResult rc)
           as (er' & r' & evs & -> & T & F & S1 & S2 & S3)
       end; run_state_in T; run_state_in S1; run_state_in S2; run_state.
  all: destruct (er_success er' && truthy (er_transactionHash er')); run_state.
  all: unfold ret, recordTradeEndM, modify, repoUpdateStatus; run_state;
       rewrite ?S2; run_state; rewrite ?S1; auto.
  all: repeat match goal with
       |- context [match ?l with [] => _ | _ :: _ => _ end] =>
         destruct l as [|[?|] ?]
       end; run_state; rewrite ?S1; auto.
  all: unfold catchBlock;
       match goal with |- context [if ?b then _ else _] => destruct b end;
       run_state; rewrite ?S1;
       [right; split; [discriminate | reflexivity] | left; reflexivity].
Qed.

(** X8. A run the manager rejects does nothing else: one validation, no call of
    the backend, no row, no ledger call; the error is the manager's reason. *)
Theorem rejected_run_touches_nothing (tradeInput : TradeExecutionInput) (r : Run) :
  ~ securityAccepts tradeInput r ->
  let v := fst (validateTradeAmount (amount tradeInput) (today r)
                  (securityContext r)) in
  let out := fst (execute callTool tradeInput r) in
  let r' := snd (execute callTool tradeInput r) in
  newEvents r r' = [ev_validate (amount tradeInput)]
  /\ backend r' = backend r /\ rows r' = rows r /\ dbFaults r' = dbFaults r
  /\ out_success (execution_result out) = false
  /\ out_error (execution_result out) = reason v
  /\ retry_count (execution_result out) = 0%Z
  /\ limits_passed (security_checks out) = false
  /\ database_recorded out = false /\ monitoring_active out = false.
Proof.
  unfold securityAccepts. intro Hrej. cbv zeta.
  unfold execute, tryBlock, bind, validateM, gets.
  run_state.
  destruct (validateTradeAmount (amount tradeInput) (today r) (securityContext r))
    as [v c].
  cbn [fst] in *. destruct (valid v); [exfalso; apply Hrej; reflexivity|].
  run_state. unfold ret. run_state.
  unfold newEvents. run_state. rewrite skipn_prefix.
  repeat split.
Qed.

(** X9. A trade that was undertaken is charged to the day whatever becomes of
    it: once the manager accepted and the wallet covered the amount, the
    amount is added to what was spent today, the open-trade count is back
    where it was, and with the database answering the emergency stop stays
    unset, whatever the backend answered to the submission. *)
Theorem undertaken_trade_is_charged (tradeInput : TradeExecutionInput) (r : Run) :
  securityAccepts tradeInput r ->
  walletCovers callTool tradeInput r ->
  let c := dayRollover (today r) (securityContext r) in
  let c' := securityContext (snd (execute callTool tradeInput r)) in
  dailySpentAmount c'
  = nan_add (dailySpentAmount c) (parseFloat (amount tradeInput))
  /\ concurrentTradesCount c'
     = Z.max 0 (concurrentTradesCount (securityContext r))
  /\ (dbFaults r = [] -> emergencyStopActive c' = false).
Proof.
  unfold securityAccepts. intros Hacc Hcov. cbv zeta.
  destruct (accepted_caps _ _ _ Hacc) as (He & _).
  pose proof (validate_context (amount tradeInput) (today r) (securityContext r))
    as Hc. rewrite He in Hc.
  assert (Hstop : emergencyStopActive (dayRollover (today r) (securityContext r))
                  = false).
  { unfold dayRollover. destruct (negb _); exact He. }
  assert (Hcount : concurrentTradesCount
                     (dayRollover (today r) (securityContext r))
                   = concurrentTradesCount (securityContext r)).
  { unfold dayRollover. destruct (negb _); reflexivity. }
  destruct (execute_security tradeInput r) as [[Hv _] | [(_ & Hno & _) | (_ & _ & Hc')]].
  - rewrite Hacc in Hv. discriminate.
  - contradiction.
  - rewrite Hc in Hc'. destruct Hc' as [-> | [Hdb ->]];
      cbn [recordTradeEnd recordTradeStart activateEmergencyStop
           dailySpentAmount concurrentTradesCount emergencyStopActive];
      rewrite Hcount; repeat split; try (f_equal; lia).
    + intros _. exact Hstop.
    + intro E. contradiction.
Qed.

(** X10. With the emergency stop set, no sequence of runs does anything: every
    run is rejected for that reason, no backend call is made, no row is
    written, and the security context, the stop included, stays as it
    was.  Nothing in a run clears the stop. *)
Theorem emergency_stop_is_terminal
    (runs : list (string * TradeExecutionInput)) (r : Run) :
  emergencyStopActive (securityContext r) = true ->
  let outs := fst (executeAll callTool runs r) in
  let r' := snd (executeAll callTool runs r) in
  Forall (fun out =>
            out_success (execution_result out) = false /\
            out_error (execution_result out) = Some "Emergency stop is active")
         outs
  /\ List.length outs = List.length runs
  /\ securityContext r' = securityContext r
  /\ backend r' = backend r /\ rows r' = rows r.
Proof.
  revert r. induction runs as [|[day tradeInput] rest IH]; intros r He.
  - cbn. repeat split. constructor.
  - cbn [executeAll].
    assert (Hrun : exists out r1,
               execute callTool tradeInput (setToday day r) = (out, r1)
               /\ out_success (execution_result out) = false
               /\ out_error (execution_result out)
                  = Some "Emergency stop is active"
               /\ securityContext r1 = securityContext r
               /\ backend r1 = backend r /\ rows r1 = rows r).
    { unfold execute, tryBlock, bind, validateM, gets. run_state.
      cbn [setToday today securityContext].
      rewrite (SecurityFacts.validate_emergency (amount tradeInput) day
                 (securityContext r) He).
      run_state. unfold ret. do 2 eexists. split; [reflexivity|].
      run_state. cbn [setToday securityContext backend rows].
      repeat split. }
    destruct Hrun as (out & r1 & -> & Hs & Herr & Hsec & Hb & Hrows).
    assert (He1 : emergencyStopActive (securityContext r1) = true)
      by (rewrite Hsec; exact He).
    specialize (IH r1 He1). cbv zeta in IH.
    destruct (executeAll callTool rest r1) as [outs r2].
    cbn [fst snd List.length] in *.
    destruct IH as (Hall & Hlen & Hsec2 & Hb2 & Hrows2).
    split; [constructor; [split; assumption | exact Hall]|].
    split; [f_equal; exact Hlen|].
    rewrite Hsec2, Hb2, Hrows2. repeat split; assumption.
Qed.

(** X11. When [parseFloat] reads a number [a] from the amount and the day's
    total after the roll-over is a number [s], the manager accepts exactly
    when the stop is not set, [a > 100] is false, [s + a > 300] is false and
    fewer than three trades are open, the sum and the comparisons being
    those of the code's own arithmetic, whatever it is; after
    [recordTradeStart] the stored total is that same sum [s + a], which
    passed the cap, and the open trades are one more and at most three. *)
Theorem acceptance_criterion (amount today : string)
    (ctx : WalletSecurityContext) (a s : num) :
  parseFloat amount = Some a ->
  dailySpentAmount (dayRollover today ctx) = Some s ->
  (valid (fst (validateTradeAmount amount today ctx)) = true
   <-> emergencyStopActive ctx = false
       /\ (a >? lit 100)%js = false
       /\ (s + a >? lit 300)%js = false
       /\ (concurrentTradesCount ctx < 3)%Z)
  /\ (valid (fst (validateTradeAmount amount today ctx)) = true ->
      let ctx' := recordTradeStart amount
                    (snd (validateTradeAmount amount today ctx)) in
      dailySpentAmount ctx' = Some (s + a)%js
      /\ (s + a >? lit 300)%js = false
      /\ (concurrentTradesCount ctx' = concurrentTradesCount ctx + 1)%Z
      /\ (concurrentTradesCount ctx' <= 3)%Z).
Proof.
  intros Ha Hs.
  assert (Hcount : concurrentTradesCount (dayRollover today ctx)
                   = concurrentTradesCount ctx).
  { unfold dayRollover. destruct (negb _); reflexivity. }
  assert (Hiff : valid (fst (validateTradeAmount amount today ctx)) = true
     <-> emergencyStopActive ctx = false
         /\ (a >? lit 100)%js = false
         /\ (s + a >? lit 300)%js = false
         /\ (concurrentTradesCount ctx < 3)%Z).
  { destruct (emergencyStopActive ctx) eqn:He.
    - rewrite (SecurityFacts.validate_emergency amount today ctx He). cbn.
      split; [discriminate | intros [E _]; discriminate].
    - rewrite (SecurityFacts.validate_caps amount today ctx He). cbn [fst].
      unfold exceedsSingleTrade, exceedsDailySpend, atConcurrentLimit.
      rewrite Ha, Hs, Hcount.
      cbn [nan_gt nan_add SECURITY_LIMITS maxSingleTrade maxDailySpend
           maxConcurrentTrades].
      destruct (a >? lit 100)%js eqn:E1.
      { cbn. split; [discriminate|]. intros (_ & E & _). discriminate. }
      destruct (s + a >? lit 300)%js eqn:E2.
      { cbn. split; [discriminate|]. intros (_ & _ & E & _). discriminate. }
      destruct (concurrentTradesCount ctx >=? 3)%Z eqn:E3.
      { cbn. split; [discriminate|]. intros (_ & _ & _ & Hlt).
        apply Z.geb_le in E3. lia. }
      cbn. split; [|reflexivity]. intros _.
      repeat split.
      rewrite Z.geb_leb in E3. apply Z.leb_gt in E3. exact E3. }
  split; [exact Hiff|].
  intro Hv. destruct (proj1 Hiff Hv) as (He & Hle1 & Hle2 & Hlt).
  cbv zeta. rewrite (SecurityFacts.validate_caps amount today ctx He). cbn [snd].
  unfold recordTradeStart. cbn [dailySpentAmount concurrentTradesCount].
  rewrite Ha, Hs, Hcount. cbn [nan_add]. repeat split; try assumption. lia.
Qed.

End Pipeline.

(** *** In exact arithmetic *)

Section Caps.

Variable Backend : Type.
Variable callTool : ToolCall -> Backend -> CallResult * Backend.

Local Open Scope Q_scope.

(** In exact arithmetic the two caps read [a <= 100] and [s + a <= 300],
    both included. *)
Lemma acceptance_caps_exact (amount today : string)
    (ctx : WalletSecurityContext (num:=Q)) (a s : Q) :
  parseFloat amount = Some a ->
  dailySpentAmount (dayRollover today ctx) = Some s ->
  (valid (fst (validateTradeAmount amount today ctx)) = true
   <-> emergencyStopActive ctx = false /\ a <= 100 /\ s + a <= 300
       /\ (concurrentTradesCount ctx < 3)%Z)
  /\ (valid (fst (validateTradeAmount amount today ctx)) = true ->
      let ctx' := recordTradeStart amount
                    (snd (validateTradeAmount amount today ctx)) in
      dailySpentAmount ctx' = Some (s + a) /\ s + a <= 300
      /\ (concurrentTradesCount ctx' = concurrentTradesCount ctx + 1)%Z
      /\ (concurrentTradesCount ctx' <= 3)%Z).
Proof.
  intros Ha Hs.
  assert (Hcount : concurrentTradesCount (dayRollover today ctx)
                   = concurrentTradesCount ctx).
  { unfold dayRollover. destruct (negb _); reflexivity. }
  assert (Hiff : valid (fst (validateTradeAmount amount today ctx)) = true
     <-> emergencyStopActive ctx = false /\ a <= 100 /\ s + a <= 300
         /\ (concurrentTradesCount ctx < 3)%Z).
  { destruct (emergencyStopActive ctx) eqn:He.
    - rewrite (SecurityFacts.validate_emergency amount today ctx He). cbn.
      split; [discriminate | intros [E _]; discriminate].
    - rewrite (SecurityFacts.validate_caps amount today ctx He). cbn [fst].
      unfold exceedsSingleTrade, exceedsDailySpend, atConcurrentLimit.
      rewrite Ha, Hs, Hcount.
      cbn [nan_gt nan_add SECURITY_LIMITS maxSingleTrade maxDailySpend
           maxConcurrentTrades]. qnum.
      destruct (Qlt_bool 100 a) eqn:E1; qbool.
      { cbn. split; [discriminate|]. intros (_ & Hle & _). lra. }
      destruct (Qlt_bool 300 (s + a)) eqn:E2; qbool.
      { cbn. split; [discriminate|]. intros (_ & _ & Hle & _). lra. }
      destruct (concurrentTradesCount ctx >=? 3)%Z eqn:E3.
      { cbn. split; [discriminate|]. intros (_ & _ & _ & Hlt).
        apply Z.geb_le in E3. lia. }
      cbn. split; [|reflexivity]. intros _.
      repeat split; try assumption.
      rewrite Z.geb_leb in E3. apply Z.leb_gt in E3. exact E3. }
  split; [exact Hiff|].
  intro Hv. destruct (proj1 Hiff Hv) as (He & Hle1 & Hle2 & Hlt).
  cbv zeta. rewrite (SecurityFacts.validate_caps amount today ctx He). cbn [snd].
  unfold recordTradeStart. cbn [dailySpentAmount concurrentTradesCount].
  rewrite Ha, Hs, Hcount. cbn [nan_add]. repeat split; try assumption. lia.
Qed.

(** Validation keeps the context within its caps. *)
Lemma validate_withinLimits (amount today : string)
    (ctx : WalletSecurityContext (num:=Q)) :
  withinLimits ctx -> withinLimits (snd (validateTradeAmount amount today ctx)).
Proof.
  intros [Hs Hc]. rewrite LedgerFacts.validate_context.
  destruct (emergencyStopActive ctx); [split; assumption|].
  unfold dayRollover. destruct (negb _); [|split; assumption].
  split; [reflexivity | exact Hc].
Qed.

Lemma recordTradeEnd_withinLimits (ctx : WalletSecurityContext (num:=Q)) :
  withinLimits ctx -> withinLimits (recordTradeEnd ctx).
Proof.
  intros [Hs Hc]. split; [exact Hs|].
  cbn [recordTradeEnd concurrentTradesCount SECURITY_LIMITS maxConcurrentTrades] in *.
  lia.
Qed.

Lemma emergencyStop_withinLimits (ctx : WalletSecurityContext (num:=Q)) :
  withinLimits ctx -> withinLimits (activateEmergencyStop ctx).
Proof. intros [Hs Hc]. split; assumption. Qed.

Lemma recordTradeStart_withinLimits (amount today : string)
    (ctx : WalletSecurityContext (num:=Q)) :
  withinLimits ctx ->
  valid (fst (validateTradeAmount amount today ctx)) = true ->
  withinLimits (recordTradeStart amount
                  (snd (validateTradeAmount amount today ctx))).
Proof.
  intros Hin Hv.
  destruct (LedgerFacts.accepted_caps _ _ _ Hv) as (He & _ & Hd & Hc).
  pose proof (validate_withinLimits amount today Hin) as [_ Hc0].
  rewrite LedgerFacts.validate_context, He in *.
  split.
  - exact Hd.
  - unfold atConcurrentLimit in Hc.
    cbn [recordTradeStart concurrentTradesCount SECURITY_LIMITS
         maxConcurrentTrades] in *.
    rewrite Z.geb_leb in Hc. apply Z.leb_gt in Hc. lia.
Qed.

(** A run keeps the process within its caps. *)
Lemma execute_withinLimits (tradeInput : TradeExecutionInput)
    (r : Run (num:=Q) Backend) :
  withinLimits (securityContext r) ->
  withinLimits (securityContext (snd (execute callTool tradeInput r))).
Proof.
  intro Hin.
  pose proof (validate_withinLimits (amount tradeInput) (today r) Hin) as Hc.
  destruct (LedgerFacts.execute_security callTool tradeInput r)
    as [[_ ->] | [(_ & _ & [-> | ->]) | (Hv & _ & [-> | [_ ->]])]].
  - exact Hc.
  - apply recordTradeEnd_withinLimits, Hc.
  - apply emergencyStop_withinLimits, recordTradeEnd_withinLimits, Hc.
  - apply recordTradeEnd_withinLimits, recordTradeStart_withinLimits; assumption.
  - apply emergencyStop_withinLimits, recordTradeEnd_withinLimits,
      recordTradeStart_withinLimits; assumption.
Qed.

(** X12. Whatever runs are made one after the other, on whatever days and
    against whatever backend, the day's total never passes the daily cap of
    300 and the open-trade count stays between 0 and 3. *)
Theorem runs_keep_limits (runs : list (string * TradeExecutionInput))
    (r : Run (num:=Q) Backend) :
  withinLimits (securityContext r) ->
  withinLimits (securityContext (snd (executeAll callTool runs r))).
Proof.
  revert r. induction runs as [|[day tradeInput] rest IH]; intros r Hin.
  - exact Hin.
  - cbn [executeAll].
    pose proof (execute_withinLimits tradeInput (setToday day r) Hin) as H1.
    destruct (execute callTool tradeInput (setToday day r)) as [out r1].
    specialize (IH r1 H1).
    destruct (executeAll callTool rest r1) as [outs r2]. exact IH.
Qed.

End Caps.

(** *** Instances *)

Lemma rejected_run_touches_nothing_witness :
  let r := setSecurity (quietContext (num:=Q) 3) readyRun in
  ~ securityAccepts trade50 r
  /\ newEvents r (snd (execute refusingBackend trade50 r)) = [ev_validate "50"]
  /\ backend (snd (execute refusingBackend trade50 r)) = backend r.
Proof.
  assert (Hrej : ~ securityAccepts (num:=Q) trade50
                     (setSecurity (quietContext 3) readyRun))
    by (vm_compute; discriminate).
  split; [exact Hrej|].
  pose proof (rejected_run_touches_nothing refusingBackend Hrej) as Hrun.
  split; apply Hrun.
Defined.

Lemma undertaken_trade_is_charged_witness :
  securityAccepts (num:=Q) trade50 readyRun
  /\ walletCovers refusingBackend trade50 readyRun
  /\ dailySpentAmount
       (securityContext (snd (execute refusingBackend trade50 readyRun)))
     = nan_add (dailySpentAmount
                  (dayRollover (today readyRun) (securityContext readyRun)))
               (parseFloat "50").
Proof.
  assert (Hacc : securityAccepts (num:=Q) trade50 readyRun)
    by (vm_compute; reflexivity).
  assert (Hcov : walletCovers (num:=Q) refusingBackend trade50 readyRun)
    by (vm_compute; repeat split).
  split; [exact Hacc|]. split; [exact Hcov|].
  apply (undertaken_trade_is_charged Hacc Hcov).
Defined.

Lemma emergency_stop_is_terminal_witness :
  let r := setSecurity (activateEmergencyStop (quietContext (num:=Q) 0)) readyRun in
  let runs := [("Tue Nov 03 2026", trade50); ("Wed Nov 04 2026", trade50)] in
  emergencyStopActive (securityContext r) = true
  /\ securityContext (snd (executeAll refusingBackend runs r)) = securityContext r
  /\ backend (snd (executeAll refusingBackend runs r)) = backend r.
Proof.
  split; [reflexivity|].
  pose proof (@emergency_stop_is_terminal Q _ nat refusingBackend
                [("Tue Nov 03 2026", trade50); ("Wed Nov 04 2026", trade50)]
                (setSecurity (activateEmergencyStop (quietContext 0)) readyRun)
                eq_refl) as Hrun.
  split; apply Hrun.
Defined.

Lemma acceptance_criterion_witness :
  let ctx := spent250 (num:=Q) "Tue Nov 03 2026" 0 in
  parseFloat "50" = Some 50%Q
  /\ dailySpentAmount (dayRollover "Tue Nov 03 2026" ctx) = Some 250%Q
  /\ valid (fst (validateTradeAmount "50" "Tue Nov 03 2026" ctx)) = true
  /\ dailySpentAmount
       (recordTradeStart "50"
          (snd (validateTradeAmount "50" "Tue Nov 03 2026" ctx)))
     = Some (250 + 50)%Q.
Proof.
  assert (Ha : parseFloat (num:=Q) "50" = Some 50%Q) by reflexivity.
  assert (Hs : dailySpentAmount
                 (dayRollover "Tue Nov 03 2026"
                    (spent250 (num:=Q) "Tue Nov 03 2026" 0)) = Some 250%Q)
    by reflexivity.
  destruct (acceptance_criterion "50" "Tue Nov 03 2026"
              (spent250 (num:=Q) "Tue Nov 03 2026" 0) Ha Hs) as [Hiff Hstart].
  assert (Hv : valid (fst (validateTradeAmount "50" "Tue Nov 03 2026"
                             (spent250 (num:=Q) "Tue Nov 03 2026" 0))) = true).
  { apply Hiff. split; [reflexivity|]. split; [vm_compute; reflexivity|].
    split; [vm_compute; reflexivity | cbn; lia]. }
  split; [exact Ha|]. split; [exact Hs|]. split; [exact Hv|].
  apply (Hstart Hv).
Defined.

(** The same check in binary64, where the sum is rounded before it is
    compared: on a day's total of 250 the amount 50.00000000000001 is
    accepted, the sum being the double 300, and 300 is the total stored. *)
Lemma rounded_sum_accepted :
  let ctx := spent250 (num:=spec_float) "Tue Nov 03 2026" 0 in
  let amount := "50.00000000000001" in
  valid (fst (validateTradeAmount amount "Tue Nov 03 2026" ctx)) = true
  /\ dailySpentAmount
       (recordTradeStart amount
          (snd (validateTradeAmount amount "Tue Nov 03 2026" ctx)))
     = Some (lit 300)
  /\ valid (fst (validateTradeAmount (num:=Q) amount "Tue Nov 03 2026"
                   (spent250 "Tue Nov 03 2026" 0))) = false.
Proof. vm_compute. repeat split. Qed.

Lemma runs_keep_limits_witness :
  let runs := [("Tue Nov 03 2026", trade50); ("Tue Nov 03 2026", trade50);
               ("Wed Nov 04 2026", trade50)] in
  withinLimits (securityContext (readyRun (num:=Q)))
  /\ withinLimits
       (securityContext (snd (executeAll (flakyBackend 0) runs readyRun))).
Proof.
  assert (Hin : withinLimits (securityContext (readyRun (num:=Q))))
    by (split; [reflexivity | cbn; lia]).
  split; [exact Hin|].
  apply (runs_keep_limits (flakyBackend 0)
           [("Tue Nov 03 2026", trade50); ("Tue Nov 03 2026", trade50);
            ("Wed Nov 04 2026", trade50)] readyRun Hin).
Defined.

End LedgerFacts.

(* ===================================================================== *)
(** ** Printed numbers *)
(* ===================================================================== *)

Module PrintingFacts.

Local Open Scope string_scope.

Lemma lacks_append (c : ascii) (s t : string) :
  lacks c s -> lacks c t -> lacks c (s ++ t).
Proof.
  induction s as [|x s IH]; cbn; [tauto|]. intros [Hx Hs] Ht. split; auto.
Qed.

(** A text in which the first character of [needle] does not occur does not
    include [needle]. *)
Lemma lacks_includes (c : ascii) (needle s : string) :
  lacks c s -> includes s (String c needle) = false.
Proof.
  induction s as [|x s IH]; intro Hl.
  - reflexivity.
  - destruct Hl as [Hx Hs]. cbn [includes prefixb].
    rewrite (IH Hs), orb_false_r.
    destruct (Ascii.eqb c x) eqn:E; [|reflexivity].
    apply Ascii.eqb_eq in E. subst. contradiction.
Qed.

Lemma string_of_uint_lacks (c : ascii) (d : Decimal.uint) :
  letter c -> lacks c (NilEmpty.string_of_uint d).
Proof.
  unfold letter. intro Hc.
  induction d; cbn [NilEmpty.string_of_uint lacks]; try exact I;
    (split; [intro E; subst c; cbn in Hc; lia | assumption]).
Qed.

Lemma Z_toString_lacks (c : ascii) (z : Z) : letter c -> lacks c (Z_toString z).
Proof.
  intro Hc. unfold Z_toString, NilZero.string_of_int.
  destruct (Z.to_int z) as [d|d].
  - unfold NilZero.string_of_uint.
    destruct d; try apply (string_of_uint_lacks _ Hc).
    cbn. split; [|exact I]. intro E. subst c. unfold letter in Hc. cbn in Hc. lia.
  - cbn [lacks]. split.
    + intro E. subst c. unfold letter in Hc. cbn in Hc. lia.
    + unfold NilZero.string_of_uint.
      destruct d; try apply (string_of_uint_lacks _ Hc).
      cbn. split; [|exact I]. intro E. subst c. unfold letter in Hc. cbn in Hc. lia.
Qed.

Lemma fractionDigits_lacks (c : ascii) (fuel : nat) :
  letter c -> forall r d, lacks c (fractionDigits fuel r d).
Proof.
  intro Hc. induction fuel as [|fuel IH]; intros r d; cbn [fractionDigits].
  - exact I.
  - destruct (r =? 0)%Z; [exact I|].
    apply lacks_append; [apply Z_toString_lacks, Hc | apply IH].
Qed.

Lemma Q_toString_lacks (c : ascii) (x : Q) : letter c -> lacks c (Q_toString x).
Proof.
  intro Hc. unfold Q_toString.
  assert (Hbody : lacks c
            (if (Z.abs (Qnum x) mod Z.pos (Qden x) =? 0)%Z
             then Z_toString (Z.abs (Qnum x) / Z.pos (Qden x))
             else Z_toString (Z.abs (Qnum x) / Z.pos (Qden x)) ++ "."
                  ++ fractionDigits 20 (Z.abs (Qnum x) mod Z.pos (Qden x))
                       (Z.pos (Qden x)))).
  { destruct (_ =? 0)%Z; [apply Z_toString_lacks, Hc|].
    apply lacks_append; [apply Z_toString_lacks, Hc|].
    cbn [append lacks]. split.
    - intro E. subst c. unfold letter in Hc. cbn in Hc. lia.
    - apply fractionDigits_lacks, Hc. }
  destruct (Qnum x <? 0)%Z; [|exact Hbody].
  cbn [append lacks]. split; [|exact Hbody].
  intro E. subst c. unfold letter in Hc. cbn in Hc. lia.
Qed.

End PrintingFacts.

(* ===================================================================== *)
(** ** The execution tool: the paths of a trade that is submitted *)
(* ===================================================================== *)

Module SubmissionFacts.

Import Effects Execution ExecutionScenarios ExecutionFacts PrintingFacts.
Local Open Scope string_scope.
Local Open Scope list_scope.

Section Pipeline.

Context {num : Type} `{Number num}.
Variable Backend : Type.
Variable callTool : ToolCall -> Backend -> CallResult * Backend.

Local Abbreviation Run := (Run (num:=num) Backend).

Lemma execute_after_loop (tradeInput : TradeExecutionInput) (r rEnd : Run)
    (er : ExecutionResult) :
  securityAccepts tradeInput r ->
  walletCovers callTool tradeInput r ->
  dbFaults r = [] ->
  retryLoop callTool loopFuel tradeInput initialResult (atLoop callTool tradeInput r)
  = (Ok er, rEnd) ->
  dbFaults rEnd = [] ->
  execute callTool tradeInput r = closing tradeInput r er rEnd.
Proof.
  intros Hacc (Hwallet & Hbal & Hcover) Hdb Hloop HdbEnd.
  unfold securityAccepts in Hacc. unfold atLoop in Hloop. unfold closing.
  unfold execute, tryBlock, bind, validateM, gets, callToolM,
    recordTradeStartM, modify, repoCreate.
  run_state.
  destruct (validateTradeAmount (amount tradeInput) (today r) (securityContext r))
    as [v c] eqn:Hv.
  cbn [fst snd] in Hacc, Hloop. run_state. rewrite Hacc. run_state.
  rewrite Hwallet. run_state.
  destruct (callTool (get_balance usdc (showOpt (POLYMARKET_WALLET_ADDRESS r)))
              (backend r)) as [balanceResult b1] eqn:Hb.
  cbn [fst snd] in Hbal, Hcover, Hloop. run_state. rewrite Hbal. run_state.
  rewrite Hcover. run_state. rewrite Hdb. run_state.
  match goal with
  |- context [retryLoop callTool loopFuel tradeInput initialResult ?rc] =>
    match type of Hloop with
    | retryLoop _ _ _ _ ?rl = _ =>
        replace rc with rl
          by (apply Run_ext; run_state; repeat rewrite <- app_assoc; reflexivity)
    end
  end.
  rewrite Hloop. run_state.
  destruct (er_success er && truthy (er_transactionHash er)).
  - unfold recordTradeEndM, modify, ret. run_state.
    f_equal. apply Run_ext; run_state;
      first [reflexivity | exact HdbEnd | symmetry; exact HdbEnd].
  - unfold repoUpdateStatus. rewrite HdbEnd. run_state.
    unfold recordTradeEndM, modify, ret. run_state.
    f_equal; try (apply Run_ext; run_state; reflexivity).
Qed.

(** A pass that succeeds reports the retries counted so far. *)
Lemma attempt_ok_count (tradeInput : TradeExecutionInput) (r r' : Run)
    (er : ExecutionResult) :
  attempt callTool tradeInput r = (Ok er, r') ->
  er_retryCount er = Some (retryCount r) /\ er_error er = None.
Proof.
  unfold attempt, bind, callToolM.
  destruct (callTool _ (backend r)) as [approval b1].
  destruct (success approval); cbn [negb]; [|unfold throw; discriminate].
  match goal with |- context [callTool ?c ?b] =>
    destruct (callTool c b) as [tradeResult b2]
  end.
  destruct (success tradeResult); [|unfold throw; discriminate].
  unfold gets, ret. intro E. injection E as <- _. run_state. split; reflexivity.
Qed.

(** The passes and the delays of the retry loop, counted: a loop that ends
    in success after [n] failed passes made [n + 1] passes and [n] delays;
    a loop that gives up made every pass that was left and a delay after
    each but the last. *)
Lemma retryLoop_counts (tradeInput : TradeExecutionInput) :
  forall (fuel : nat) (er : ExecutionResult) (r : Run),
  er_success er = false ->
  (0 <= retryCount r <= maxRetries)%Z ->
  (Z.to_nat (maxRetries + 1 - retryCount r) <= fuel)%nat ->
  exists er' r' evs,
    retryLoop callTool fuel tradeInput er r = (Ok er', r') /\
    reaches r r' (retryCount r') evs /\
    ((er_success er' = true /\ er_retryCount er' = Some (retryCount r') /\
      er_error er' = None /\
      (retryCount r <= retryCount r' <= maxRetries)%Z /\
      Z.of_nat (occurrences isAttempt evs) = (retryCount r' - retryCount r + 1)%Z /\
      Z.of_nat (occurrences isDelay evs) = (retryCount r' - retryCount r)%Z)
     \/ ((exists e, er' = failedResult e (maxRetries + 1)) /\
         retryCount r' = (maxRetries + 1)%Z /\
         Z.of_nat (occurrences isAttempt evs) = (maxRetries + 1 - retryCount r)%Z /\
         Z.of_nat (occurrences isDelay evs) = (maxRetries - retryCount r)%Z)).
Proof.
  induction fuel as [|fuel IH]; intros er r Her Hk Hfuel.
  - unfold maxRetries in *. lia.
  - cbn [retryLoop]. unfold bind at 1. unfold gets at 1.
    replace (retryCount r <=? maxRetries)%Z with true
      by (symmetry; apply Z.leb_le; lia).
    rewrite Her. cbn [negb andb].
    destruct (attempt_advances callTool tradeInput r)
      as (res & r1 & evs & Hat & Hadv & Hf).
    rewrite Hat.
    assert (Hrc : retryCount r1 = retryCount r) by apply Hadv.
    pose proof (followUp_no_attempt Hf) as Hna.
    pose proof (followUp_no_delay Hf) as Hnd.
    destruct res as [er1|e].
    + destruct (attempt_ok callTool _ _ Hat) as [Hs _].
      destruct (attempt_ok_count _ _ Hat) as [Hcnt Herr].
      exists er1, r1, (ev_callTool
                         (approve_token_spending usdc (marketAddress tradeInput)
                            (amount tradeInput)) :: evs).
      split; [reflexivity|]. split; [rewrite Hrc; exact Hadv|].
      left. rewrite Hrc, occurrences_cons, occurrences_cons, Hna, Hnd.
      cbn [isAttempt isDelay]. repeat split; try assumption; try lia.
    + unfold bind. rewrite attemptFailed_spec, Hrc.
      destruct (retryCount r + 1 <=? maxRetries)%Z eqn:Hnext.
      * apply Z.leb_le in Hnext.
        pose proof (reaches_delay (retryCount r + 1) Hadv) as R1.
        set (r1' := emit _ (setRetryCount (retryCount r + 1) r1)) in *.
        assert (Hk1 : retryCount r1' = (retryCount r + 1)%Z) by reflexivity.
        destruct (IH er r1' Her) as (er' & r' & evs' & -> & R' & Hcases).
        { rewrite Hk1. lia. }
        { rewrite Hk1. unfold maxRetries in *. lia. }
        exists er', r', (((ev_callTool
                             (approve_token_spending usdc
                                (marketAddress tradeInput) (amount tradeInput))
                           :: evs) ++ [ev_delay retryDelayMs]) ++ evs').
        split; [reflexivity|]. split; [exact (reaches_trans R1 R')|].
        rewrite !occurrences_app, !occurrences_cons, Hna, Hnd.
        cbn [isAttempt isDelay occurrences filter List.length].
        rewrite Hk1 in Hcases.
        destruct Hcases as [(A1 & A2 & A3 & A4 & A5 & A6) | (A1 & A2 & A3 & A4)].
        -- left. repeat split; try assumption; lia.
        -- right. repeat split; try assumption; lia.
      * apply Z.leb_gt in Hnext.
        pose proof (reaches_bump (retryCount r + 1) Hadv) as R1.
        set (r1' := setRetryCount (retryCount r + 1) r1) in *.
        assert (Hk1 : retryCount r1' = (retryCount r + 1)%Z) by reflexivity.
        assert (Hfour : (retryCount r + 1 = maxRetries + 1)%Z) by lia.
        exists (failedResult e (retryCount r + 1)), r1',
          (ev_callTool (approve_token_spending usdc (marketAddress tradeInput)
                          (amount tradeInput)) :: evs).
        split.
        { destruct fuel as [|fuel']; [reflexivity|].
          cbn [retryLoop]. unfold bind at 1. unfold gets at 1.
          rewrite Hk1.
          replace (retryCount r + 1 <=? maxRetries)%Z with false
            by (symmetry; apply Z.leb_gt; lia).
          reflexivity. }
        split; [rewrite Hk1; exact R1|].
        right. rewrite Hk1, !occurrences_cons, Hna, Hnd.
        cbn [isAttempt isDelay].
        repeat split; try lia.
        exists e. rewrite Hfour. reflexivity.
Qed.

(** The new events of a run that went through the loop. *)
Lemma closing_events (tradeInput : TradeExecutionInput) (r rEnd : Run)
    (er : ExecutionResult) (n : Z) (evs : list Event) :
  reaches (atLoop callTool tradeInput r) rEnd n evs ->
  newEvents r (snd (closing tradeInput r er rEnd))
  = [ev_validate (amount tradeInput);
     ev_callTool (get_balance usdc (showOpt (POLYMARKET_WALLET_ADDRESS r)));
     ev_recordTradeStart (amount tradeInput);
     ev_create (freshId (rows r))] ++ evs
    ++ [if er_success er && truthy (er_transactionHash er)
        then ev_waitForConfirmation (showOpt (er_transactionHash er))
               (freshId (rows r))
        else ev_updateStatus (freshId (rows r)) FAILED;
        ev_recordTradeEnd].
Proof.
  intros (_ & _ & _ & _ & _ & _ & Ht).
  unfold newEvents, closing. cbn [snd trace].
  rewrite Ht. cbn [atLoop trace].
  repeat rewrite <- app_assoc. rewrite skipn_prefix. reflexivity.
Qed.

(** X13. The retries of a run that gets as far as the trade, counted against
    its report: [retry_count] lies between 0 and 4; a run that reports
    success after [n] retries made [n + 1] attempts and waited [n] times,
    with [n] at most 3; a run that reports failure made 4 attempts, waited 3
    times, reports [retry_count = 4] and an error. *)
Theorem retry_accounting (tradeInput : TradeExecutionInput) (r : Run) :
  securityAccepts tradeInput r ->
  walletCovers callTool tradeInput r ->
  dbFaults r = [] ->
  let out := fst (execute callTool tradeInput r) in
  let new := newEvents r (snd (execute callTool tradeInput r)) in
  let n := retry_count (execution_result out) in
  (0 <= n <= 4)%Z
  /\ (out_success (execution_result out) = true ->
        (n <= 3)%Z
        /\ Z.of_nat (occurrences isAttempt new) = (n + 1)%Z
        /\ Z.of_nat (occurrences isDelay new) = n
        /\ out_error (execution_result out) = None)
  /\ (out_success (execution_result out) = false ->
        n = 4%Z
        /\ occurrences isAttempt new = 4%nat
        /\ occurrences isDelay new = 3%nat
        /\ out_error (execution_result out) <> None
        /\ monitoring_active out = false).
Proof.
  intros Hacc Hcov Hdb. cbv zeta.
  destruct (@retryLoop_counts tradeInput loopFuel initialResult
              (atLoop callTool tradeInput r) eq_refl)
    as (er' & rEnd & evs & Hloop & R & Hcases).
  { cbn [atLoop retryCount]. unfold maxRetries. lia. }
  { cbn [atLoop retryCount]. unfold loopFuel, maxRetries. simpl. lia. }
  assert (HdbEnd : dbFaults rEnd = [])
    by (rewrite (proj1 (proj2 (proj2 R))); reflexivity).
  rewrite (execute_after_loop Hacc Hcov Hdb Hloop HdbEnd).
  rewrite (closing_events er' R).
  unfold closing. cbn [fst execution_result retry_count out_success out_error
                       monitoring_active].
  rewrite !occurrences_app, !occurrences_cons.
  cbn [isAttempt isDelay occurrences filter List.length].
  replace (isAttempt (if er_success er' && truthy (er_transactionHash er')
                      then ev_waitForConfirmation
                             (showOpt (er_transactionHash er')) (freshId (rows r))
                      else ev_updateStatus (freshId (rows r)) FAILED))
    with false by (destruct (_ && _); reflexivity).
  replace (isDelay (if er_success er' && truthy (er_transactionHash er')
                    then ev_waitForConfirmation
                           (showOpt (er_transactionHash er')) (freshId (rows r))
                    else ev_updateStatus (freshId (rows r)) FAILED))
    with false by (destruct (_ && _); reflexivity).
  cbn [atLoop retryCount] in Hcases. unfold maxRetries in Hcases.
  destruct Hcases as [(A1 & A2 & A3 & A4 & A5 & A6) | ((e & ->) & A2 & A3 & A4)].
  - rewrite A1. split; [lia|]. split; [|discriminate].
    intros _. repeat split; try assumption; lia.
  - cbn [failedResult er_success er_error andb]. rewrite A2.
    split; [lia|]. split; [discriminate|].
    intros _. repeat split; try lia. discriminate.
Qed.

(** The loop when the first pass goes through. *)
Lemma first_pass (tradeInput : TradeExecutionInput) (r : Run)
    (approval trade : CallResult) (b2 b3 : Backend) :
  retryCount r = 0%Z ->
  callTool (approve_token_spending usdc (marketAddress tradeInput)
              (amount tradeInput)) (backend r) = (approval, b2) ->
  success approval = true ->
  callTool (write_contract (marketAddress tradeInput) "buy"
              (outcomeIndexOf tradeInput) (amount tradeInput)
              (minSharesOf tradeInput)) b2 = (trade, b3) ->
  success trade = true ->
  exists er rEnd,
    retryLoop callTool loopFuel tradeInput initialResult r = (Ok er, rEnd)
    /\ reaches r rEnd 0
         [ev_callTool (approve_token_spending usdc (marketAddress tradeInput)
                         (amount tradeInput));
          ev_callTool (write_contract (marketAddress tradeInput) "buy"
                         (outcomeIndexOf tradeInput) (amount tradeInput)
                         (minSharesOf tradeInput))]
    /\ backend rEnd = b3
    /\ er_success er = true
    /\ er_transactionHash er = payloadField transactionHash trade
    /\ executedAmount er = Some (amount tradeInput)
    /\ er_executionPrice er = payloadField executionPrice trade
    /\ er_gasUsed er = payloadField gasUsed trade
    /\ er_error er = None.
Proof.
  intros H0 Happ Hsa Htr Hst.
  change loopFuel with 4%nat. cbn [retryLoop].
  unfold bind at 1. unfold gets at 1. rewrite H0.
  cbn [Z.leb Z.compare maxRetries initialResult er_success negb andb].
  unfold attempt, bind, callToolM. rewrite Happ. run_state.
  rewrite Hsa. cbn [negb].
  unfold minSharesOf in Htr. run_state. rewrite Htr. run_state. rewrite Hst.
  unfold gets, ret. do 2 eexists. split; [reflexivity|].
  cbn [er_success er_transactionHash executedAmount er_executionPrice
       er_gasUsed er_error].
  unfold reaches. run_state. rewrite <- app_assoc.
  repeat split; try reflexivity; assumption.
Qed.

(** X14. A trade that goes through at the first attempt: one approval and one
    trade call, no delay, [retry_count] 0; the hash the backend answered is
    reported and watched for confirmations, and the record the run created
    is left PENDING (the watch sets the final status). *)
Theorem first_attempt_success (tradeInput : TradeExecutionInput) (r : Run)
    (approval trade : CallResult) (b2 b3 : Backend) :
  securityAccepts tradeInput r ->
  walletCovers callTool tradeInput r ->
  dbFaults r = [] ->
  let wallet := showOpt (POLYMARKET_WALLET_ADDRESS r) in
  let approve := approve_token_spending usdc (marketAddress tradeInput)
                   (amount tradeInput) in
  let buy := write_contract (marketAddress tradeInput) "buy"
               (outcomeIndexOf tradeInput) (amount tradeInput)
               (minSharesOf tradeInput) in
  callTool approve (snd (callTool (get_balance usdc wallet) (backend r)))
  = (approval, b2) ->
  success approval = true ->
  callTool buy b2 = (trade, b3) ->
  success trade = true ->
  truthy (payloadField transactionHash trade) = true ->
  let out := fst (execute callTool tradeInput r) in
  let r' := snd (execute callTool tradeInput r) in
  let savedId := freshId (rows r) in
  newEvents r r'
  = [ev_validate (amount tradeInput);
     ev_callTool (get_balance usdc wallet);
     ev_recordTradeStart (amount tradeInput);
     ev_create savedId;
     ev_callTool approve;
     ev_callTool buy;
     ev_waitForConfirmation (showOpt (payloadField transactionHash trade)) savedId;
     ev_recordTradeEnd]
  /\ out_success (execution_result out) = true
  /\ transaction_hash (execution_result out) = payloadField transactionHash trade
  /\ executed_amount (execution_result out) = Some (amount tradeInput)
  /\ out_error (execution_result out) = None
  /\ retry_count (execution_result out) = 0%Z
  /\ database_recorded out = true
  /\ monitoring_active out = true
  /\ backend r' = b3
  /\ exists row, rows r' = rows r ++ [row] /\ id row = savedId
                 /\ status row = PENDING
                 /\ plannedAmount row = amount tradeInput.
Proof.
  intros Hacc Hcov Hdb. cbv zeta. intros Happ Hsa Htr Hst Hhash.
  destruct (@first_pass tradeInput (atLoop callTool tradeInput r)
              approval trade b2 b3 eq_refl Happ Hsa Htr Hst)
    as (er & rEnd & Hloop & R & Hb & E1 & E2 & E3 & E4 & E5 & E6).
  assert (HdbEnd : dbFaults rEnd = [])
    by (rewrite (proj1 (proj2 (proj2 R))); reflexivity).
  rewrite (execute_after_loop Hacc Hcov Hdb Hloop HdbEnd).
  rewrite (closing_events er R).
  unfold closing. cbn [fst snd execution_result retry_count out_success
                       out_error monitoring_active transaction_hash
                       executed_amount database_recorded backend rows].
  rewrite E1, E2, E3, E6, Hhash, Hb. cbn [andb].
  destruct R as (_ & Hrows & _ & _ & _ & Hrc & _).
  rewrite Hrc, Hrows. cbn [atLoop rows].
  repeat split. eexists. split; [reflexivity|]. repeat split.
Qed.

(** X15. A trade the backend reports as done without a transaction hash is
    returned as a success, yet its record is set to FAILED and nothing
    watches it. *)
Theorem success_without_hash (tradeInput : TradeExecutionInput) (r : Run)
    (approval trade : CallResult) (b2 b3 : Backend) :
  securityAccepts tradeInput r ->
  walletCovers callTool tradeInput r ->
  dbFaults r = [] ->
  let wallet := showOpt (POLYMARKET_WALLET_ADDRESS r) in
  let approve := approve_token_spending usdc (marketAddress tradeInput)
                   (amount tradeInput) in
  let buy := write_contract (marketAddress tradeInput) "buy"
               (outcomeIndexOf tradeInput) (amount tradeInput)
               (minSharesOf tradeInput) in
  callTool approve (snd (callTool (get_balance usdc wallet) (backend r)))
  = (approval, b2) ->
  success approval = true ->
  callTool buy b2 = (trade, b3) ->
  success trade = true ->
  truthy (payloadField transactionHash trade) = false ->
  let out := fst (execute callTool tradeInput r) in
  let r' := snd (execute callTool tradeInput r) in
  let savedId := freshId (rows r) in
  newEvents r r'
  = [ev_validate (amount tradeInput);
     ev_callTool (get_balance usdc wallet);
     ev_recordTradeStart (amount tradeInput);
     ev_create savedId;
     ev_callTool approve;
     ev_callTool buy;
     ev_updateStatus savedId FAILED;
     ev_recordTradeEnd]
  /\ out_success (execution_result out) = true
  /\ out_error (execution_result out) = None
  /\ executed_amount (execution_result out) = Some (amount tradeInput)
  /\ retry_count (execution_result out) = 0%Z
  /\ monitoring_active out = false
  /\ (exists row, In row (rows r') /\ id row = savedId)
  /\ (forall row, In row (rows r') -> id row = savedId -> status row = FAILED).
Proof.
  intros Hacc Hcov Hdb. cbv zeta. intros Happ Hsa Htr Hst Hhash.
  destruct (@first_pass tradeInput (atLoop callTool tradeInput r)
              approval trade b2 b3 eq_refl Happ Hsa Htr Hst)
    as (er & rEnd & Hloop & R & Hb & E1 & E2 & E3 & E4 & E5 & E6).
  assert (HdbEnd : dbFaults rEnd = [])
    by (rewrite (proj1 (proj2 (proj2 R))); reflexivity).
  rewrite (execute_after_loop Hacc Hcov Hdb Hloop HdbEnd).
  rewrite (closing_events er R).
  unfold closing. cbn [fst snd execution_result retry_count out_success
                       out_error monitoring_active transaction_hash
                       executed_amount database_recorded backend rows].
  rewrite E1, E2, E3, E6, Hhash. cbn [andb].
  destruct R as (_ & Hrows & _ & _ & _ & Hrc & _).
  rewrite Hrc, Hrows. cbn [atLoop rows].
  repeat split.
  - eexists. split.
    + rewrite map_app. apply in_or_app. right. cbn [map]. left. reflexivity.
    + cbn [id]. rewrite String.eqb_refl. reflexivity.
  - intros row Hin Hid. eapply updated_rows; eassumption.
Qed.

End Pipeline.

(** *** The outcome index *)

Lemma findIndex_found (target : string) (xs : list string) :
  forall i : Z,
  In target xs ->
  (i <= findIndex target xs i)%Z
  /\ nth_error xs (Z.to_nat (findIndex target xs i - i)) = Some target.
Proof.
  induction xs as [|x xs IH]; intros i Hin; [contradiction|].
  cbn [findIndex]. destruct (String.eqb x target) eqn:E.
  - apply String.eqb_eq in E. subst x. rewrite Z.sub_diag. split; [lia|reflexivity].
  - destruct Hin as [-> | Hin]; [rewrite String.eqb_refl in E; discriminate|].
    destruct (IH (i + 1)%Z Hin) as [Hle Hnth]. split; [lia|].
    replace (Z.to_nat (findIndex target xs (i + 1) - i))
      with (S (Z.to_nat (findIndex target xs (i + 1) - (i + 1)))) by lia.
    exact Hnth.
Qed.

Lemma findIndex_missing (target : string) (xs : list string) :
  forall i : Z, ~ In target xs -> findIndex target xs i = (-1)%Z.
Proof.
  induction xs as [|x xs IH]; intros i Hno; [reflexivity|].
  cbn [findIndex]. destruct (String.eqb x target) eqn:E.
  - apply String.eqb_eq in E. subst x. exfalso. apply Hno. left. reflexivity.
  - apply IH. intro Hin. apply Hno. right. exact Hin.
Qed.

Section AnyNumber.

Context {num : Type} `{Number num}.

(** X16. The index sent to the contract is never negative.  When the outcomes
    of the market are given and the outcome is one of them, the index is
    its place in the list; when it is not listed, the index is 1 for "yes"
    or "true" in any case of letters and 0 otherwise; when the outcomes are
    not given (or empty), it is 1 for "yes" and 0 otherwise. *)
Theorem outcome_index (tradeInput : TradeExecutionInput (num:=num)) :
  (0 <= outcomeIndexOf tradeInput)%Z
  /\ (forall outcomes,
        availableOutcomes tradeInput = Some outcomes ->
        In (outcome tradeInput) outcomes ->
        nth_error outcomes (Z.to_nat (outcomeIndexOf tradeInput))
        = Some (outcome tradeInput))
  /\ (forall outcomes,
        availableOutcomes tradeInput = Some outcomes ->
        outcomes <> [] ->
        ~ In (outcome tradeInput) outcomes ->
        outcomeIndexOf tradeInput
        = if String.eqb (toLowerCase (outcome tradeInput)) "yes"
             || String.eqb (toLowerCase (outcome tradeInput)) "true"
          then 1%Z else 0%Z)
  /\ (availableOutcomes tradeInput = None
      \/ availableOutcomes tradeInput = Some [] ->
      outcomeIndexOf tradeInput
      = if String.eqb (toLowerCase (outcome tradeInput)) "yes"
        then 1%Z else 0%Z).
Proof.
  unfold outcomeIndexOf.
  destruct (availableOutcomes tradeInput) as [[|o os]|] eqn:Hav.
  - split; [destruct (String.eqb _ _); lia|].
    split; [intros outcomes E; injection E as <-; contradiction|].
    split; [intros outcomes E Hne; injection E as <-; contradiction|].
    reflexivity.
  - set (xs := o :: os) in *.
    destruct (in_dec string_dec (outcome tradeInput) xs) as [Hin | Hno].
    + destruct (@findIndex_found _ _ 0%Z Hin) as [Hle Hnth].
      rewrite Z.sub_0_r in Hnth.
      replace (findIndex (outcome tradeInput) xs 0 =? -1)%Z with false
        by (symmetry; apply Z.eqb_neq; lia).
      split; [exact Hle|].
      split; [intros outcomes E _; injection E as <-; exact Hnth|].
      split; [intros outcomes E _ Hno; injection E as <-; contradiction|].
      intros [E | E]; discriminate.
    + rewrite (@findIndex_missing _ _ 0%Z Hno). cbn [Z.eqb Pos.eqb].
      split; [destruct (_ || _); lia|].
      split; [intros outcomes E Hin; injection E as <-; contradiction|].
      split; [reflexivity|].
      intros [E | E]; discriminate.
  - split; [destruct (String.eqb _ _); lia|].
    split; [discriminate|]. split; [discriminate|]. reflexivity.
Qed.

End AnyNumber.

(** *** A short balance *)

(** The tool's own message for a short balance holds neither of the two
    words the [catch] block looks for. *)
Lemma short_balance_message (t : string) :
  lacks "i" t -> lacks "u" t ->
  includes ("Insufficient USDC balance: " ++ t)%string "insufficient"
  || includes ("Insufficient USDC balance: " ++ t)%string "unauthorized" = false.
Proof.
  intros Hi Hu. cbn.
  rewrite (@lacks_includes _ _ _ Hi), (@lacks_includes _ _ _ Hu). reflexivity.
Qed.

Section Balance.

Variable Backend : Type.
Variable callTool : ToolCall -> Backend -> CallResult * Backend.

(** X17. A wallet that holds less than the amount: the run ends after the
    balance call with the error "Insufficient USDC balance: ...", nothing
    is submitted and no record is written; the [catch] block looks for
    "insufficient" in lower case, so this error does not set the emergency
    stop. *)
Theorem short_balance_no_stop (tradeInput : TradeExecutionInput)
    (r : Run (num:=Q) Backend) :
  securityAccepts tradeInput r ->
  truthy (POLYMARKET_WALLET_ADDRESS r) = true ->
  let wallet := showOpt (POLYMARKET_WALLET_ADDRESS r) in
  let balanceResult := fst (callTool (get_balance usdc wallet) (backend r)) in
  let availableBalance :=
    parseFloat (num:=Q) (orElse (payloadField balance balanceResult) "0") in
  let requiredAmount := parseFloat (num:=Q) (amount tradeInput) in
  success balanceResult = true ->
  nan_lt availableBalance requiredAmount = true ->
  let out := fst (execute callTool tradeInput r) in
  let r' := snd (execute callTool tradeInput r) in
  newEvents r r'
  = [ev_validate (amount tradeInput); ev_callTool (get_balance usdc wallet);
     ev_recordTradeEnd]
  /\ out_success (execution_result out) = false
  /\ out_error (execution_result out)
     = Some ("Insufficient USDC balance: " ++ nan_toString availableBalance
             ++ " < " ++ nan_toString requiredAmount)%string
  /\ emergencyStopActive (securityContext r') = false
  /\ rows r' = rows r.
Proof.
  intros Hacc Hwallet. cbv zeta. intros Hbal Hshort.
  unfold securityAccepts in Hacc.
  destruct (LedgerFacts.accepted_caps _ _ _ Hacc) as (He & _).
  pose proof (LedgerFacts.validate_context (amount tradeInput) (today r)
                (securityContext r)) as Hc. rewrite He in Hc.
  assert (Hstop : emergencyStopActive (dayRollover (today r) (securityContext r))
                  = false).
  { unfold dayRollover. destruct (negb _); exact He. }
  unfold execute, tryBlock, bind, validateM, gets, callToolM.
  run_state.
  destruct (validateTradeAmount (amount tradeInput) (today r) (securityContext r))
    as [v c].
  cbn [fst snd] in Hacc, Hc. subst c. run_state. rewrite Hacc. run_state.
  rewrite Hwallet. run_state.
  destruct (callTool (get_balance usdc (showOpt (POLYMARKET_WALLET_ADDRESS r)))
              (backend r)) as [balanceResult b1].
  cbn [fst snd] in Hbal, Hshort. run_state. rewrite Hbal. run_state.
  rewrite Hshort. unfold throw, catchBlock.
  destruct (parseFloat (orElse (payloadField balance balanceResult) "0"))
    as [x|]; [|discriminate].
  destruct (parseFloat (amount tradeInput)) as [y|]; [|discriminate].
  cbn [nan_toString toString QNumber].
  rewrite short_balance_message.
  - unfold newEvents. run_state.
    repeat rewrite <- app_assoc. rewrite skipn_prefix.
    cbn [recordTradeEnd emergencyStopActive]. rewrite Hstop.
    repeat split.
  - apply lacks_append; [apply Q_toString_lacks; unfold letter; cbn; lia|].
    cbn [append lacks]. repeat split; try discriminate.
    apply Q_toString_lacks. unfold letter. cbn. lia.
  - apply lacks_append; [apply Q_toString_lacks; unfold letter; cbn; lia|].
    cbn [append lacks]. repeat split; try discriminate.
    apply Q_toString_lacks. unfold letter. cbn. lia.
Qed.

End Balance.

(** *** Instances *)

Lemma retry_accounting_witness :
  let out := fst (execute (num:=Q) (flakyBackend 6) trade50 readyRun) in
  let new := newEvents readyRun
               (snd (execute (num:=Q) (flakyBackend 6) trade50 readyRun)) in
  securityAccepts (num:=Q) trade50 readyRun
  /\ walletCovers (flakyBackend 6) trade50 readyRun
  /\ out_success (execution_result out) = true
  /\ retry_count (execution_result out) = 2%Z
  /\ Z.of_nat (occurrences isAttempt new) = 3%Z
  /\ Z.of_nat (occurrences isDelay new) = 2%Z.
Proof.
  assert (Hacc : securityAccepts (num:=Q) trade50 readyRun)
    by (vm_compute; reflexivity).
  assert (Hcov : walletCovers (num:=Q) (flakyBackend 6) trade50 readyRun)
    by (vm_compute; repeat split).
  assert (Hs : out_success (execution_result
                 (fst (execute (num:=Q) (flakyBackend 6) trade50 readyRun)))
               = true) by (vm_compute; reflexivity).
  assert (Hn : retry_count (execution_result
                 (fst (execute (num:=Q) (flakyBackend 6) trade50 readyRun)))
               = 2%Z) by (vm_compute; reflexivity).
  destruct (retry_accounting Hacc Hcov eq_refl)
    as (_ & Hok & _).
  destruct (Hok Hs) as (_ & Ha & Hd & _).
  rewrite Hn in Ha, Hd.
  repeat split; assumption.
Defined.

Lemma first_attempt_success_witness :
  let out := fst (execute (num:=Q) (flakyBackend 0) trade50 readyRun) in
  securityAccepts (num:=Q) trade50 readyRun
  /\ walletCovers (flakyBackend 0) trade50 readyRun
  /\ out_success (execution_result out) = true
  /\ retry_count (execution_result out) = 0%Z
  /\ monitoring_active out = true.
Proof.
  assert (Hacc : securityAccepts (num:=Q) trade50 readyRun)
    by (vm_compute; reflexivity).
  assert (Hcov : walletCovers (num:=Q) (flakyBackend 0) trade50 readyRun)
    by (vm_compute; repeat split).
  split; [exact Hacc|]. split; [exact Hcov|].
  pose proof (@first_attempt_success Q _ nat (flakyBackend 0) trade50 readyRun
                {| success := true; result := Some noPayload; error := None |}
                {| success := true; result := Some settledPayload; error := None |}
                2%nat 3%nat Hacc Hcov eq_refl eq_refl eq_refl eq_refl eq_refl
                eq_refl) as Hrun.
  cbv zeta in Hrun. repeat split; apply Hrun.
Defined.

Lemma success_without_hash_witness :
  let out := fst (execute (num:=Q) hashlessBackend trade50 readyRun) in
  let r' := snd (execute (num:=Q) hashlessBackend trade50 readyRun) in
  securityAccepts (num:=Q) trade50 readyRun
  /\ walletCovers hashlessBackend trade50 readyRun
  /\ out_success (execution_result out) = true
  /\ monitoring_active out = false
  /\ (forall row, In row (rows r') -> id row = "trade-0" -> status row = FAILED).
Proof.
  assert (Hacc : securityAccepts (num:=Q) trade50 readyRun)
    by (vm_compute; reflexivity).
  assert (Hcov : walletCovers (num:=Q) hashlessBackend trade50 readyRun)
    by (vm_compute; repeat split).
  split; [exact Hacc|]. split; [exact Hcov|].
  pose proof (@success_without_hash Q _ nat hashlessBackend trade50 readyRun
                {| success := true; result := Some noPayload; error := None |}
                {| success := true; result := Some noPayload; error := None |}
                2%nat 3%nat Hacc Hcov eq_refl eq_refl eq_refl eq_refl eq_refl
                eq_refl) as Hrun.
  cbv zeta in Hrun. repeat split; apply Hrun.
Defined.

Lemma short_balance_no_stop_witness :
  let out := fst (execute (num:=Q) shortBackend trade50 readyRun) in
  let r' := snd (execute (num:=Q) shortBackend trade50 readyRun) in
  securityAccepts (num:=Q) trade50 readyRun
  /\ out_error (execution_result out)
     = Some "Insufficient USDC balance: 20 < 50"
  /\ emergencyStopActive (securityContext r') = false.
Proof.
  assert (Hacc : securityAccepts (num:=Q) trade50 readyRun)
    by (vm_compute; reflexivity).
  split; [exact Hacc|].
  pose proof (@short_balance_no_stop nat shortBackend trade50 readyRun
                Hacc eq_refl eq_refl eq_refl) as Hrun.
  cbv zeta in Hrun. split; apply Hrun.
Defined.

End SubmissionFacts.

(* ===================================================================== *)
(** ** The transaction monitor *)
(* ===================================================================== *)

Module MonitorFacts.

Import Effects Execution ExecutionScenarios ExecutionFacts.
Local Open Scope string_scope.
Local Open Scope list_scope.
Local Open Scope Z_scope.

Section Watch.

Context {num : Type} `{Number num}.
Variable Backend : Type.
Variable callTool : ToolCall -> Backend -> CallResult * Backend.
Variable clock : Backend -> Z.
Variable elapse : Z -> Backend -> Backend.

(** Time does not run backwards during a call, and a timer of [ms]
    milliseconds takes at least that long. *)
Hypothesis call_takes_time :
  forall call b, clock b <= clock (snd (callTool call b)).
Hypothesis timer_takes_time :
  forall ms b, clock b + ms <= clock (elapse ms b).

Local Abbreviation Run := (Run (num:=num) Backend).

(** The loop of [waitForConfirmation], with fuel for the time that is
    left. *)
Lemma waitLoop_spec (txHash : string) (required timeoutMs startTime : Z) :
  forall (fuel : nat) (r : Run),
  timeoutMs - (clock (backend r) - startTime) < 10000 * Z.of_nat fuel ->
  exists c r' evs,
    waitLoop callTool clock elapse fuel txHash required timeoutMs startTime r
    = (Ok c, r')
    /\ trace r' = trace r ++ evs
    /\ Forall (fun e => isPoll e || isDelay e = true) evs
    /\ securityContext r' = securityContext r
    /\ rows r' = rows r /\ dbFaults r' = dbFaults r
    /\ clock (backend r) <= clock (backend r')
    /\ 10000 * Z.of_nat (occurrences isPoll evs)
       < Z.max 0 (timeoutMs - (clock (backend r) - startTime)) + 10000
    /\ ((confirmed c = true
         /\ exists n, cf_confirmations c = Some n /\ required <= n
                      /\ answered callTool txHash n)
        \/ (c = timedOut
            /\ timeoutMs <= clock (backend r') - startTime)
        \/ (confirmed c = false
            /\ exists res b, res = fst (callTool (get_transaction txHash) b)
                 /\ (success res = false \/ result res = None)
                 /\ cf_error c
                    = Some (orElse (error res) "Transaction status check failed"))).
Proof.
  induction fuel as [|fuel IH]; intros r Hfuel.
  - exists timedOut, r, []. cbn [waitLoop]. unfold ret.
    rewrite app_nil_r.
    repeat (split; [first [reflexivity | lia | cbn; lia | repeat constructor]|]).
    right. left. split; [reflexivity | lia].
  - cbn [waitLoop]. unfold bind at 1. unfold gets at 1.
    destruct (Z.ltb_spec (clock (backend r) - startTime) timeoutMs) as [Hin | Hout].
    2:{ exists timedOut, r, []. unfold ret. rewrite app_nil_r.
        repeat (split; [first [reflexivity | lia | cbn; lia | repeat constructor]|]).
        right. left. split; [reflexivity | lia]. }
    unfold bind at 1. unfold callToolM.
    pose proof (call_takes_time (get_transaction txHash) (backend r)) as Hc.
    destruct (callTool (get_transaction txHash) (backend r)) as [res b1] eqn:Hcall.
    cbn [snd] in Hc.
    assert (Hres : res = fst (callTool (get_transaction txHash) (backend r)))
      by (rewrite Hcall; reflexivity).
    set (r1 := setBackend b1 (emit (ev_callTool (get_transaction txHash)) r)).
    destruct (success res) eqn:Hs.
    2:{ exists {| confirmed := false; cf_confirmations := None;
                 cf_error := Some (orElse (error res)
                                     "Transaction status check failed") |},
          r1, [ev_callTool (get_transaction txHash)].
        unfold ret. subst r1. run_state.
        repeat (split; [first [reflexivity | lia | cbn; lia | repeat constructor]|]).
        right. right. split; [reflexivity|].
        exists res, (backend r). repeat split; [exact Hres | left; exact Hs]. }
    destruct (result res) as [payload|] eqn:Hp.
    2:{ exists {| confirmed := false; cf_confirmations := None;
                 cf_error := Some (orElse (error res)
                                     "Transaction status check failed") |},
          r1, [ev_callTool (get_transaction txHash)].
        unfold ret. subst r1. run_state.
        repeat (split; [first [reflexivity | lia | cbn; lia | repeat constructor]|]).
        right. right. split; [reflexivity|].
        exists res, (backend r). repeat split; [exact Hres | right; exact Hp]. }
    destruct (orZero (confirmations payload) >=? required) eqn:Hn.
    + exists {| confirmed := true;
               cf_confirmations := Some (orZero (confirmations payload));
               cf_error := None |},
        r1, [ev_callTool (get_transaction txHash)].
      unfold ret. subst r1. run_state.
      repeat (split; [first [reflexivity | lia | cbn; lia | repeat constructor]|]).
      left. split; [reflexivity|].
        exists (orZero (confirmations payload)).
        split; [reflexivity|]. split; [rewrite Z.geb_leb in Hn; lia|].
        exists (backend r), payload. rewrite <- Hres. repeat split; assumption.
    + unfold bind at 1. unfold sleep, modify.
      set (r2 := setBackend (elapse 10000 (backend r1)) (emit (ev_delay 10000) r1)).
      pose proof (timer_takes_time 10000 (backend r1)) as Ht.
      assert (Hb1 : backend r1 = b1) by reflexivity.
      assert (Hb2 : backend r2 = elapse 10000 b1) by reflexivity.
      rewrite Hb1 in Ht.
      destruct (IH r2)
        as (c & r' & evs & -> & T & F & S1 & S2 & S3 & Hclk & Hpolls & Hcases).
      { rewrite Hb2. lia. }
      rewrite Hb2 in Hclk, Hpolls.
      exists c, r', ([ev_callTool (get_transaction txHash); ev_delay 10000] ++ evs).
      split; [reflexivity|].
      split; [rewrite T; subst r2 r1; run_state;
              repeat rewrite <- app_assoc; reflexivity|].
      split; [repeat constructor; exact F|].
      split; [rewrite S1; reflexivity|].
      split; [rewrite S2; reflexivity|].
      split; [rewrite S3; reflexivity|].
      split; [lia|].
      split.
      * rewrite occurrences_app, !occurrences_cons.
        cbn [isPoll occurrences filter List.length]. lia.
      * exact Hcases.
Qed.

(** The polls and the waits are no submissions and no ledger calls. *)
Lemma watch_events_quiet (evs : list Event) :
  Forall (fun e => isPoll e || isDelay e = true) evs ->
  occurrences isAttempt evs = 0%nat
  /\ occurrences isRecordStart evs = 0%nat
  /\ occurrences isRecordEnd evs = 0%nat.
Proof.
  induction 1 as [|e evs He _ (I1 & I2 & I3)]; [repeat split|].
  rewrite !occurrences_cons, I1, I2, I3.
  destruct e as [| | | |[]| | | |]; try discriminate He; repeat split.
Qed.

(** [waitForConfirmation] with its defaults. *)
Lemma wait_spec (txHash : string) (r : Run) :
  exists c r' evs,
    waitForConfirmation callTool clock elapse txHash r = (Ok c, r')
    /\ trace r' = trace r ++ evs
    /\ Forall (fun e => isPoll e || isDelay e = true) evs
    /\ securityContext r' = securityContext r
    /\ rows r' = rows r /\ dbFaults r' = dbFaults r
    /\ (occurrences isPoll evs <= 30)%nat
    /\ ((confirmed c = true
         /\ exists n, cf_confirmations c = Some n /\ confirmationBlocks <= n
                      /\ answered callTool txHash n)
        \/ (c = timedOut
            /\ transactionTimeoutMs <= clock (backend r') - clock (backend r))
        \/ (confirmed c = false
            /\ exists res b, res = fst (callTool (get_transaction txHash) b)
                 /\ (success res = false \/ result res = None)
                 /\ cf_error c
                    = Some (orElse (error res) "Transaction status check failed"))).
Proof.
  unfold waitForConfirmation, bind, gets.
  replace (pollFuel transactionTimeoutMs) with 32%nat
    by (vm_compute; reflexivity).
  destruct (@waitLoop_spec txHash confirmationBlocks transactionTimeoutMs
              (clock (backend r)) 32%nat r)
    as (c & r' & evs & Hrun & T & F & S1 & S2 & S3 & _ & Hpolls & Hcases).
  { unfold transactionTimeoutMs. lia. }
  exists c, r', evs. repeat (split; [assumption|]).
  split; [|exact Hcases].
  unfold transactionTimeoutMs in Hpolls. lia.
Qed.

(** X18. Waiting for a confirmation ends after at most 30 polls, ten seconds
    apart, with one of three answers: confirmed, a poll having answered at
    least 2 confirmations; the timeout, five minutes or more after the
    start; or the failure of a status check, which ends the wait at once.
    The wait submits nothing and leaves the ledger and the records alone. *)
Theorem confirmation_wait_ends (txHash : string) (r : Run) :
  exists c r',
    waitForConfirmation callTool clock elapse txHash r = (Ok c, r')
    /\ (occurrences isPoll (newEvents r r') <= 30)%nat
    /\ occurrences isAttempt (newEvents r r') = 0%nat
    /\ securityContext r' = securityContext r
    /\ rows r' = rows r
    /\ ((confirmed c = true
         /\ exists n, cf_confirmations c = Some n /\ 2 <= n
                      /\ answered callTool txHash n)
        \/ (confirmed c = false
            /\ cf_error c = Some "Transaction confirmation timeout"
            /\ 300000 <= clock (backend r') - clock (backend r))
        \/ (confirmed c = false
            /\ exists res b, res = fst (callTool (get_transaction txHash) b)
                 /\ (success res = false \/ result res = None)
                 /\ cf_error c
                    = Some (orElse (error res) "Transaction status check failed"))).
Proof.
  destruct (wait_spec txHash r)
    as (c & r' & evs & Hrun & T & F & S1 & S2 & _ & Hpolls & Hcases).
  exists c, r'. split; [exact Hrun|].
  unfold newEvents. rewrite T, skipn_prefix.
  split; [exact Hpolls|].
  split; [apply (watch_events_quiet F)|].
  split; [exact S1|]. split; [exact S2|].
  unfold confirmationBlocks, transactionTimeoutMs in Hcases.
  destruct Hcases as [Hc | [[-> Ht] | Hc]].
  - left. exact Hc.
  - right. left. repeat split. exact Ht.
  - right. right. exact Hc.
Qed.

(** X19. The watch over a submitted trade, the database answering, the clock
    not running backwards during a call and timers taking at least their
    delay: it ends, and the record of the trade is then EXECUTED, with the
    hash, the amount and the price of the submission, only if a poll
    answered at least 2 confirmations, and FAILED otherwise (timeout or
    failed status check); it is never left PENDING.  The watch makes no
    ledger call. *)
Theorem watch_settles_record (savedId : string) (er : ExecutionResult) (r : Run) :
  dbFaults r = [] ->
  exists r',
    confirmationWatch callTool clock elapse savedId er r = (Ok tt, r')
    /\ securityContext r' = securityContext r
    /\ List.length (rows r') = List.length (rows r)
    /\ (forall row, In row (rows r') -> id row = savedId ->
          (status row = EXECUTED
           /\ td_transactionHash row = er_transactionHash er
           /\ actualAmount row = executedAmount er
           /\ td_executionPrice row = er_executionPrice er
           /\ exists n, 2 <= n
                /\ answered callTool (showOpt (er_transactionHash er)) n)
          \/ status row = FAILED)
    /\ (forall row, In row (rows r') -> id row <> savedId -> In row (rows r)).
Proof.
  intro Hdb. unfold confirmationWatch, tryCatch, bind.
  destruct (wait_spec (showOpt (er_transactionHash er)) r)
    as (c & r1 & evs & -> & T & F & S1 & S2 & S3 & _ & Hcases).
  rewrite Hdb in S3.
  assert (Hrows : forall f : TradeDecision -> TradeDecision,
            (forall row, id (f row) = id row) ->
            forall row,
              In row (map (fun x => if (id x =? savedId)%string then f x else x)
                        (rows r)) ->
              (id row = savedId -> exists x, In x (rows r) /\ row = f x)
              /\ (id row <> savedId -> In row (rows r))).
  { intros f Hf row Hin. apply in_map_iff in Hin.
    destruct Hin as (x & Hx & Hin).
    destruct (id x =? savedId)%string eqn:E.
    - apply String.eqb_eq in E. subst row. split.
      + intros _. exists x. split; [exact Hin | reflexivity].
      + intro Hne. rewrite Hf in Hne. contradiction.
    - apply String.eqb_neq in E. subst row. split.
      + intro Heq. contradiction.
      + intros _. exact Hin. }
  destruct (confirmed c) eqn:Hconf.
  - unfold repoUpdateExecuted. rewrite S3. run_state.
    eexists. split; [reflexivity|]. run_state.
    split; [exact S1|]. rewrite S2.
    split; [apply length_map|].
    split.
    + intros row Hin Hid.
      destruct (Hrows (withExecution er) (fun _ => eq_refl) row Hin) as [Hsame _].
      destruct (Hsame Hid) as (x & _ & ->).
      left. cbn [withExecution status td_transactionHash actualAmount
                 td_executionPrice].
      repeat split.
      destruct Hcases as [(_ & n & _ & Hn & Hans) | [[-> _] | [Hf _]]].
      * exists n. split; [exact Hn | exact Hans].
      * discriminate Hconf.
      * congruence.
    + intros row Hin Hne.
      apply (Hrows (withExecution er) (fun _ => eq_refl) row Hin), Hne.
  - unfold repoUpdateStatus. rewrite S3. run_state.
    eexists. split; [reflexivity|]. run_state.
    split; [exact S1|]. rewrite S2.
    split; [apply length_map|].
    split.
    + intros row Hin Hid.
      destruct (Hrows (withStatus FAILED) (fun _ => eq_refl) row Hin) as [Hsame _].
      destruct (Hsame Hid) as (x & _ & ->). right. reflexivity.
    + intros row Hin Hne.
      apply (Hrows (withStatus FAILED) (fun _ => eq_refl) row Hin), Hne.
Qed.

End Watch.

(** *** Instances *)

Lemma chain_call_takes_time (call : ToolCall) (t : Z) :
  t <= snd (chainBackend call t).
Proof. destruct call; cbn; lia. Qed.

Lemma confirmation_wait_ends_witness :
  (forall call t, t <= snd (chainBackend call t))
  /\ (forall ms t : Z, t + ms <= t + ms)
  /\ exists c r',
       waitForConfirmation (num:=Q) chainBackend (fun t => t)
         (fun ms t => t + ms) "0x5c50" submittedRun = (Ok c, r')
       /\ (occurrences isPoll (newEvents submittedRun r') <= 30)%nat.
Proof.
  split; [exact chain_call_takes_time|]. split; [intros; lia|].
  destruct (@confirmation_wait_ends Q Z chainBackend (fun t => t)
              (fun ms t => t + ms) chain_call_takes_time
              (fun ms t => Z.le_refl (t + ms)) "0x5c50" submittedRun)
    as (c & r' & Hrun & Hpolls & _).
  exists c, r'. split; [exact Hrun | exact Hpolls].
Defined.

Lemma watch_settles_record_witness :
  (forall call t, t <= snd (chainBackend call t))
  /\ (forall ms t : Z, t + ms <= t + ms)
  /\ dbFaults (submittedRun (num:=Q)) = []
  /\ exists r',
       confirmationWatch (num:=Q) chainBackend (fun t => t)
         (fun ms t => t + ms) "trade-0" settledResult submittedRun = (Ok tt, r')
       /\ List.length (rows r') = 1%nat.
Proof.
  split; [exact chain_call_takes_time|]. split; [intros; lia|].
  split; [reflexivity|].
  destruct (@watch_settles_record Q Z chainBackend (fun t => t)
              (fun ms t => t + ms) chain_call_takes_time
              (fun ms t => Z.le_refl (t + ms)) "trade-0" settledResult
              submittedRun eq_refl)
    as (r' & Hrun & _ & Hlen & _).
  exists r'. split; [exact Hrun | exact Hlen].
Defined.

End MonitorFacts.

(* ===================================================================== *)
(** ** The Reddit posts: selection, ranking and scores *)
(* ===================================================================== *)

Module PostFacts.

Import Reddit.
Local Open Scope string_scope.
Local Open Scope list_scope.

Section AnyNumber.

Context {num : Type} `{Number num}.
Local Open Scope js_scope.

Lemma insertByKey_perm (key : RedditPost -> num) (x : RedditPost)
    (l : list RedditPost) :
  Permutation (insertByKey key x l) (x :: l).
Proof.
  induction l as [|y ys IH]; cbn [insertByKey]; [reflexivity|].
  destruct (key x <? key y); [|reflexivity].
  rewrite IH. apply perm_swap.
Qed.

(** Sorting rearranges, it neither drops nor adds a post. *)
Lemma sortByKey_perm (key : RedditPost -> num) (l : list RedditPost) :
  Permutation (sortByKey key l) l.
Proof.
  induction l as [|x xs IH]; cbn [sortByKey fold_right]; [reflexivity|].
  fold (sortByKey key xs). rewrite insertByKey_perm. now constructor.
Qed.

(** The posts kept by the filter on seen keys: from the input, with keys
    that were not seen and that differ from one another; and every key of
    the input is among the seen or the kept ones. *)
Lemma uniquePosts_spec (posts : list (RedditPost (num:=num))) :
  forall seen : list string,
  incl (uniquePosts seen posts) posts
  /\ NoDup (map dedupKey (uniquePosts seen posts))
  /\ (forall p, In p (uniquePosts seen posts) -> ~ In (dedupKey p) seen)
  /\ (forall p, In p posts ->
        In (dedupKey p) seen
        \/ In (dedupKey p) (map dedupKey (uniquePosts seen posts))).
Proof.
  induction posts as [|post rest IH]; intro seen; cbn [uniquePosts].
  - repeat split; try constructor; try contradiction. intros p [].
  - destruct (existsb (String.eqb (dedupKey post)) seen) eqn:E.
    + destruct (IH seen) as (I1 & I2 & I3 & I4).
      repeat split; try assumption.
      * intros p Hp. right. apply I1, Hp.
      * intros p [-> | Hp]; [|apply I4, Hp].
        left. apply existsb_exists in E. destruct E as (k & Hk & Heq).
        apply String.eqb_eq in Heq. now subst k.
    + destruct (IH (dedupKey post :: seen)) as (I1 & I2 & I3 & I4).
      repeat split.
      * intros p [-> | Hp]; [left; reflexivity | right; apply I1, Hp].
      * cbn [map]. constructor; [|exact I2].
        intro Hin. apply in_map_iff in Hin. destruct Hin as (p & Hk & Hp).
        apply (I3 p Hp). left. symmetry. exact Hk.
      * intros p [<- | Hp] Hin.
        -- assert (Ht : existsb (String.eqb (dedupKey post)) seen = true).
           { apply existsb_exists. exists (dedupKey post). split; [exact Hin|].
             apply String.eqb_refl. }
           congruence.
        -- apply (I3 p Hp). right. exact Hin.
      * intros p [-> | Hp]; [right; left; reflexivity|].
        destruct (I4 p Hp) as [[Heq | Hs] | Hk].
        -- right. left. exact Heq.
        -- left. exact Hs.
        -- right. right. exact Hk.
Qed.

(** The first post of a key that was not seen is kept. *)
Lemma uniquePosts_first (pre : list (RedditPost (num:=num)))
    (p : RedditPost) (rest : list RedditPost) :
  forall seen : list string,
  ~ In (dedupKey p) seen ->
  ~ In (dedupKey p) (map dedupKey pre) ->
  In p (uniquePosts seen (pre ++ p :: rest)).
Proof.
  assert (Hseen : forall k seen, ~ In k seen ->
                    existsb (String.eqb k) seen = false).
  { intros k seen Hn. destruct (existsb (String.eqb k) seen) eqn:E; [|reflexivity].
    apply existsb_exists in E. destruct E as (x & Hx & Heq).
    apply String.eqb_eq in Heq. subst x. contradiction. }
  induction pre as [|q pre IH]; intros seen Hs Hpre;
    cbn [app uniquePosts].
  - rewrite (Hseen _ _ Hs). left. reflexivity.
  - cbn [map] in Hpre.
    assert (Hq : dedupKey q <> dedupKey p) by (intro E; apply Hpre; left; exact E).
    assert (Hpre' : ~ In (dedupKey p) (map dedupKey pre))
      by (intro Hin; apply Hpre; right; exact Hin).
    destruct (existsb (String.eqb (dedupKey q)) seen).
    + apply IH; assumption.
    + right. apply IH; [|exact Hpre'].
      intros [E|Hin]; [exact (Hq E) | exact (Hs Hin)].
Qed.

End AnyNumber.

Local Open Scope Q_scope.

(** Largest key first. *)
Local Abbreviation descending key :=
  (StronglySorted (fun a b : RedditPost (num:=Q) => key b <= key a)).

Lemma firstn_sub (A : Type) (n : nat) (l : list A) : incl (firstn n l) l.
Proof.
  revert n. induction l as [|a l IH]; intros [|n] x Hx; cbn in *;
    try contradiction.
  destruct Hx as [-> | Hx]; [left; reflexivity | right; eapply IH, Hx].
Qed.

Lemma insertByKey_descending (key : RedditPost (num:=Q) -> Q) (x : RedditPost)
    (l : list RedditPost) :
  descending key l -> descending key (insertByKey key x l).
Proof.
  induction 1 as [|y ys Hs IH Hall]; cbn [insertByKey].
  - repeat constructor.
  - destruct (key x <? key y)%js eqn:E.
    + constructor; [exact IH|].
      apply Forall_forall. intros z Hz.
      apply (Permutation_in _ (insertByKey_perm key x ys)) in Hz.
      destruct Hz as [<- | Hz].
      * apply Qlt_bool_iff in E. apply Qlt_le_weak, E.
      * rewrite Forall_forall in Hall. apply Hall, Hz.
    + apply Qlt_bool_false_iff in E.
      constructor; [constructor; assumption|].
      constructor; [exact E|].
      apply Forall_forall. intros z Hz.
      rewrite Forall_forall in Hall.
      apply Qle_trans with (key y); [apply Hall, Hz | exact E].
Qed.

Lemma sortByKey_descending (key : RedditPost (num:=Q) -> Q) (l : list RedditPost) :
  descending key (sortByKey key l).
Proof.
  induction l as [|x xs IH]; cbn [sortByKey fold_right]; [constructor|].
  apply insertByKey_descending, IH.
Qed.

Lemma firstn_descending (key : RedditPost (num:=Q) -> Q) (n : nat)
    (l : list RedditPost) :
  descending key l -> descending key (firstn n l).
Proof.
  intro Hs. revert n. induction Hs as [|y ys Hs IH Hall]; intro n.
  - rewrite firstn_nil. constructor.
  - destruct n as [|n]; cbn [firstn]; [constructor|].
    constructor; [apply IH|].
    apply Forall_forall. intros z Hz. rewrite Forall_forall in Hall.
    apply Hall. eapply firstn_sub, Hz.
Qed.

Lemma firstn_NoDup (A : Type) (n : nat) (l : list A) :
  NoDup l -> NoDup (firstn n l).
Proof.
  intro Hn. revert n. induction Hn as [|a l Ha Hn IH]; intros [|n]; cbn;
    try constructor.
  - intro Hin. apply Ha. eapply firstn_sub, Hin.
  - apply IH.
Qed.

(** X20. [deduplicateAndRankPosts] returns at most 50 posts, all from the
    input, no two with the same key (the title and the subreddit joined by
    "-", which is what the code compares), hence no two with the same title
    and subreddit, in the order of their relevance score (score times
    upvote ratio, in exact arithmetic), the largest first; of at most 50
    input posts every key is the key of a returned post, which is the first
    post of the input with that key.  Posts of different titles and
    subreddits can share a key, and only the first of them is kept then,
    see [shared_key_drops_post]. *)
Theorem deduplicated_and_ranked (posts : list (RedditPost (num:=Q))) :
  let ranked := deduplicateAndRankPosts posts in
  (List.length ranked <= 50)%nat
  /\ incl ranked posts
  /\ NoDup (map dedupKey ranked)
  /\ StronglySorted (fun a b => relevanceScore b <= relevanceScore a) ranked
  /\ ((List.length posts <= 50)%nat ->
      (forall p, In p posts -> In (dedupKey p) (map dedupKey ranked))
      /\ (forall pre p rest, posts = pre ++ p :: rest ->
            ~ In (dedupKey p) (map dedupKey pre) -> In p ranked)).
Proof.
  cbv zeta. unfold deduplicateAndRankPosts.
  destruct (uniquePosts_spec posts []) as (I1 & I2 & _ & I4).
  pose proof (sortByKey_perm relevanceScore (uniquePosts [] posts)) as Hperm.
  split; [apply firstn_le_length|].
  split.
  { intros p Hp. apply I1. apply (Permutation_in _ Hperm).
    eapply firstn_sub, Hp. }
  split.
  { rewrite <- firstn_map. apply firstn_NoDup.
    apply (Permutation_NoDup (l := map dedupKey (uniquePosts [] posts)));
      [|exact I2].
    symmetry. apply Permutation_map, Hperm. }
  split; [apply firstn_descending, sortByKey_descending|].
  intros Hlen.
  rewrite firstn_all2.
  - split.
    + intros p Hp. destruct (I4 p Hp) as [[] | Hk].
      apply (Permutation_in _ (Permutation_map dedupKey (Permutation_sym Hperm))).
      exact Hk.
    + intros pre p rest -> Hfirst.
      apply (Permutation_in _ (Permutation_sym Hperm)).
      apply uniquePosts_first; [intros [] | exact Hfirst].
  - rewrite (Permutation_length Hperm).
    apply Nat.le_trans with (List.length posts); [|exact Hlen].
    apply NoDup_incl_length; [|exact I1].
    apply (NoDup_map_inv dedupKey), I2.
Qed.

(** The key does not tell the title from the subreddit: the posts
    ("a-b", "c") and ("a", "b-c") have the key "a-b-c", and the second is
    dropped as a duplicate of the first. *)
Lemma shared_key_drops_post :
  let post (title subreddit : string) : RedditPost (num:=Q) :=
    {| title := title; content := ""; score := 1; subreddit := subreddit;
       author := ""; created_utc := 0; num_comments := 0; upvote_ratio := 1;
       permalink := "" |} in
  dedupKey (post "a-b" "c") = dedupKey (post "a" "b-c")
  /\ deduplicateAndRankPosts [post "a-b" "c"; post "a" "b-c"]
     = [post "a-b" "c"].
Proof. split; reflexivity. Qed.

(** X21. The posts [processRedditData] analyses: at most 15, each from the
    input with a score above 5 and a content of more than 50 characters or
    a title of more than 20, ranked by relevance score (in exact
    arithmetic), the largest first; a post that meets the thresholds is left
    out only when 15 posts rank at least as high. *)
Theorem quality_posts_selected (posts : list (RedditPost (num:=Q))) :
  let selected := qualityPosts posts in
  (List.length selected <= 15)%nat
  /\ (forall p, In p selected ->
        In p posts /\ 5 < score p
        /\ (50 < String.length (content p) \/ 20 < String.length (title p))%nat)
  /\ StronglySorted (fun a b => relevanceScore b <= relevanceScore a) selected
  /\ (forall p, In p posts -> 5 < score p ->
        (50 < String.length (content p) \/ 20 < String.length (title p))%nat ->
        In p selected
        \/ (List.length selected = 15%nat
            /\ Forall (fun q => relevanceScore p <= relevanceScore q) selected)).
Proof.
  cbv zeta. unfold qualityPosts.
  set (passing := filter _ (filter _ posts)).
  pose proof (sortByKey_perm (fun p => (score p * upvote_ratio p)%js) passing)
    as Hperm.
  pose proof (sortByKey_descending (fun p => (score p * upvote_ratio p)%js) passing)
    as Hsorted.
  change (fun p : RedditPost => (score p * upvote_ratio p)%js)
    with (relevanceScore (num:=Q)) in *.
  set (sorted := sortByKey relevanceScore passing) in *.
  assert (Hpass : forall p, In p passing <->
            In p posts /\ 5 < score p
            /\ (50 < String.length (content p)
                \/ 20 < String.length (title p))%nat).
  { intro p. unfold passing. rewrite !filter_In, orb_true_iff, !Nat.ltb_lt.
    qnum. rewrite Qlt_bool_iff. tauto. }
  split; [apply firstn_le_length|].
  split.
  { intros p Hp. apply Hpass. apply (Permutation_in _ Hperm).
    eapply firstn_sub, Hp. }
  split; [apply firstn_descending, Hsorted|].
  intros p Hin Hscore Hlen.
  assert (Hp : In p sorted).
  { apply (Permutation_in _ (Permutation_sym Hperm)). apply Hpass. tauto. }
  clear Hperm Hpass. clearbody sorted.
  rewrite <- (firstn_skipn 15 sorted) in Hp, Hsorted.
  apply in_app_or in Hp. destruct Hp as [Hp | Hp]; [left; exact Hp | right].
  split.
  - destruct (Nat.le_gt_cases 15 (List.length sorted)) as [Hge | Hlt].
    + apply firstn_length_le, Hge.
    + rewrite skipn_all2 in Hp by lia. contradiction.
  - apply Forall_forall. intros q Hq.
    clear -Hsorted Hp Hq.
    induction (firstn 15 sorted) as [|a l IH]; [contradiction|].
    cbn [app] in Hsorted. inversion Hsorted as [|? ? Hs Hall]; subst.
    destruct Hq as [<- | Hq].
    + rewrite Forall_forall in Hall. apply Hall. apply in_or_app. right. exact Hp.
    + apply IH; assumption.
Qed.

(** X22. The credibility of a post lies between 0.5 and 1: the base 0.5, and
    the six indicators together (0.7) capped at 1. *)
Theorem credibility_range (post : RedditPost (num:=Q)) :
  1 # 2 <= calculatePostCredibility post <= 1
  /\ (calculatePostCredibility post == 1 # 2 <->
      existsb (String.eqb (subreddit post)) reputableSubs = false
      /\ score post <= 20 /\ num_comments post <= 10
      /\ upvote_ratio post <= 8 # 10
      /\ (String.length (content post) <= 200)%nat
      /\ includes (title post) "analysis" = false
      /\ includes (title post) "prediction" = false).
Proof.
  unfold calculatePostCredibility.
  destruct (existsb _ reputableSubs);
  destruct (score post >? lit 20)%js eqn:E1;
  destruct (num_comments post >? lit 10)%js eqn:E2;
  destruct (upvote_ratio post >? lit 0.8)%js eqn:E3;
  destruct (200 <? String.length (content post))%nat eqn:E4;
  destruct (includes (title post) "analysis");
  destruct (includes (title post) "prediction");
  cbn [orb]; qnum; qbool;
  first [apply Nat.ltb_lt in E4 | apply Nat.ltb_ge in E4];
  match goal with |- context [Qmin ?a ?b] =>
    pose proof (Q.min_spec a b) as Hmin; set (v := Qmin a b) in *; clearbody v
  end;
  (split; [lra|]);
  (split;
   [ intro Heq;
     first [ exfalso; lra
           | repeat split; first [reflexivity | assumption | lra] ]
   | intros (A1 & A2 & A3 & A4 & A5 & A6 & A7);
     first [ discriminate | lra | exfalso; lia ] ]).
Qed.

(** X23. The time relevance of a post lies between 0.3 and 1; of two posts
    the older one is never the more relevant, and a post dated in the future
    counts as new (relevance 1). *)
Theorem time_relevance_steps (created_utc : Q) (now : Z) :
  3 # 10 <= calculateTimeRelevance created_utc now <= 1
  /\ (forall older, older <= created_utc ->
        calculateTimeRelevance older now
        <= calculateTimeRelevance created_utc now)
  /\ (inject_Z now / 1000 <= created_utc ->
      calculateTimeRelevance created_utc now == 1).
Proof.
  cbv zeta. unfold calculateTimeRelevance. qnum.
  split; [|split].
  - repeat match goal with |- context [if ?b then _ else _] => destruct b end;
      lra.
  - intros older Hle.
    repeat match goal with
    | |- context [if ?b then _ else _] => destruct b eqn:?
    end; qbool; lra.
  - intro Hfut.
    destruct (Qlt_bool _ 1) eqn:E; [reflexivity|].
    qbool. lra.
Qed.

(** Three posts, the second sharing its key with the first: the third, the
    first of its key, is returned. *)
Lemma deduplicated_and_ranked_witness :
  let post (title subreddit : string) : RedditPost (num:=Q) :=
    {| title := title; content := ""; score := 1; subreddit := subreddit;
       author := ""; created_utc := 0; num_comments := 0; upvote_ratio := 1;
       permalink := "" |} in
  let posts := [post "a-b" "c"; post "a" "b-c"; post "x" "y"] in
  (List.length posts <= 50)%nat
  /\ ~ In (dedupKey (post "x" "y"))
         (map dedupKey [post "a-b" "c"; post "a" "b-c"])
  /\ In (post "x" "y") (deduplicateAndRankPosts posts).
Proof.
  intros post posts.
  assert (Hlen : (List.length posts <= 50)%nat) by (cbn; lia).
  assert (Hfirst : ~ In (dedupKey (post "x" "y"))
                     (map dedupKey [post "a-b" "c"; post "a" "b-c"])).
  { cbn. intros [E|[E|[]]]; discriminate. }
  split; [exact Hlen|]. split; [exact Hfirst|].
  destruct (deduplicated_and_ranked posts) as (_ & _ & _ & _ & Hall).
  destruct (Hall Hlen) as [_ Hkept].
  exact (Hkept [post "a-b" "c"; post "a" "b-c"] (post "x" "y") [] eq_refl Hfirst).
Defined.

End PostFacts.

(* ===================================================================== *)
(** ** The signal cache and the breaker across runs of the tool *)
(* ===================================================================== *)

Module SignalFacts.

Import Effects Reddit RedditScenarios CacheFacts.
Local Open Scope string_scope.
Local Open Scope Z_scope.

Section Caches.

Variable V : Type.

Local Abbreviation Cache := (LRUCache V).

Lemma deleted_keys (k : string) (es : list (Entry V)) :
  ~ In k (map key (filter (fun e => negb (hasKey k e)) es)).
Proof.
  intro Hin. apply in_map_iff in Hin. destruct Hin as (e & Hk & He).
  apply filter_In in He. destruct He as [_ Hf].
  unfold hasKey in Hf. rewrite Hk, String.eqb_refl in Hf. discriminate.
Qed.

Lemma filter_keys_NoDup (f : Entry V -> bool) (es : list (Entry V)) :
  NoDup (map key es) -> NoDup (map key (filter f es)).
Proof.
  induction es as [|e es IH]; cbn [map filter]; intro Hn; [constructor|].
  inversion Hn as [|? ? Hnot Hrest]; subst.
  destruct (f e); [|apply IH, Hrest].
  cbn [map]. constructor; [|apply IH, Hrest].
  intro Hin. apply Hnot. apply in_map_iff in Hin.
  destruct Hin as (x & Hk & Hx). apply filter_In in Hx.
  apply in_map_iff. exists x. tauto.
Qed.

Lemma filter_length_le (f : Entry V -> bool) (es : list (Entry V)) :
  (List.length (filter f es) <= List.length es)%nat.
Proof.
  induction es as [|e es IH]; cbn [filter List.length]; [lia|].
  destruct (f e); cbn [List.length]; lia.
Qed.

(** Deleting the key of an entry that is there makes the list shorter. *)
Lemma deleted_shorter (k : string) (e : Entry V) (es : list (Entry V)) :
  find (hasKey k) es = Some e ->
  (S (List.length (filter (fun x => negb (hasKey k x)) es)) <= List.length es)%nat.
Proof.
  induction es as [|x es IH]; cbn [find filter List.length]; [discriminate|].
  destruct (hasKey k x); cbn [negb].
  - intros _. pose proof (filter_length_le (fun x => negb (hasKey k x)) es). lia.
  - intro Hf. cbn [List.length]. specialize (IH Hf). lia.
Qed.

Lemma lru_delete_wellKept (k : string) (c : Cache) :
  wellKept c -> wellKept (lru_delete k c).
Proof.
  intros [Hn Hl]. unfold wellKept, lru_delete. cbn [entries max withEntries].
  split; [apply filter_keys_NoDup, Hn|].
  pose proof (filter_length_le (fun e => negb (hasKey k e)) (entries c)). lia.
Qed.

Lemma lru_set_wellKept (k : string) (v : V) (now : Z) (c : Cache) :
  wellKept c -> wellKept (lru_set k v now c).
Proof.
  intros [Hn Hl]. unfold wellKept, lru_set, lru_delete.
  cbn [entries max withEntries].
  split; [|apply firstn_le_length].
  rewrite <- firstn_map. apply PostFacts.firstn_NoDup.
  cbn [map key]. constructor; [apply deleted_keys|].
  apply filter_keys_NoDup, Hn.
Qed.

Lemma lru_get_wellKept (k : string) (now : Z) (c : Cache) :
  wellKept c -> wellKept (snd (lru_get k now c)).
Proof.
  intro Hw. unfold lru_get.
  destruct (find (hasKey k) (entries c)) as [e|] eqn:Hf; [|exact Hw].
  destruct (isStale c now e); cbn [snd]; [apply lru_delete_wellKept, Hw|].
  destruct Hw as [Hn Hl]. unfold wellKept, lru_delete.
  cbn [entries max withEntries map]. split.
  - destruct (find_some _ _ Hf) as [_ Hk]. unfold hasKey in Hk.
    apply String.eqb_eq in Hk. rewrite Hk.
    constructor; [apply deleted_keys | apply filter_keys_NoDup, Hn].
  - cbn [List.length]. pose proof (deleted_shorter _ _ Hf). lia.
Qed.

End Caches.

Section AnyWorld.

Context {num : Type} `{Number num}.
Variable Ext : Type.
Variable clock : Ext -> Z.
Variable generateQueryHash : ToolInput -> string.

Local Abbreviation Cache := (LRUCache (Cached (num:=num))).

Lemma getCachedResult_wellKept (marketId queryHash : string) (now : Z)
    (c : Cache) :
  wellKept c -> wellKept (snd (getCachedResult marketId queryHash now c)).
Proof.
  intro Hw. unfold getCachedResult.
  pose proof (lru_get_wellKept (cacheKeyOf marketId queryHash) now Hw) as Hg.
  destruct (lru_get _ now c) as [[hit|] c1]; cbn [snd] in *; [|exact Hg].
  destruct (_ >? _); cbn [snd]; [apply lru_delete_wellKept, Hg | exact Hg].
Qed.

(** X24. The signal cache stays in order whatever the tool does: after any
    run, against any source, it is configured as before (100 entries, five
    minutes), holds at most 100 entries and no two entries under one key. *)
Theorem signal_cache_bounded
    (searchRedditDiscussions : ToolInput -> M Ext (list (RedditPost (num:=num))))
    (analyzeQualityPosts :
       list (RedditPost (num:=num)) -> string -> M Ext (ProcessedRedditData (num:=num)))
    (input : ToolInput) (s : State Ext) :
  configured (cache s) -> wellKept (cache s) ->
  let s' := snd (redditIntelligenceTool clock searchRedditDiscussions
                   analyzeQualityPosts generateQueryHash input s) in
  configured (cache s') /\ wellKept (cache s')
  /\ (List.length (entries (cache s')) <= 100)%nat.
Proof.
  intros Hc Hw. cbv zeta.
  assert (Hboth : configured
                    (cache (snd (redditIntelligenceTool clock
                                   searchRedditDiscussions analyzeQualityPosts
                                   generateQueryHash input s)))
                  /\ wellKept
                       (cache (snd (redditIntelligenceTool clock
                                      searchRedditDiscussions
                                      analyzeQualityPosts generateQueryHash
                                      input s)))).
  { pose proof (getCachedResult_configured (marketId input)
                  (generateQueryHash input) (clock (ext s)) Hc) as Hc1.
    pose proof (getCachedResult_wellKept (marketId input)
                  (generateQueryHash input) (clock (ext s)) Hw) as Hw1.
    unfold redditIntelligenceTool, toolTry.
    destruct (getCachedResult _ _ _ _) as [[hit|] cache1]; cbn [snd] in *.
    - split; assumption.
    - destruct (execute clock (searchRedditDiscussions input) []
                  (circuitBreaker s, ext s)) as [[posts|e] [cb w]];
        cbn [snd cache]; [|split; assumption].
      destruct (processRedditData analyzeQualityPosts posts
                  (marketTitle input) w) as [[d|e] w'];
        cbn [snd cache]; [|split; assumption].
      split; [exact Hc1|]. unfold setCachedResult.
      apply lru_set_wellKept, Hw1. }
  destruct Hboth as [Hc' Hw']. split; [exact Hc'|]. split; [exact Hw'|].
  destruct Hc' as [Hmax _]. destruct Hw' as [_ Hlen]. rewrite Hmax in Hlen.
  exact Hlen.
Qed.

(** X25. A fresh result is served from the cache: when the search and the
    analysis go through, the result is stored, and every run for the same
    question during the next five minutes returns it as a cache hit without
    consulting the source (whatever the source and the model would answer by
    then) and without touching the breaker. *)
Theorem fresh_result_served_from_cache
    (searchRedditDiscussions : ToolInput -> M Ext (list (RedditPost (num:=num))))
    (analyzeQualityPosts :
       list (RedditPost (num:=num)) -> string -> M Ext (ProcessedRedditData (num:=num)))
    (input : ToolInput) (s : State Ext)
    (posts : list RedditPost) (d : ProcessedRedditData) (w1 w2 : Ext) :
  configured (cache s) ->
  fst (getCachedResult (marketId input) (generateQueryHash input)
         (clock (ext s)) (cache s)) = None ->
  isOpen (circuitBreaker s) (clock (ext s)) = false ->
  searchRedditDiscussions input (ext s) = (Ok posts, w1) ->
  processRedditData analyzeQualityPosts posts (marketTitle input) w1 = (Ok d, w2) ->
  let out := fst (redditIntelligenceTool clock searchRedditDiscussions
                    analyzeQualityPosts generateQueryHash input s) in
  let s' := snd (redditIntelligenceTool clock searchRedditDiscussions
                   analyzeQualityPosts generateQueryHash input s) in
  out = {| out_data := d; sources := ["reddit-api"]; cached := false |}
  /\ ext s' = w2
  /\ failures (circuitBreaker s') = 0
  /\ forall (w : Ext) search' analyze',
       clock w - clock w2 <= 5 * 60 * 1000 ->
       let later := {| circuitBreaker := circuitBreaker s';
                       cache := cache s'; ext := w |} in
       fst (redditIntelligenceTool clock search' analyze' generateQueryHash
              input later)
       = {| out_data := d; sources := ["reddit-cache"]; cached := true |}
       /\ ext (snd (redditIntelligenceTool clock search' analyze'
                      generateQueryHash input later)) = w
       /\ circuitBreaker (snd (redditIntelligenceTool clock search' analyze'
                                 generateQueryHash input later))
          = circuitBreaker s'.
Proof.
  intros Hconf Hmiss Hclosed Hsearch Hproc.
  pose proof (getCachedResult_configured (marketId input)
                (generateQueryHash input) (clock (ext s)) Hconf) as Hconf1.
  assert (Hrun : redditIntelligenceTool clock searchRedditDiscussions
                   analyzeQualityPosts generateQueryHash input s
          = ({| out_data := d; sources := ["reddit-api"]; cached := false |},
             {| circuitBreaker := onSuccess (circuitBreaker s);
                cache := setCachedResult (marketId input)
                           (generateQueryHash input) d (clock w2)
                           (snd (getCachedResult (marketId input)
                                   (generateQueryHash input)
                                   (clock (ext s)) (cache s)));
                ext := w2 |})).
  { unfold redditIntelligenceTool, toolTry.
    destruct (getCachedResult _ _ _ _) as [[hit|] cache1]; [discriminate|].
    unfold execute. rewrite Hclosed, Hsearch, Hproc. reflexivity. }
  cbv zeta. rewrite Hrun. cbn [fst snd ext circuitBreaker cache].
  split; [reflexivity|]. split; [reflexivity|]. split; [reflexivity|].
  intros w search' analyze' Hnow.
  assert (Hfresh : fst (getCachedResult (marketId input)
                          (generateQueryHash input) (clock w)
                          (setCachedResult (marketId input)
                             (generateQueryHash input) d (clock w2)
                             (snd (getCachedResult (marketId input)
                                     (generateQueryHash input)
                                     (clock (ext s)) (cache s)))))
                   = Some d)
    by (apply lookup_after_insert; [exact Hconf1 | exact Hnow]).
  unfold redditIntelligenceTool, toolTry. cbn [ext cache circuitBreaker].
  destruct (getCachedResult _ _ (clock w) (setCachedResult _ _ _ _ _))
    as [[hit|] cache2]; cbn [fst] in Hfresh; [|discriminate].
  injection Hfresh as ->. repeat split.
Qed.

End AnyWorld.

Section Breakers.

Variable Ext : Type.
Variable clock : Ext -> Z.
Variable T : Type.

(** X26. Failures before a success do not count: after a call that went
    through, fewer failing calls than the threshold are all invoked and
    leave the breaker closed, however many failures the breaker had counted
    before (as long as it was not open). *)
Theorem success_resets_breaker (fallback : T) (cb : RedditApiCircuitBreaker)
    (w w1 : Ext) (operation : M Ext T) (x : T) (failing : list (M Ext T)) :
  isOpen cb (clock w) = false ->
  operation w = (Ok x, w1) ->
  Forall (alwaysFails (Ext:=Ext)) failing ->
  Z.of_nat (List.length failing) < failureThreshold cb ->
  let '(outcomes, (cb', w')) :=
    executeAll clock (operation :: failing) fallback (cb, w) in
  (exists throws, outcomes = Ok x :: throws
                  /\ Forall (isThrow (T:=T)) throws
                  /\ List.length throws = List.length failing)
  /\ failures cb' = Z.of_nat (List.length failing)
  /\ forall now, isOpen cb' now = false.
Proof.
  intros Hclosed Hop Hall Hlen.
  cbn [executeAll]. unfold execute at 1. rewrite Hclosed, Hop.
  pose proof (@BreakerFacts.failures_accumulate Ext clock T fallback failing
                (onSuccess cb) w1 Hall) as Hacc.
  cbn [failures onSuccess failureThreshold] in Hacc.
  destruct (executeAll clock failing fallback (onSuccess cb, w1))
    as [outcomes [cb' w']].
  destruct Hacc as (I1 & I2 & I3 & I4 & _); [lia|].
  split; [exists outcomes; repeat split; assumption|].
  split; [lia|].
  intro now. apply BreakerFacts.below_threshold_closed. lia.
Qed.

End Breakers.

(** *** Instances *)

Lemma signal_cache_bounded_witness :
  let s' := snd (redditIntelligenceTool (num:=Q) tick (fun _ => emptySearch)
                   noAnalysis fixedHash question freshState) in
  configured (cache (freshState (num:=Q)))
  /\ wellKept (cache (freshState (num:=Q)))
  /\ (List.length (entries (cache s')) <= 100)%nat.
Proof.
  assert (Hc : configured (cache (freshState (num:=Q)))) by (split; reflexivity).
  assert (Hw : wellKept (cache (freshState (num:=Q))))
    by (split; [constructor | cbn; lia]).
  split; [exact Hc|]. split; [exact Hw|].
  apply (@signal_cache_bounded Q _ Z tick fixedHash (fun _ => emptySearch)
           noAnalysis question freshState Hc Hw).
Defined.

Lemma fresh_result_served_from_cache_witness :
  let run := redditIntelligenceTool (num:=Q) tick (fun _ => emptySearch)
               noAnalysis fixedHash in
  let s' := snd (run question freshState) in
  fst (run question freshState)
  = {| out_data := neutralData; sources := ["reddit-api"]; cached := false |}
  /\ fst (redditIntelligenceTool (num:=Q) tick (fun _ => failingSearch)
            noAnalysis fixedHash question
            {| circuitBreaker := circuitBreaker s'; cache := cache s';
               ext := 200000 |})
     = {| out_data := neutralData; sources := ["reddit-cache"]; cached := true |}.
Proof.
  assert (Hc : configured (cache (freshState (num:=Q)))) by (split; reflexivity).
  destruct (@fresh_result_served_from_cache Q _ Z tick fixedHash
              (fun _ => emptySearch) noAnalysis question freshState
              [] neutralData 1000 1000 Hc eq_refl eq_refl eq_refl eq_refl)
    as (Hout & _ & _ & Hlater).
  split; [exact Hout|].
  apply (Hlater 200000 (fun _ => failingSearch) noAnalysis). cbn. lia.
Defined.

Lemma success_resets_breaker_witness :
  let cb := {| failures := 4; lastFailureTime := 0;
               failureThreshold := 5; recoveryTimeout := 300000 |} in
  let '(outcomes, (cb', w')) :=
    executeAll tick (emptySearch (T:=nat) :: repeat failingSearch 4) [7%nat]
      (cb, 0) in
  isOpen cb (tick 0) = false
  /\ failures cb' = 4
  /\ forall now, isOpen cb' now = false.
Proof.
  assert (Hall : Forall (alwaysFails (Ext:=Z))
                   (repeat (failingSearch (T:=list nat)) 4)).
  { apply Forall_forall. intros op Hin. apply repeat_spec in Hin. subst op.
    intro w. eexists. eexists. reflexivity. }
  pose proof (@success_resets_breaker Z tick (list nat) [7%nat]
                {| failures := 4; lastFailureTime := 0;
                   failureThreshold := 5; recoveryTimeout := 300000 |}
                0 1000 emptySearch [] (repeat failingSearch 4)
                eq_refl eq_refl Hall) as Hrun.
  cbv zeta.
  destruct (executeAll tick (emptySearch :: repeat failingSearch 4) [7%nat] _)
    as [outcomes [cb' w']].
  destruct Hrun as (_ & Hf & Hclosed); [cbn; lia|].
  split; [reflexivity|]. split; [exact Hf | exact Hclosed].
Defined.

End SignalFacts.

(* ===================================================================== *)
(** ** The sentiment utilities *)
(* ===================================================================== *)

Module SentimentFacts.

Import Sentiment.
Local Open Scope Q_scope.

(** The two sums of [calculateAggregateSentiment], from any start. *)
Lemma weighted_sums (lo hi : Q) (sentiments : list (SentimentResult (num:=Q))) :
  Forall (fun s => lo <= score s <= hi /\ 0 <= confidence s) sentiments ->
  forall a b : Q,
  0 <= b -> lo * b <= a <= hi * b ->
  let weightedSum :=
    fold_left (fun sum s => (sum + score s * confidence s)%js) sentiments a in
  let totalWeight :=
    fold_left (fun sum s => (sum + confidence s)%js) sentiments b in
  0 <= totalWeight /\ lo * totalWeight <= weightedSum <= hi * totalWeight.
Proof.
  induction 1 as [|s rest [[Hlo Hhi] Hc] _ IH]; intros a b Hb Hab; cbn [fold_left].
  - split; assumption.
  - apply IH; qnum.
    + lra.
    + assert (H1 : lo * confidence s <= score s * confidence s)
        by (apply Qmult_le_compat_r; assumption).
      assert (H2 : score s * confidence s <= hi * confidence s)
        by (apply Qmult_le_compat_r; assumption).
      split; [ setoid_replace (lo * (b + confidence s))
                 with (lo * b + lo * confidence s) by ring
             | setoid_replace (hi * (b + confidence s))
                 with (hi * b + hi * confidence s) by ring ];
        lra.
Qed.

(** X27. In exact arithmetic the aggregate sentiment is a weighted mean:
    with confidences that are not negative it lies between any two bounds
    that hold the scores and 0, so within [[-1,1]] for scores on that scale;
    with no result, or with no confidence in any, it is 0.  (In binary64
    the quotient can pass a bound by one rounding, see
    [rounded_mean_passes_bound].) *)
Theorem aggregate_sentiment_bounds (lo hi : Q)
    (sentiments : list (SentimentResult (num:=Q))) :
  lo <= 0 <= hi ->
  Forall (fun s => lo <= score s <= hi /\ 0 <= confidence s) sentiments ->
  lo <= calculateAggregateSentiment sentiments <= hi
  /\ (Forall (fun s => confidence s == 0) sentiments ->
      calculateAggregateSentiment sentiments == 0).
Proof.
  intros H0 Hall. unfold calculateAggregateSentiment.
  destruct sentiments as [|s0 rest]; [qnum; split; [lra | reflexivity]|].
  assert (Hsums := @weighted_sums lo hi (s0 :: rest) Hall 0 0).
  destruct Hsums as [Htw Hws]; [lra | lra |].
  cbv zeta in Htw, Hws.
  change (@lit Q _ 0) with 0 in *.
  set (ws := fold_left (fun sum s => (sum + score s * confidence s)%js)
               (s0 :: rest) 0) in *.
  set (tw := fold_left (fun sum s => (sum + confidence s)%js)
               (s0 :: rest) 0) in *.
  assert (Hz : Forall (fun s => confidence s == 0) (s0 :: rest) -> tw == 0).
  { intro Hzero. subst tw. clear -Hzero.
    assert (G : forall b, b == 0 ->
              fold_left (fun sum s => (sum + confidence s)%js) (s0 :: rest) b
              == 0).
    { induction Hzero as [|s l Hs _ IH]; intros b Hb; cbn [fold_left];
        [exact Hb|].
      apply IH. qnum. rewrite Hs, Hb. reflexivity. }
    apply G. reflexivity. }
  clearbody ws tw.
  destruct (tw >? 0)%js eqn:E; qnum; qbool.
  - split; [|intro Hzero; specialize (Hz Hzero); lra].
    split.
    + apply Qle_shift_div_l; [exact E | lra].
    + apply Qle_shift_div_r; [exact E | lra].
  - split; [lra | intros _; reflexivity].
Qed.

Lemma aggregate_sentiment_bounds_witness :
  let sentiments :=
    [ {| score := 8 # 10; confidence := 9 # 10; reasoning := "strong" |};
      {| score := -(1 # 2); confidence := 1 # 10; reasoning := "weak" |} ] in
  -1 <= calculateAggregateSentiment (num:=Q) sentiments <= 1.
Proof.
  apply (@aggregate_sentiment_bounds (-1) 1
           [ {| score := 8 # 10; confidence := 9 # 10; reasoning := "strong" |};
             {| score := -(1 # 2); confidence := 1 # 10; reasoning := "weak" |} ]).
  - split; vm_compute; discriminate.
  - repeat constructor; vm_compute; discriminate.
Defined.

(** In binary64 the bound that holds every score can be passed by one
    rounding: a single result of score 0.8 and confidence 0.8 has the
    aggregate 0.8000000000000002. *)
Lemma rounded_mean_passes_bound :
  let a64 :=
    calculateAggregateSentiment (num:=spec_float)
      [ {| score := lit 0.8; confidence := lit 0.8; reasoning := "one" |} ] in
  let aQ :=
    calculateAggregateSentiment (num:=Q)
      [ {| score := lit 0.8; confidence := lit 0.8; reasoning := "one" |} ] in
  (a64 >? lit 0.8)%js = true /\ (a64 <=? lit 1)%js = true /\ aQ == 8 # 10.
Proof. vm_compute. repeat split. Qed.

End SentimentFacts.

(* ===================================================================== *)
(** ** The autonomous trading workflow *)
(* ===================================================================== *)

Module WorkflowFacts.

Import Workflow.
Local Open Scope string_scope.
Local Open Scope Q_scope.

(** X28. The workflow's market filters: a market passes exactly with a
    liquidity of at least 1000 and at least 12 hours to its close; both
    tests are always made and reported; the opportunity score lies between
    0 and 100, and is 100 exactly when the liquidity is above 5000, the
    daily volume above 1000, the close more than 24 hours away and the
    price strictly between 0.2 and 0.8. *)
Theorem workflow_filters (input : AutonomousTradingInput (num:=Q)) :
  let r := applyMarketFilters input in
  (passed r = true <-> 1000 <= liquidity input /\ 43200000 <= timeToClose input)
  /\ List.length (filtersApplied r) = 2%nat
  /\ 0 <= opportunityScore r <= 100
  /\ (opportunityScore r == 100 <->
      5000 < liquidity input /\ 1000 < volume24h input
      /\ 86400000 < timeToClose input
      /\ 2 # 10 < currentPrice input < 8 # 10).
Proof.
  cbv zeta. unfold applyMarketFilters.
  cbn [passed filtersApplied opportunityScore List.length].
  split; [|split; [reflexivity|]].
  - destruct (liquidity input <? lit 1000)%js eqn:E1;
    destruct (timeToClose input / (lit 1000 * lit 60 * lit 60) <? lit 12)%js eqn:E2;
    cbn [negb andb]; qnum; qbool;
    (split; [ intro Hp; try discriminate; split; lra
            | intros [A1 A2]; first [reflexivity | exfalso; lra] ]).
  - destruct (liquidity input >? lit 5000)%js eqn:E1;
    destruct (volume24h input >? lit 1000)%js eqn:E2;
    destruct (timeToClose input / (lit 1000 * lit 60 * lit 60) >? lit 24)%js eqn:E3;
    destruct (currentPrice input >? lit 0.2)%js eqn:E4;
    destruct (currentPrice input <? lit 0.8)%js eqn:E5;
    cbn [andb]; qnum; qbool;
    (split; [lra|]);
    (split; [intro Heq; first [exfalso; lra | repeat split; lra]
            | intros (A1 & A2 & A3 & A4 & A5); first [reflexivity | lra]]).
Qed.

(** The mean of three scores within [[-1,1]]. *)
Lemma mean_sentiment (intelligence : IntelligenceBundle (num:=Q)) :
  -1 <= news_sentiment_score intelligence <= 1 ->
  -1 <= twitter_sentiment_score intelligence <= 1 ->
  -1 <= reddit_sentiment_score intelligence <= 1 ->
  0 <= Qabs ((news_sentiment_score intelligence
              + twitter_sentiment_score intelligence
              + reddit_sentiment_score intelligence) / 3) <= 1.
Proof.
  intros H1 H2 H3. split; [apply Qabs_nonneg|].
  apply Qabs_Qle_condition. qnum. lra.
Qed.

(** X29. The fallback decision in exact arithmetic, for sentiment scores
    on the scale [[-1,1]]: the confidence lies between 25 and 75; the
    decision is HOLD exactly when the mean sentiment is within 0.3 of zero,
    and otherwise BUY (never SELL or NONE) of "Yes" for a positive mean and
    "No" for a negative one, with an amount between 40 and 50.  (The test
    the code makes is on the confidence, [|mean| * 50 + 25 < 40]; in
    binary64 its rounding moves the boundary, see
    [rounded_confidence_buys].) *)
Theorem fallback_decision (intelligence : IntelligenceBundle (num:=Q)) :
  -1 <= news_sentiment_score intelligence <= 1 ->
  -1 <= twitter_sentiment_score intelligence <= 1 ->
  -1 <= reddit_sentiment_score intelligence <= 1 ->
  let avg := (news_sentiment_score intelligence
              + twitter_sentiment_score intelligence
              + reddit_sentiment_score intelligence) / 3 in
  let d := makeFallbackDecision intelligence in
  25 <= confidence d <= 75
  /\ (action d = HOLD <-> Qabs avg < 3 # 10)
  /\ (action d = BUY <-> 3 # 10 <= Qabs avg)
  /\ (action d = HOLD -> outcome d = None /\ amount d = None)
  /\ (action d = BUY ->
      outcome d = Some (if Qlt_bool 0 avg then "Yes" else "No")
      /\ exists a, amount d = Some a /\ 40 <= a <= 50).
Proof.
  intros H1 H2 H3. cbv zeta. unfold makeFallbackDecision.
  set (avg := ((_ + _ + _) / lit 3)%js).
  assert (Havg : -1 <= avg <= 1) by (subst avg; qnum; lra).
  assert (Habs : 0 <= Qabs avg <= 1).
  { split; [apply Qabs_nonneg|]. apply Qabs_Qle_condition. lra. }
  change ((news_sentiment_score intelligence
           + twitter_sentiment_score intelligence
           + reddit_sentiment_score intelligence) / 3) with avg.
  clearbody avg.
  destruct (Math_abs avg * lit 50 + lit 25 <? lit 40)%js eqn:E;
    cbn [confidence action outcome amount]; qnum; qbool;
    set (a := Qabs avg) in *; clearbody a.
  - split; [lra|]. split; [split; [intros _; lra | reflexivity]|].
    split; [split; [discriminate | intro; lra]|].
    split; [intros _; split; reflexivity | discriminate].
  - split; [lra|]. split; [split; [discriminate | intro; lra]|].
    split; [split; [intros _; lra | reflexivity]|].
    split; [discriminate|]. intros _. split; [reflexivity|].
    eexists. split; [reflexivity|]. qminmax. lra.
Qed.

(** X30. Whatever the model answers, and for sentiment scores on the scale
    [[-1,1]], the decision the workflow works with has a confidence between
    0 and 100 and a position size between 0 and 100. *)
Theorem autonomous_decision_bounds (answer : option (Decision (num:=Q)))
    (intelligence : IntelligenceBundle (num:=Q)) :
  -1 <= news_sentiment_score intelligence <= 1 ->
  -1 <= twitter_sentiment_score intelligence <= 1 ->
  -1 <= reddit_sentiment_score intelligence <= 1 ->
  let d := makeAutonomousDecision answer intelligence in
  0 <= confidence d <= 100 /\ 0 <= positionSize d <= 100.
Proof.
  intros H1 H2 H3. cbv zeta. unfold makeAutonomousDecision.
  destruct answer as [decision|].
  - unfold safetyBounds, positionSize. cbn [confidence amount].
    split; [qnum; qminmax; lra|].
    destruct (amount decision) as [a|]; [|qnum; lra].
    destruct ((a <? lit 0) || (a >? lit 0))%js eqn:E.
    + match goal with |- context [if ?b then _ else _] => destruct b end;
        qnum; qminmax; lra.
    + rewrite E. qnum; lra.
  - pose proof (mean_sentiment intelligence H1 H2 H3) as Habs.
    unfold makeFallbackDecision, positionSize.
    set (a := Qabs _) in Habs.
    change (Math_abs ((news_sentiment_score intelligence
                       + twitter_sentiment_score intelligence
                       + reddit_sentiment_score intelligence) / lit 3)%js)
      with a.
    clearbody a.
    destruct (a * lit 50 + lit 25 <? lit 40)%js eqn:E;
      cbn [confidence amount]; qnum; qbool.
    + split; lra.
    + split; [lra|].
      pose proof (Q.min_spec 50 (a * 50 + 25)) as Hmin.
      set (v := Qmin 50 (a * 50 + 25)) in *. clearbody v.
      replace (Qlt_bool v 0 || Qlt_bool 0 v) with true; [lra|].
      symmetry. apply orb_true_iff. right. apply Qlt_bool_iff. lra.
Qed.

(** *** Instances *)

Lemma fallback_decision_witness :
  let intelligence :=
    {| news_sentiment_score := 6 # 10; twitter_sentiment_score := 9 # 10;
       reddit_sentiment_score := 3 # 10 |} in
  action (makeFallbackDecision (num:=Q) intelligence) = BUY
  /\ 25 <= confidence (makeFallbackDecision intelligence) <= 75.
Proof.
  pose proof (@fallback_decision
                {| news_sentiment_score := 6 # 10;
                   twitter_sentiment_score := 9 # 10;
                   reddit_sentiment_score := 3 # 10 |}) as Hd.
  cbv zeta in Hd.
  destruct Hd as (Hc & _ & Hbuy & _);
    try (split; vm_compute; discriminate).
  split; [|exact Hc].
  apply Hbuy. vm_compute. discriminate.
Defined.

Lemma autonomous_decision_bounds_witness :
  let answer :=
    Some {| action := BUY; outcome := Some "Yes"; confidence := 250;
            amount := Some 5000; reasoning := "certain";
            keyFactors := []; riskAssessment := "none" |} in
  let intelligence :=
    {| news_sentiment_score := 0; twitter_sentiment_score := 0;
       reddit_sentiment_score := 0 |} in
  0 <= confidence (makeAutonomousDecision (num:=Q) answer intelligence) <= 100
  /\ 0 <= positionSize (makeAutonomousDecision answer intelligence) <= 100.
Proof.
  apply (@autonomous_decision_bounds
           (Some {| action := BUY; outcome := Some "Yes"; confidence := 250;
                    amount := Some 5000; reasoning := "certain";
                    keyFactors := []; riskAssessment := "none" |})
           {| news_sentiment_score := 0; twitter_sentiment_score := 0;
              reddit_sentiment_score := 0 |});
    split; vm_compute; discriminate.
Defined.

(** In binary64 the boundary of the fallback moves by a rounding: for three
    scores of 0.29999999999999993 (the double below 0.3) the mean is below
    0.3, yet the confidence is the double 40 and the decision is BUY, where
    exact arithmetic gives HOLD. *)
Lemma rounded_confidence_buys :
  let x := 2702159776422297 # 9007199254740992 in
  let mean : spec_float := ((lit x + lit x + lit x) / lit 3)%js in
  let d64 :=
    makeFallbackDecision (num:=spec_float)
      {| news_sentiment_score := lit x; twitter_sentiment_score := lit x;
         reddit_sentiment_score := lit x |} in
  let dQ :=
    makeFallbackDecision (num:=Q)
      {| news_sentiment_score := lit x; twitter_sentiment_score := lit x;
         reddit_sentiment_score := lit x |} in
  (Math_abs mean <? lit 0.3)%js = true
  /\ action d64 = BUY /\ confidence d64 = lit 40
  /\ action dQ = HOLD.
Proof. vm_compute. repeat split. Qed.

End WorkflowFacts.
